(** * Lottery Silver transformer: a shallow embedding of
      [glue_job_transformer/transformer/transformer.py]

    The development follows the Python module top to bottom:

    - [PyText]: the few string primitives of Python the module relies on
      ([str.upper], [str.split], [str(int)], [int(str)], and the regular
      expression [sorteo=(\d+)/] searched with [re.search]);
    - exceptions, and calls that raise or return;
    - [Frame]: the part of pandas the module uses (a [DataFrame] is a
      number of rows and a finite map from column names to columns of
      cells);
    - the collaborators as interfaces: [Runtime] (what pandas and Python
      compute on one cell or one file), [Parser] ([parser.parser]) and
      [Config] (the two bucket globals);
    - [S3]: the object store, the trace of calls of a run, and the calls of
      [extractor.s3_utils];
    - [Transformer]: [_to_int64], [_to_float64], [_to_string], the stages of
      the body of the [for] loop of [transform], the loop, and [main];
    - [Fixture]: one concrete instance of the collaborators, used to run the
      model on explicit inputs;
    - the properties.

    Strings are byte strings; object keys and parsed cells are ASCII in every
    example. *)

From Stdlib Require Import ZArith NArith String Ascii List Bool Lia.
From Stdlib Require Import DecimalString DecimalN PrimFloat Uint63 FloatOps SpecFloat.
From stdpp Require Import base option list gmap strings.

Local Open Scope string_scope.

(* ================================================================== *)
(** ** Python text primitives                                          *)
(* ================================================================== *)

Module PyText.

(** [s.startswith(p)], returning the remainder of [s] after [p]. *)
Fixpoint strip_prefix (p s : string) : option string :=
  match p, s with
  | EmptyString, _ => Some s
  | String a p', String b s' =>
      if Ascii.eqb a b then strip_prefix p' s' else None
  | String _ _, EmptyString => None
  end.

Definition startswith (p s : string) : bool :=
  match strip_prefix p s with Some _ => true | None => false end.

(** The character class [\d], on ASCII. *)
Definition is_digit (c : ascii) : bool :=
  let n := nat_of_ascii c in (48 <=? n)%nat && (n <=? 57)%nat.

(** The longest run of digits at the front of [s], and what follows it:
    the greedy [\d+] (when the run is not empty). *)
Fixpoint span_digits (s : string) : string * string :=
  match s with
  | String c s' =>
      if is_digit c
      then let '(d, r) := span_digits s' in (String c d, r)
      else (EmptyString, s)
  | EmptyString => (EmptyString, EmptyString)
  end.

(** [int(text)] for a text of decimal digits (leading zeros allowed). *)
Definition int_of_digits (d : string) : option N :=
  N.of_uint <$> NilEmpty.uint_of_string d.

(** [str(n)], also what an f-string prints for a non-negative [int]. *)
Definition str_of_N (n : N) : string :=
  NilEmpty.string_of_uint (N.to_uint n).

(** The pattern [sorteo=(\d+)/] anchored at the front of [s]; the result is
    [int(match.group(1))].  A shorter run of digits can never be followed by
    the slash when the longest one is not, so no backtracking is needed. *)
Definition match_sorteo_here (s : string) : option N :=
  match strip_prefix "sorteo=" s with
  | Some rest =>
      match span_digits rest with
      | (String _ _ as d, String "/" _) => int_of_digits d
      | _ => None
      end
  | None => None
  end.

(** [re.search(r"sorteo=(\d+)/", s)]: the leftmost position where the
    pattern matches. *)
Fixpoint re_search_sorteo (s : string) : option N :=
  match match_sorteo_here s with
  | Some n => Some n
  | None =>
      match s with
      | String _ s' => re_search_sorteo s'
      | EmptyString => None
      end
  end.

(** [s.split(sep)] for a one-character separator: never an empty list. *)
Fixpoint str_split (sep : ascii) (s : string) : list string :=
  match s with
  | EmptyString => [EmptyString]
  | String c s' =>
      if Ascii.eqb c sep then EmptyString :: str_split sep s'
      else match str_split sep s' with
           | h :: t => String c h :: t
           | [] => [String c EmptyString]
           end
  end.

(** [s.upper()] on ASCII letters; every other byte is kept. *)
Definition ascii_upper (c : ascii) : ascii :=
  let n := nat_of_ascii c in
  if (97 <=? n)%nat && (n <=? 122)%nat then ascii_of_nat (n - 32) else c.

Fixpoint str_upper (s : string) : string :=
  match s with
  | EmptyString => EmptyString
  | String c s' => String (ascii_upper c) (str_upper s')
  end.

End PyText.

Import PyText.

(* ================================================================== *)
(** ** Exceptions                                                      *)
(* ================================================================== *)

(** The exceptions that can leave a call.  [transform] has no [try]: an
    exception raised anywhere leaves every enclosing call. *)
Inductive exn :=
  | KeyError (key : string)
  | ValueError (msg : string)
  | TypeError (msg : string)
  | OverflowError (msg : string)
  | ClientError (bucket key : string)
  | ParserError (msg : string).

(** A call either raises or returns. *)
Definition result (A : Type) : Type := exn + A.

Definition raise {A} (e : exn) : result A := inl e.
Definition ok {A} (a : A) : result A := inr a.

#[global] Instance result_ret : MRet result := λ A a, inr a.
#[global] Instance result_bind : MBind result :=
  λ A B k r, match r with inl e => inl e | inr a => k a end.

(* ================================================================== *)
(** ** The part of pandas that [transform] uses                        *)
(* ================================================================== *)

Module Frame.

(** A calendar date, as far as the module looks at it ([.dt.year]). *)
Record Timestamp := mkTimestamp { year : N; month : N; day : N }.

(** A cell.  [VNull] stands for every pandas null ([None], [NaN], [<NA>],
    [NaT]).  The parser produces text and nulls; the typed cells only come
    out of the casts of the schema stages. *)
Inductive value :=
  | VNull
  | VStr (s : string)
  | VInt (z : Z)
  | VFloat (f : float)
  | VDate (t : Timestamp).

(** The dtype of a column, as far as the casts go by it: [object] for what
    [pd.DataFrame] builds from the parsed records and for a column of
    [None], [string] for the result of [.astype("string")] and of
    [.str.split] on it. *)
Inductive dtype := ObjectDtype | StringDtype.

(** [pd.isna] on one cell. *)
Definition isna (v : value) : bool :=
  match v with
  | VNull => true
  | VFloat f => is_nan f
  | _ => false
  end.

(** [Series.fillna(d)]. *)
Definition fillna (d : value) (s : list value) : list value :=
  (λ v, if isna v then d else v) <$> s.

(** A [DataFrame]: a number of rows and named columns.  (Column order is
    not kept: nothing in [transform] depends on it.) *)
Record DataFrame := mkDataFrame {
  nrows : nat;
  columns : gmap string (list value)
}.

(** [pd.DataFrame(records)] for a list of dicts: one row per dict, one
    column per key that occurs in some dict, null where a dict lacks it. *)
Definition column_of (records : list (gmap string value)) (k : string)
  : list value :=
  (λ r, default VNull (r !! k)) <$> records.

Definition column_names (records : list (gmap string value)) : gset string :=
  ⋃ (dom <$> records).

Definition DataFrame_of_records (records : list (gmap string value))
  : DataFrame :=
  mkDataFrame (length records)
    (set_to_map (λ k, (k, column_of records k)) (column_names records)).

(** [df[c]]: [KeyError] when there is no such column. *)
Definition getitem (df : DataFrame) (c : string) : result (list value) :=
  match columns df !! c with
  | Some s => ok s
  | None => raise (KeyError c)
  end.

(** The cell of column [c] at row [i], when there is one. *)
Definition cell (df : DataFrame) (c : string) (i : nat) : option value :=
  columns df !! c ≫= (.!! i).

(** [df[c] = series]. *)
Definition setitem (c : string) (s : list value) (df : DataFrame)
  : DataFrame :=
  mkDataFrame (nrows df) (<[c := s]> (columns df)).

(** [df[c] = None]: the scalar is broadcast over the rows. *)
Definition setitem_scalar (c : string) (v : value) (df : DataFrame)
  : DataFrame :=
  setitem c (replicate (nrows df) v) df.

(** [df.loc[mask, c] = v], row by row of the mask: [v] where the mask holds,
    the old cell elsewhere; a missing column is created, null where the mask
    is false. *)
Definition loc_setitem (mask : list bool) (c : string) (v : value)
    (df : DataFrame) : DataFrame :=
  let old := default [] (columns df !! c) in
  setitem c (imap (λ i (m : bool), if m then v else default VNull (old !! i))
               mask) df.

(** [df[[c1, ..., cn]]]: the columns asked for, when the frame has them
    all.  When some are missing pandas raises one [KeyError] whose message
    lists every missing label; the text of the message is pandas' own
    ([not_in_index], given the labels asked for and the missing ones). *)
Fixpoint select_columns (cs : list string) (df : DataFrame)
  : option (gmap string (list value)) :=
  match cs with
  | [] => Some ∅
  | c :: cs' =>
      s ← columns df !! c;
      m ← select_columns cs' df;
      Some (<[c := s]> m)
  end.

Definition missing_columns (cs : list string) (df : DataFrame)
  : list string :=
  List.filter (λ c, bool_decide (columns df !! c = None)) cs.

Definition select (not_in_index : list string → list string → string)
    (cs : list string) (df : DataFrame) : result DataFrame :=
  match select_columns cs df with
  | Some m => ok (mkDataFrame (nrows df) m)
  | None => raise (KeyError (not_in_index cs (missing_columns cs df)))
  end.

(** [df.drop(columns=[c], errors="ignore")]. *)
Definition drop_column (c : string) (df : DataFrame) : DataFrame :=
  mkDataFrame (nrows df) (delete c (columns df)).

(** [df.replace({"N/A": None, "n/a": None, "": None})]: a cell that is equal
    to one of the keys becomes null, in every column. *)
Definition is_placeholder (s : string) : bool :=
  String.eqb s "N/A" || String.eqb s "n/a" || String.eqb s "".

Definition replace_cell (v : value) : value :=
  match v with
  | VStr s => if is_placeholder s then VNull else VStr s
  | _ => v
  end.

Definition replace_placeholders (df : DataFrame) : DataFrame :=
  mkDataFrame (nrows df) ((λ s : list value, replace_cell <$> s) <$> columns df).

(** [series.str.upper()]: null for a cell that is not text. *)
Definition str_upper_cell (v : value) : value :=
  match v with
  | VStr s => VStr (str_upper s)
  | _ => VNull
  end.

(** [series.eq(text)]. *)
Definition eq_cell (t : string) (v : value) : bool :=
  match v with
  | VStr s => String.eqb s t
  | _ => false
  end.

(** [series.str.split(",", expand=True)] on a [string] column: one column
    per position, as many as the longest split has parts; a null cell is
    null at every position. *)
Definition split_cell (v : value) : list value :=
  match v with
  | VStr s => VStr <$> str_split "," s
  | _ => [VNull]
  end.

Definition expand_width (parts : list (list value)) : nat :=
  foldr (λ p w, Nat.max (length p) w) 0%nat parts.

Definition str_split_expand (s : list value) : list (list value) :=
  let parts := split_cell <$> s in
  (λ j, (λ p, default VNull (p !! j)) <$> parts) <$> seq 0 (expand_width parts).

(** Every column has one cell per row, as in any pandas frame. *)
Definition rectangular (df : DataFrame) : Prop :=
  ∀ c s, columns df !! c = Some s → length s = nrows df.

End Frame.

Import Frame.

(* ================================================================== *)
(** ** Collaborators                                                   *)
(* ================================================================== *)

(** What the Python runtime and pandas compute on one cell or one file.
    These are library code, kept abstract:
    - [parse_number t] is [pd.to_numeric] with [errors="coerce"] on the text
      [t]: NaN when [t] is not a number;
    - [safe_cast f] is the cast to [Int64] of a float that is not NaN, in a
      column that [pd.to_numeric] made of an [object] column; [None] when
      pandas refuses the cast;
    - [astype_error series] is the exception that [.astype("Int64")] raises
      when it refuses the cast of what [pd.to_numeric] made of the [object]
      column [series]: a [TypeError] whose message names a dtype, or an
      [OverflowError];
    - [masked_cast f] is the cast to [Int64] of a number [f] of a [Float64]
      column, which is what [pd.to_numeric] makes of a [string] column: no
      number is refused there (9.5 becomes 9);
    - [not_in_index cs missing] is the message of the [KeyError] of a
      selection [df[cs]] that lacks the columns [missing];
    - [strptime t] is [pd.to_datetime] with [format="%d/%m/%Y"] and
      [errors="coerce"] on the text [t]; [None] is [NaT];
    - [py_str v] is [str(v)] for a cell that is not text;
    - [splitlines] is [str.splitlines];
    - [to_parquet df] is the content of the file [df.to_parquet] writes. *)
Class Runtime := {
  parse_number : string → float;
  safe_cast : float → option Z;
  astype_error : list value → exn;
  masked_cast : float → Z;
  not_in_index : list string → list string → string;
  strptime : string → option Timestamp;
  py_str : value → string;
  splitlines : string → list string;
  to_parquet : DataFrame → result string
}.

(** [parser.parser]: the four functions [transform] imports.  The module is
    not among the sources, so each is a parameter that may raise. *)
Class Parser := {
  split_header_body : list string → result (list string * list string);
  process_header : list string → result (gmap string value);
  process_body : list string → result (list (gmap string value));
  split_vendido_por_column : DataFrame → result DataFrame
}.

(** The module globals [partitioned_bucket] and [simple_bucket], as they
    stand when [transform] runs. *)
Class Config := {
  partitioned_bucket : string;
  simple_bucket : string
}.

(* ================================================================== *)
(** ** The object store, and calls that change it                      *)
(* ================================================================== *)

Module S3.

(** What a run does to the outside, in order. *)
Inductive event :=
  | ListProcessed (bucket prefix : string)
  | ListFiles (bucket prefix : string)
  | Download (bucket key : string)
  | Upload (bucket key : string) (body : string).

(** Objects by (bucket, key), and the calls made so far (oldest first). *)
Record world := mkWorld {
  objects : gmap (string * string) string;
  trace : list event
}.

(** A call that may change the world and may raise. *)
Definition M (A : Type) : Type := world → world * result A.

#[global] Instance M_ret : MRet M := λ A a w, (w, ok a).
#[global] Instance M_bind : MBind M :=
  λ A B k m w,
    match m w with
    | (w', inl e) => (w', inl e)
    | (w', inr a) => k a w'
    end.

(** A pure step inside a call. *)
Definition lift {A} (r : result A) : M A := λ w, (w, r).

Definition log (e : event) (w : world) : world :=
  mkWorld (objects w) (trace w ++ [e]).

(** [extractor.s3_utils.list_files_in_s3] is not among the sources: which
    keys it returns for a prefix, and in which order, is a parameter.
    [upload_fault w bucket key] tells whether the store refuses the write of
    that object in the world [w]. *)
Class Storage := {
  list_keys : gmap (string * string) string → string → string → list string;
  upload_fault : world → string → string → bool
}.

(** Modelled from the spec: [list_processed_sorteos_in_partitioned_bucket]
    of [extractor.s3_utils], which is not among the sources.  Section 6 gives
    it as "returns the set of draw numbers already present under the
    canonical output prefix", the draw number of a key being the one of its
    [sorteo=<digits>/] segment. *)
Definition processed_sorteos (objs : gmap (string * string) string)
    (bucket prefix : string) : gset N :=
  list_to_set
    (omap (λ '((b, k), _),
             if String.eqb b bucket && startswith prefix k
             then re_search_sorteo k else None)
          (map_to_list objs)).

Definition list_processed_sorteos_in_partitioned_bucket
    (bucket prefix : string) : M (gset N) :=
  λ w, (log (ListProcessed bucket prefix) w,
        ok (processed_sorteos (objects w) bucket prefix)).

Definition list_files_in_s3 `{Storage} (bucket prefix : string)
  : M (list string) :=
  λ w, (log (ListFiles bucket prefix) w, ok (list_keys (objects w) bucket prefix)).

(** Modelled from the spec: [download_file_from_s3] followed by the [open]
    and [read] of the local copy: the content of the object, or an error of
    the storage client when there is no such object. *)
Definition download_file_from_s3 (bucket key : string) : M string :=
  λ w, match objects w !! (bucket, key) with
       | Some content => (log (Download bucket key) w, ok content)
       | None => (w, raise (ClientError bucket key))
       end.

(** Modelled from the spec: [upload_file_to_s3], given the content of the
    local file: the object is written (replacing an older one under the same
    key) unless the store refuses. *)
Definition upload_file_to_s3 `{Storage} (body bucket key : string) : M unit :=
  λ w, if upload_fault w bucket key
       then (w, raise (ClientError bucket key))
       else (mkWorld (<[(bucket, key) := body]> (objects w))
                     (trace w ++ [Upload bucket key body]), ok tt).

(** The [for] statement: the body runs on each item in turn; an exception
    leaves the loop. *)
Fixpoint for_each {A} (body : A → M unit) (items : list A) : M unit :=
  match items with
  | [] => mret tt
  | x :: rest => body x ;; for_each body rest
  end.

(** An object to write: bucket, key, content. *)
Definition upload_event (o : string * string * string) : event :=
  Upload o.1.1 o.1.2 o.2.

Definition put_object (objs : gmap (string * string) string)
    (o : string * string * string) : gmap (string * string) string :=
  <[(o.1.1, o.1.2) := o.2]> objs.

(** Uploads in a row, as [transform] does them: the first refusal ends
    them. *)
Definition upload_all `{Storage} (os : list (string * string * string))
  : M unit :=
  for_each (λ o, upload_file_to_s3 o.2 o.1.1 o.1.2) os.

(** What a reader of the store can see during a run: the objects before the
    run and after each call of the trace. *)
Definition apply_event (objs : gmap (string * string) string) (ev : event)
  : gmap (string * string) string :=
  match ev with
  | Upload bucket key body => <[(bucket, key) := body]> objs
  | _ => objs
  end.

Fixpoint snapshots (objs : gmap (string * string) string) (tr : list event)
  : list (gmap (string * string) string) :=
  match tr with
  | [] => [objs]
  | ev :: tr' => objs :: snapshots (apply_event objs ev) tr'
  end.

(** Downloads and uploads, as opposed to listings. *)
Definition is_transfer (ev : event) : bool :=
  match ev with
  | Download _ _ | Upload _ _ _ => true
  | _ => false
  end.

(** Every object of [objs] is still there in [objs'] (maybe rewritten). *)
Definition grows (objs objs' : gmap (string * string) string) : Prop :=
  ∀ key, is_Some (objs !! key) → is_Some (objs' !! key).

(** The objects after the calls [evs], starting from [objs]. *)
Definition replay (objs : gmap (string * string) string) (evs : list event)
  : gmap (string * string) string :=
  foldl apply_event objs evs.


End S3.

Import S3.

(* ================================================================== *)
(** ** transformer.py                                                  *)
(* ================================================================== *)

Module Transformer.

Section Casts.
Context `{Runtime}.

(** The float of an integer of 64 bits. *)
Definition Z_to_float (z : Z) : float :=
  if (z <? 0)%Z then PrimFloat.opp (of_uint63 (Uint63.of_Z (- z)))
  else of_uint63 (Uint63.of_Z z).

(** [pd.to_numeric(series, errors="coerce")] on one cell.  (A cell that is
    already typed does not reach it in [transform], where every column is
    cast once, from what the parser gave.) *)
Definition to_numeric (v : value) : float :=
  match v with
  | VNull => nan
  | VStr s => parse_number s
  | VInt z => Z_to_float z
  | VFloat f => f
  | VDate _ => nan
  end.

(** [.astype("Int64")] on the numbers of an [object] column: NaN becomes
    [<NA>]; the other cells must cast, or pandas refuses the column
    ([None]). *)
Definition astype_Int64_cell (f : float) : option value :=
  if is_nan f then Some VNull
  else match safe_cast f with
       | Some z => Some (VInt z)
       | None => None
       end.

Fixpoint astype_Int64 (fs : list float) : option (list value) :=
  match fs with
  | [] => Some []
  | f :: fs' =>
      v ← astype_Int64_cell f;
      vs ← astype_Int64 fs';
      Some (v :: vs)
  end.

(** The same two calls on a cell of a [string] column: a text that is no
    number is [<NA>], and a number is cast without a check. *)
Definition masked_Int64_cell (v : value) : value :=
  if is_nan (to_numeric v) then VNull else VInt (masked_cast (to_numeric v)).

(** [pd.to_numeric(series, errors="coerce").astype("Int64")], which pandas
    computes by the dtype of [series]; the frames of this model keep no
    dtype, so it is given with the column. *)
Definition to_numeric_Int64 (dt : dtype) (series : list value)
  : result (list value) :=
  match dt with
  | ObjectDtype =>
      match astype_Int64 (to_numeric <$> series) with
      | Some s => ok s
      | None => raise (astype_error series)
      end
  | StringDtype => ok (masked_Int64_cell <$> series)
  end.

(** [_to_int64(series, default)], for a [series] of dtype [dt]. *)
Definition _to_int64 (dt : dtype) (series : list value) (default : option Z)
  : result (list value) :=
  s ← to_numeric_Int64 dt series;
  match default with
  | Some d => ok (fillna (VInt d) s)
  | None => ok s
  end.

(** What [_to_int64] makes of one cell [v] of an [object] column, when it
    returns: [x]. *)
Definition int64_of_cell (default : option Z) (v x : value) : Prop :=
  ∃ y, astype_Int64_cell (to_numeric v) = Some y ∧
       x = match default with
           | Some d => if isna y then VInt d else y
           | None => y
           end.

(** [_to_float64(series, default)] *)
Definition _to_float64 (series : list value) (default : float)
  : list value :=
  (λ f, VFloat (if is_nan f then default else f)) <$> (to_numeric <$> series).

(** [series.astype("string")] on one cell, and [_to_string(series)]. *)
Definition astype_string_cell (v : value) : value :=
  match v with
  | VStr s => VStr s
  | _ => if isna v then VNull else VStr (py_str v)
  end.

Definition _to_string (series : list value) : list value :=
  astype_string_cell <$> series.

(** [pd.to_datetime(series, format="%d/%m/%Y", errors="coerce")]. *)
Definition to_datetime_cell (v : value) : value :=
  match v with
  | VStr s => match strptime s with Some t => VDate t | None => VNull end
  | VDate t => VDate t
  | _ => VNull
  end.

Definition to_datetime (series : list value) : list value :=
  to_datetime_cell <$> series.

End Casts.

Section Stages.
Context `{Runtime}.

(** [df[c] = f(df[c])], the shape of every cast in the schema stages. *)
Definition cast_column (f : list value → result (list value)) (c : string)
    (df : DataFrame) : result DataFrame :=
  s ← getitem df c;
  s' ← f s;
  ok (setitem c s' df).

(** A run of such casts, one column after the other. *)
Fixpoint cast_plan (plan : list (string * (list value → result (list value))))
    (df : DataFrame) : result DataFrame :=
  match plan with
  | [] => ok df
  | (c, f) :: rest => df' ← cast_column f c df; cast_plan rest df'
  end.

(** Lines 123-124: [for premio in premios:
    premio["numero_sorteo"] = sorteos[0]["numero_sorteo"]]. *)
Fixpoint attach_numero_sorteo (header : gmap string value)
    (premios : list (gmap string value))
  : result (list (gmap string value)) :=
  match premios with
  | [] => ok []
  | premio :: rest =>
      match header !! "numero_sorteo" with
      | Some v =>
          rest' ← attach_numero_sorteo header rest;
          ok (<["numero_sorteo" := v]> premio :: rest')
      | None => raise (KeyError "numero_sorteo")
      end
  end.

(** Lines 137-138: the capital alias. *)
Definition mask_capital (ciudad : list value) : list bool :=
  eq_cell "DE ESTA CAPITAL" <$> (str_upper_cell <$> fillna (VStr "") ciudad).

Definition normalize_capital (premios_df : DataFrame) : result DataFrame :=
  ciudad ← getitem premios_df "ciudad";
  ok (loc_setitem (mask_capital ciudad) "departamento" (VStr "GUATEMALA")
        premios_df).

(** Lines 141-143. *)
Definition PREMIOS_COLUMNS : list string :=
  ["numero_sorteo"; "numero_premiado"; "letras"; "monto";
   "vendedor"; "ciudad"; "departamento"].

(** Lines 148-157: the premios schema, on the selected columns. *)
Definition cast_premios (premios_df : DataFrame) : result DataFrame :=
  let premios_df := replace_placeholders premios_df in
  premios_df ← cast_column (λ s, _to_int64 ObjectDtype s (Some 0%Z))
                 "numero_sorteo" premios_df;
  premios_df ← cast_column (λ s, _to_int64 ObjectDtype s None)
                 "numero_premiado" premios_df;
  premios_df ← cast_column (λ s, ok (_to_float64 s 0%float)) "monto" premios_df;
  premios_df ← cast_column (λ s, ok (_to_string s)) "letras" premios_df;
  premios_df ← cast_column (λ s, ok (_to_string s)) "vendedor" premios_df;
  premios_df ← cast_column (λ s, ok (_to_string s)) "ciudad" premios_df;
  cast_column (λ s, ok (_to_string s)) "departamento" premios_df.

(** The casts of [cast_premios], as a plan. *)
Definition PREMIOS_PLAN : list (string * (list value → result (list value))) :=
  [("numero_sorteo", λ s, _to_int64 ObjectDtype s (Some 0%Z));
   ("numero_premiado", λ s, _to_int64 ObjectDtype s None);
   ("monto", λ s, ok (_to_float64 s 0%float));
   ("letras", λ s, ok (_to_string s));
   ("vendedor", λ s, ok (_to_string s));
   ("ciudad", λ s, ok (_to_string s));
   ("departamento", λ s, ok (_to_string s))].

(** Lines 137-157: everything done to [premios_df] once
    [split_vendido_por_column] has returned it. *)
Definition enforce_premios_schema (premios_df : DataFrame)
  : result DataFrame :=
  premios_df ← normalize_capital premios_df;
  premios_df ← select not_in_index PREMIOS_COLUMNS premios_df;
  cast_premios premios_df.

(** Lines 164-178: [reintegros] becomes three columns.  The [while] loop
    appends null columns until there are three. *)
Definition pad_to_three (n : nat) (cols : list (list value))
  : list (list value) :=
  cols ++ replicate (3 - length cols) (replicate n VNull).

Definition split_column (cols : list (list value)) (j : nat)
  : result (list value) :=
  match cols !! j with
  | Some c => ok c
  | None => raise (KeyError (str_of_N (N.of_nat j)))
  end.

Definition split_reintegros (sorteos_df : DataFrame) : result DataFrame :=
  match columns sorteos_df !! "reintegros" with
  | Some reintegros =>
      let reintegro_split :=
        pad_to_three (nrows sorteos_df)
          (str_split_expand (astype_string_cell <$> reintegros)) in
      c0 ← split_column reintegro_split 0;
      c1 ← split_column reintegro_split 1;
      c2 ← split_column reintegro_split 2;
      ok (drop_column "reintegros"
            (setitem "reintegro_tercer_premio" c2
               (setitem "reintegro_segundo_premio" c1
                  (setitem "reintegro_primer_premio" c0 sorteos_df))))
  | None =>
      ok (setitem_scalar "reintegro_tercer_premio" VNull
            (setitem_scalar "reintegro_segundo_premio" VNull
               (setitem_scalar "reintegro_primer_premio" VNull sorteos_df)))
  end.

(** The dtype of the [j]-th refund column as lines 164-178 build it:
    [string] when the split has a [j]-th column, [object] (a column of
    [None]) when the padding or the [else] branch made it. *)
Definition reintegro_dtype (sorteos_df : DataFrame) (j : nat) : dtype :=
  match columns sorteos_df !! "reintegros" with
  | Some reintegros =>
      if bool_decide (j < length (str_split_expand
                                    (astype_string_cell <$> reintegros)))%nat
      then StringDtype else ObjectDtype
  | None => ObjectDtype
  end.

(** Lines 181-186, the dtypes of the three columns being [dtypes]. *)
Definition cast_reintegros (dtypes : nat → dtype) (sorteos_df : DataFrame)
  : result DataFrame :=
  sorteos_df ← cast_column (λ s, _to_int64 (dtypes 0%nat) s None)
                 "reintegro_primer_premio" sorteos_df;
  sorteos_df ← cast_column (λ s, _to_int64 (dtypes 1%nat) s None)
                 "reintegro_segundo_premio" sorteos_df;
  cast_column (λ s, _to_int64 (dtypes 2%nat) s None)
    "reintegro_tercer_premio" sorteos_df.

(** Lines 164-204: the sorteos schema. *)
Definition enforce_sorteos_schema (sorteos_df : DataFrame)
  : result DataFrame :=
  let dtypes := reintegro_dtype sorteos_df in
  sorteos_df ← split_reintegros sorteos_df;
  sorteos_df ← cast_reintegros dtypes sorteos_df;
  sorteos_df ← cast_column (λ s, _to_int64 ObjectDtype s (Some 0%Z))
                 "numero_sorteo" sorteos_df;
  sorteos_df ← cast_column (λ s, _to_int64 ObjectDtype s None)
                 "primer_premio" sorteos_df;
  sorteos_df ← cast_column (λ s, _to_int64 ObjectDtype s None)
                 "segundo_premio" sorteos_df;
  sorteos_df ← cast_column (λ s, _to_int64 ObjectDtype s None)
                 "tercer_premio" sorteos_df;
  sorteos_df ← cast_column (λ s, ok (to_datetime s)) "fecha_sorteo" sorteos_df;
  cast_column (λ s, ok (to_datetime s)) "fecha_caducidad" sorteos_df.

(** The casts of [enforce_sorteos_schema], as a plan: the refund columns
    (on which the cast of a [string] column and that of a column of [None]
    agree when the column is all null), the integer columns with their
    default, then the dates. *)
Definition REINTEGRO_COLUMNS : list string :=
  ["reintegro_primer_premio"; "reintegro_segundo_premio";
   "reintegro_tercer_premio"].

Definition SORTEOS_INT_COLUMNS : list (string * option Z) :=
  [("numero_sorteo", Some 0%Z);
   ("primer_premio", None);
   ("segundo_premio", None);
   ("tercer_premio", None)].

Definition SORTEOS_DATE_COLUMNS : list string :=
  ["fecha_sorteo"; "fecha_caducidad"].

Definition SORTEOS_SCHEMA_COLUMNS : list string :=
  REINTEGRO_COLUMNS ++ SORTEOS_INT_COLUMNS.*1 ++ SORTEOS_DATE_COLUMNS.

Definition REINTEGROS_PLAN (dtypes : nat → dtype)
  : list (string * (list value → result (list value))) :=
  imap (λ j c, (c, λ s, _to_int64 (dtypes j) s None)) REINTEGRO_COLUMNS.

Definition SORTEOS_PLAN : list (string * (list value → result (list value))) :=
  REINTEGROS_PLAN (λ _, StringDtype)
  ++ ((λ cd : string * option Z, (cd.1, λ s, _to_int64 ObjectDtype s cd.2))
        <$> SORTEOS_INT_COLUMNS)
  ++ ((λ c : string, (c, λ s, ok (to_datetime s))) <$> SORTEOS_DATE_COLUMNS).


(** Lines 207-210: the partition year.  [int(NaN)] is a [ValueError] too. *)
Definition derive_year (numero_sorteo : N) (sorteos_df : DataFrame)
  : result N :=
  fecha_sorteo ← getitem sorteos_df "fecha_sorteo";
  if forallb isna fecha_sorteo
  then raise (ValueError ("Invalid fecha_sorteo for sorteo="
                          +:+ str_of_N numero_sorteo
                          +:+ ". Cannot derive year partition."))
  else match fecha_sorteo with
       | VDate t :: _ => ok (year t)
       | _ => raise (ValueError "cannot convert float NaN to integer")
       end.

(** The header gives no draw date that parses. *)
Definition date_fails (header : gmap string value) : Prop :=
  ∀ v, header !! "fecha_sorteo" = Some v → to_datetime_cell v = VNull.

End Stages.

Section Orchestrator.
Context `{Runtime} `{Parser} `{Config} `{Storage}.

Definition SILVER_PREFIX_DEFAULT : string := "silver/".

(** Lines 129-210 of the loop body: from the parsed records to the two typed
    tables and the partition year; and lines 116-210, from the text of the
    raw file.  Nothing here touches the store. *)
Definition normalize_records (numero_sorteo : N)
    (sorteos premios : list (gmap string value))
  : result (DataFrame * DataFrame * N) :=
  let sorteos_df := DataFrame_of_records sorteos in
  let premios_df := DataFrame_of_records premios in
  premios_df ← split_vendido_por_column premios_df;
  premios_df ← enforce_premios_schema premios_df;
  sorteos_df ← enforce_sorteos_schema sorteos_df;
  year ← derive_year numero_sorteo sorteos_df;
  ok (sorteos_df, premios_df, year).

Definition parse_and_normalize (numero_sorteo : N) (file_content : string)
  : result (DataFrame * DataFrame * N) :=
  '(header_lines, body_lines) ← split_header_body (splitlines file_content);
  header ← process_header header_lines;
  let sorteos := [header] in
  premios ← process_body body_lines;
  premios ← attach_numero_sorteo header premios;
  normalize_records numero_sorteo sorteos premios.

(** Lines 224-225 and 233-238: the object keys. *)
Definition simple_key (simple_prefix dataset : string) (numero_sorteo : N)
  : string :=
  simple_prefix +:+ dataset +:+ "_" +:+ str_of_N numero_sorteo +:+ ".parquet".

Definition partitioned_key (silver_prefix dataset : string)
    (year numero_sorteo : N) : string :=
  silver_prefix +:+ dataset +:+ "/year=" +:+ str_of_N year
    +:+ "/sorteo=" +:+ str_of_N numero_sorteo
    +:+ "/" +:+ dataset +:+ ".parquet".

(** The four objects of a draw, in the order of lines 227-241. *)
Definition outputs (simple_prefix silver_prefix : string)
    (numero_sorteo year : N) (sorteos_local premios_local : string)
  : list (string * string * string) :=
  [(simple_bucket, simple_key simple_prefix "sorteos" numero_sorteo, sorteos_local);
   (simple_bucket, simple_key simple_prefix "premios" numero_sorteo, premios_local);
   (partitioned_bucket,
      partitioned_key silver_prefix "sorteos" year numero_sorteo, sorteos_local);
   (partitioned_bucket,
      partitioned_key silver_prefix "premios" year numero_sorteo, premios_local)].

(** Lines 213-241: the two local parquet files, then the four uploads. *)
Definition write_outputs (simple_prefix silver_prefix : string)
    (numero_sorteo : N) (sorteos_df premios_df : DataFrame) (year : N)
  : M unit :=
  sorteos_local ← lift (to_parquet sorteos_df);
  premios_local ← lift (to_parquet premios_df);
  upload_file_to_s3 sorteos_local simple_bucket
    (simple_key simple_prefix "sorteos" numero_sorteo);;
  upload_file_to_s3 premios_local simple_bucket
    (simple_key simple_prefix "premios" numero_sorteo);;
  upload_file_to_s3 sorteos_local partitioned_bucket
    (partitioned_key silver_prefix "sorteos" year numero_sorteo);;
  upload_file_to_s3 premios_local partitioned_bucket
    (partitioned_key silver_prefix "premios" year numero_sorteo).

(** Lines 99-243: the body of the [for] loop, for one raw key. *)
Definition process_file (bucket_name simple_prefix silver_prefix : string)
    (processed_sorteos : gset N) (raw_file : string) : M unit :=
  match re_search_sorteo raw_file with
  | None => mret tt
  | Some numero_sorteo =>
      if bool_decide (numero_sorteo ∈ processed_sorteos) then mret tt
      else
        file_content ← download_file_from_s3 bucket_name raw_file;
        '(sorteos_df, premios_df, year) ←
          lift (parse_and_normalize numero_sorteo file_content);
        write_outputs simple_prefix silver_prefix numero_sorteo
          sorteos_df premios_df year
  end.

(** [transform(bucket_name, raw_prefix, simple_prefix, silver_prefix)] *)
Definition transform (bucket_name raw_prefix simple_prefix silver_prefix : string)
  : M unit :=
  processed_sorteos ←
    list_processed_sorteos_in_partitioned_bucket bucket_name
      (silver_prefix +:+ "sorteos/");
  raw_files ← list_files_in_s3 bucket_name raw_prefix;
  for_each (process_file bucket_name simple_prefix silver_prefix
              processed_sorteos) raw_files.

(** [main()], given the job arguments [RAW_PREFIX] and [PROCESSED_PREFIX]
    (the bucket arguments are already in [Config]). *)
Definition main (raw_prefix processed_prefix : string) : M unit :=
  transform partitioned_bucket raw_prefix processed_prefix
    SILVER_PREFIX_DEFAULT.

End Orchestrator.

(** [awsglue.utils.getResolvedOptions(sys.argv, options)]: library code, a
    parameter; it gives the dict of the job arguments or raises. *)
Class Glue := {
  getResolvedOptions : list string → list string → result (gmap string string)
}.

Section Job.
Context `{Runtime} `{Parser} `{Storage} `{Glue}.

(** Lines 43-45, when the module is loaded: the two buckets, out of the
    dict that [get_secrets()] returned. *)
Definition load_buckets (buckets : gmap string string) : result Config :=
  match buckets !! "partitioned" with
  | None => raise (KeyError "partitioned")
  | Some partitioned =>
      match buckets !! "simple" with
      | None => raise (KeyError "simple")
      | Some simple =>
          ok {| partitioned_bucket := partitioned; simple_bucket := simple |}
      end
  end.

(** [d[k]] on a dict of texts. *)
Definition dict_getitem (d : gmap string string) (k : string) : result string :=
  match d !! k with
  | Some v => ok v
  | None => raise (KeyError k)
  end.

(** Lines 268-272: [if args.get(k): bucket = args[k]].  An absent or empty
    argument is falsy and leaves the global as it is. *)
Definition override (args : gmap string string) (k current : string)
  : string :=
  match args !! k with
  | Some (String c rest) => String c rest
  | _ => current
  end.

Definition JOB_OPTIONS : list string :=
  ["SIMPLE_BUCKET"; "PARTITIONED_BUCKET"; "RAW_PREFIX"; "PROCESSED_PREFIX"].

(** The globals after lines 266-272. *)
Definition effective_config (cfg : Config) (args : gmap string string)
  : Config :=
  {| partitioned_bucket :=
       override args "PARTITIONED_BUCKET" (@partitioned_bucket cfg);
     simple_bucket := override args "SIMPLE_BUCKET" (@simple_bucket cfg) |}.

(** Lines 246-289: [main()] from the command line [argv], the globals being
    [cfg] when it starts. *)
Definition main_argv (cfg : Config) (argv : list string) : M unit :=
  args ← lift (getResolvedOptions argv JOB_OPTIONS);
  let cfg' := effective_config cfg args in
  raw_prefix ← lift (dict_getitem args "RAW_PREFIX");
  simple_prefix ← lift (dict_getitem args "PROCESSED_PREFIX");
  @main _ _ cfg' _ raw_prefix simple_prefix.

End Job.



(** The calls that the loop body may make for the raw key [raw_file]: its
    download, and the upload of one of the four outputs of its draw, which
    was not in Silver when the run listed it. *)
Definition call_of_file `{Config}
    (bucket_name simple_prefix silver_prefix : string) (processed : gset N)
    (raw_file : string) (ev : event) : Prop :=
  match ev with
  | Download b k => b = bucket_name ∧ k = raw_file
  | Upload b k body =>
      ∃ n y sorteos_local premios_local,
        re_search_sorteo raw_file = Some n ∧ (n ∉ processed) ∧
        (b, k, body) ∈ outputs simple_prefix silver_prefix n y
                         sorteos_local premios_local
  | _ => False
  end.

End Transformer.

Import Transformer.

(* ================================================================== *)
(** ** One concrete instance of the collaborators                      *)
(* ================================================================== *)

(** A small text format and a plain store, to run the model on explicit
    inputs.  A raw file is a header of [key=value] lines closed by a line
    [---], then one line [numero|letras|monto|vendido_por] per prize;
    [vendido_por] reads [vendor-city-department]. *)
Module Fixture.

Definition all_digits (s : string) : bool :=
  match span_digits s with
  | (String _ _, EmptyString) => true
  | _ => false
  end.

Definition N_to_float (n : N) : float := of_uint63 (Uint63.of_Z (Z.of_N n)).

(** Unsigned decimal texts, with or without a fraction. *)
Definition fixture_parse_number (s : string) : float :=
  match str_split "." s with
  | [a] => match int_of_digits a with
           | Some n => if all_digits a then N_to_float n else nan
           | None => nan
           end
  | [a; b] =>
      match int_of_digits (a +:+ b) with
      | Some n =>
          if all_digits a && all_digits b
          then PrimFloat.div (N_to_float n)
                 (N_to_float (10 ^ N.of_nat (String.length b)))
          else nan
      | None => nan
      end
  | _ => nan
  end.

(** The cast succeeds on the floats that are whole numbers of 64 bits. *)
Definition fixture_safe_cast (f : float) : option Z :=
  let in_range (z : Z) : option Z :=
    if ((- 2 ^ 63 <=? z) && (z <? 2 ^ 63))%Z then Some z else None in
  match Prim2SF f with
  | S754_zero _ => Some 0%Z
  | S754_finite sign m e =>
      let signed (z : Z) : Z := if sign then (- z)%Z else z in
      if (0 <=? e)%Z then in_range (signed (Z.pos m * 2 ^ e)%Z)
      else if (Z.pos m mod 2 ^ (- e) =? 0)%Z
           then in_range (signed (Z.pos m / 2 ^ (- e))%Z)
           else None
  | _ => None
  end.

(** The cast of a [Float64] column cuts the fraction off. *)
Definition fixture_masked_cast (f : float) : Z :=
  match Prim2SF f with
  | S754_finite sign m e =>
      let signed (z : Z) : Z := if sign then (- z)%Z else z in
      if (0 <=? e)%Z then signed (Z.pos m * 2 ^ e)%Z
      else signed (Z.pos m / 2 ^ (- e))%Z
  | _ => 0%Z
  end.

(** The numbers of the fixture are unsigned decimals, so a refused column
    is always one of floats that were texts. *)
Definition fixture_astype_error (series : list value) : exn :=
  TypeError "cannot safely cast non-equivalent object to int64".

Definition py_repr_list (labels : list string) : string :=
  "[" +:+ foldr (λ l acc, "'" +:+ l +:+ "'"
                          +:+ match acc with
                              | EmptyString => ""
                              | _ => ", " +:+ acc
                              end) "" labels +:+ "]".

Definition fixture_not_in_index (cs missing : list string) : string :=
  if bool_decide (cs = missing)
  then "None of [Index(" +:+ py_repr_list cs
         +:+ ", dtype='object')] are in the [columns]"
  else py_repr_list missing +:+ " not in index".

Definition is_leap (y : N) : bool :=
  ((y mod 4 =? 0) && negb (y mod 100 =? 0) || (y mod 400 =? 0))%N.

Definition days_in_month (y m : N) : N :=
  match m with
  | 2 => if is_leap y then 29 else 28
  | 4 | 6 | 9 | 11 => 30
  | _ => 31
  end%N.

(** [DD/MM/YYYY] with a valid calendar day. *)
Definition fixture_strptime (s : string) : option Timestamp :=
  match str_split "/" s with
  | [d; m; y] =>
      if all_digits d && all_digits m && all_digits y
         && (String.length d <=? 2)%nat && (String.length m <=? 2)%nat
         && (String.length y =? 4)%nat
      then
        d ← int_of_digits d; m ← int_of_digits m; y ← int_of_digits y;
        if ((1 <=? m) && (m <=? 12) && (1 <=? d) && (d <=? days_in_month y m))%N
        then Some (mkTimestamp y m d) else None
      else None
  | _ => None
  end.

Definition fixture_py_str (v : value) : string :=
  match v with
  | VInt z => if (z <? 0)%Z then "-" +:+ str_of_N (Z.to_N (- z))
              else str_of_N (Z.to_N z)
  | _ => "?"
  end.

(** Lines end at a line feed; a final line feed opens no further line. *)
Definition fixture_splitlines (s : string) : list string :=
  match s with
  | EmptyString => []
  | _ => let l := str_split "010" s in
         match last l with
         | Some EmptyString => take (length l - 1) l
         | _ => l
         end
  end.

Definition render_cell (v : value) : string :=
  match v with
  | VNull => "null"
  | VStr s => s
  | VInt _ => fixture_py_str v
  | VFloat f => if is_nan f then "nan" else "float"
  | VDate t => str_of_N (year t) +:+ "-" +:+ str_of_N (month t)
                 +:+ "-" +:+ str_of_N (day t)
  end.

Definition render_column (c : string * list value) : string :=
  c.1 +:+ ":" +:+ foldr (λ v acc, render_cell v +:+ ";" +:+ acc) "" c.2.

(** The file lists the columns with their cells. *)
Definition fixture_to_parquet (df : DataFrame) : result string :=
  ok (foldr (λ c acc, render_column c +:+ "|" +:+ acc) "PAR1|"
        (map_to_list (columns df))).

#[export] Instance fixture_runtime : Runtime := {|
  parse_number := fixture_parse_number;
  safe_cast := fixture_safe_cast;
  astype_error := fixture_astype_error;
  masked_cast := fixture_masked_cast;
  not_in_index := fixture_not_in_index;
  strptime := fixture_strptime;
  py_str := fixture_py_str;
  splitlines := fixture_splitlines;
  to_parquet := fixture_to_parquet
|}.

Fixpoint fixture_split_header_body (lines : list string)
  : result (list string * list string) :=
  match lines with
  | [] => raise (ParserError "header terminator not found")
  | l :: rest =>
      if String.eqb l "---" then ok ([l], rest)
      else '(h, b) ← fixture_split_header_body rest; ok (l :: h, b)
  end.

Fixpoint fixture_process_header (lines : list string)
  : result (gmap string value) :=
  match lines with
  | [] => ok ∅
  | l :: rest =>
      d ← fixture_process_header rest;
      match str_split "=" l with
      | [k; v] => ok (<[k := VStr v]> d)
      | _ => ok d
      end
  end.

Fixpoint fixture_process_body (lines : list string)
  : result (list (gmap string value)) :=
  match lines with
  | [] => ok []
  | l :: rest =>
      ps ← fixture_process_body rest;
      match str_split "|" l with
      | [n; letras; monto; vendido] =>
          ok ({[ "numero_premiado" := VStr n; "letras" := VStr letras;
                 "monto" := VStr monto; "vendido_por" := VStr vendido ]} :: ps)
      | _ => ok ps
      end
  end.

Definition vendido_part (j : nat) (v : value) : value :=
  match v with
  | VStr s => match str_split "-" s !! j with
              | Some p => VStr p
              | None => VNull
              end
  | _ => VNull
  end.

Definition fixture_split_vendido_por_column (df : DataFrame)
  : result DataFrame :=
  vendido ← getitem df "vendido_por";
  ok (setitem "departamento" (vendido_part 2 <$> vendido)
        (setitem "ciudad" (vendido_part 1 <$> vendido)
           (setitem "vendedor" (vendido_part 0 <$> vendido) df))).

#[export] Instance fixture_parser : Parser := {|
  split_header_body := fixture_split_header_body;
  process_header := fixture_process_header;
  process_body := fixture_process_body;
  split_vendido_por_column := fixture_split_vendido_por_column
|}.

#[export] Instance fixture_config : Config := {|
  partitioned_bucket := "lottery-partitioned";
  simple_bucket := "lottery-simple"
|}.

(** Keys in the order of their bytes, as the store lists them. *)
Fixpoint insert_sorted (k : string) (l : list string) : list string :=
  match l with
  | [] => [k]
  | x :: l' => if String.leb k x then k :: l else x :: insert_sorted k l'
  end.

Definition fixture_list_keys (objs : gmap (string * string) string)
    (bucket prefix : string) : list string :=
  foldr insert_sorted []
    (omap (λ '((b, k), _),
             if String.eqb b bucket && startswith prefix k then Some k else None)
          (map_to_list objs)).

(** A store that accepts every write. *)
#[export] Instance fixture_storage : Storage := {|
  list_keys := fixture_list_keys;
  upload_fault := λ _ _ _, false
|}.

(** A store that refuses the canonical premios objects. *)
Definition refusing_storage : Storage := {|
  list_keys := fixture_list_keys;
  upload_fault := λ _ _ key, startswith "silver/premios/" key
|}.

Definition LF : string := String "010" EmptyString.

Definition unlines (lines : list string) : string :=
  foldr (λ l acc, l +:+ LF +:+ acc) "" lines.

(** The file of the end-to-end scenario of the specification. *)
Definition file_1234 : string :=
  unlines ["numero_sorteo=1234"; "fecha_sorteo=01/06/2024";
           "fecha_caducidad=01/12/2024"; "primer_premio=11111";
           "segundo_premio=22222"; "tercer_premio=33333";
           "reintegros=3,9"; "---";
           "54321|AB|500.00|JUAN-De Esta Capital-PETEN"].

(** A file whose draw date does not parse. *)
Definition file_bad_date : string :=
  unlines ["numero_sorteo=1200"; "fecha_sorteo=2024-06-01";
           "fecha_caducidad=01/12/2024"; "primer_premio=11111";
           "segundo_premio=22222"; "tercer_premio=33333";
           "reintegros=3,9"; "---";
           "54321|AB|500.00|JUAN-ANTIGUA-SACATEPEQUEZ"].


Definition world_of (objs : list (string * string * string)) : world :=
  mkWorld (list_to_map objs) [].

(** One raw file, nothing in Silver yet. *)
Definition world_one : world :=
  world_of [("lottery-partitioned", "raw/year=2024/sorteo=1234/1234.txt", file_1234)].

(** Two raw files; the first one listed has the bad date. *)
Definition world_two : world :=
  world_of [("lottery-partitioned", "raw/year=2024/sorteo=1200/1200.txt", file_bad_date);
            ("lottery-partitioned", "raw/year=2024/sorteo=1234/1234.txt", file_1234)].


(** A prize table as [split_vendido_por_column] returns it: the first row is
    sold in the capital, the second one is full of texts that do not parse. *)
Definition premios_split : DataFrame :=
  mkDataFrame 2
    (list_to_map
       [("numero_sorteo", [VStr "1234"; VStr "1234"]);
        ("numero_premiado", [VStr "54321"; VStr "5x"]);
        ("letras", [VStr "AB"; VStr "N/A"]);
        ("monto", [VStr "500.00"; VStr "abc"]);
        ("vendido_por", [VStr "JUAN-De Esta Capital-PETEN"; VStr ""]);
        ("vendedor", [VStr "JUAN"; VStr ""]);
        ("ciudad", [VStr "De Esta Capital"; VNull]);
        ("departamento", [VStr "PETEN"; VStr "n/a"])]).

(** A header whose draw number and first prize do not parse, with two
    refund numbers and a field outside the schema. *)
Definition header_odd : gmap string value :=
  list_to_map
    [("numero_sorteo", VStr "12a4"); ("fecha_sorteo", VStr "01/06/2024");
     ("fecha_caducidad", VStr "N/A"); ("primer_premio", VStr "N/A");
     ("segundo_premio", VStr "22222"); ("tercer_premio", VStr "33333");
     ("reintegros", VStr "3,9"); ("observaciones", VStr "N/A")].

(** The command line as [--NAME value] pairs; every option is required. *)
Fixpoint argv_pairs (argv : list string) : gmap string string :=
  match argv with
  | name :: v :: rest =>
      match strip_prefix "--" name with
      | Some k => <[k := v]> (argv_pairs rest)
      | None => argv_pairs rest
      end
  | _ => ∅
  end.

Fixpoint require_options (args : gmap string string) (options : list string)
  : result (gmap string string) :=
  match options with
  | [] => ok args
  | o :: rest =>
      match args !! o with
      | Some _ => require_options args rest
      | None => raise (ValueError ("the following arguments are required: --" +:+ o))
      end
  end.

#[export] Instance fixture_glue : Glue := {|
  getResolvedOptions := λ argv options,
    require_options (argv_pairs (List.tl argv)) options
|}.

(** A job that keeps the partitioned bucket of the secrets (the argument is
    empty) and names the simple bucket. *)
Definition argv_job : list string :=
  ["transformer.py"; "--SIMPLE_BUCKET"; "lottery-simple";
   "--PARTITIONED_BUCKET"; ""; "--RAW_PREFIX"; "raw/";
   "--PROCESSED_PREFIX"; "processed/"].


(** A file with a header and no prize line. *)
Definition file_no_prize : string :=
  unlines ["numero_sorteo=1234"; "fecha_sorteo=01/06/2024";
           "fecha_caducidad=01/12/2024"; "primer_premio=11111";
           "segundo_premio=22222"; "tercer_premio=33333";
           "reintegros=3,9"; "---"].

(** A file whose header has no draw number. *)
Definition file_no_number : string :=
  unlines ["fecha_sorteo=01/06/2024";
           "fecha_caducidad=01/12/2024"; "primer_premio=11111";
           "segundo_premio=22222"; "tercer_premio=33333";
           "reintegros=3,9"; "---";
           "54321|AB|500.00|JUAN-ANTIGUA-SACATEPEQUEZ"].


End Fixture.

Import Fixture.

(* ================================================================== *)
(** ** The text primitives on explicit inputs                         *)
(* ================================================================== *)

Example re_search_raw_key :
  re_search_sorteo "raw/year=2024/sorteo=1234/1234.txt" = Some 1234%N.
Proof. reflexivity. Qed.

Example re_search_leading_zeros :
  re_search_sorteo "raw/year=2024/sorteo=0012/a.txt" = Some 12%N.
Proof. reflexivity. Qed.

Example re_search_no_slash :
  re_search_sorteo "raw/sorteo=12.txt" = None.
Proof. reflexivity. Qed.

Example re_search_leftmost :
  re_search_sorteo "sorteo=x/sorteo=7/sorteo=8/f" = Some 7%N.
Proof. reflexivity. Qed.

Example str_split_two : str_split "," "3,9" = ["3"; "9"].
Proof. reflexivity. Qed.

Example str_split_empty : str_split "," "" = [""].
Proof. reflexivity. Qed.

Example str_upper_alias : str_upper "De Esta Capital" = "DE ESTA CAPITAL".
Proof. reflexivity. Qed.

(** The end-to-end scenario of the specification: the file of draw 1234
    under [raw/year=2024/sorteo=1234/], with the refunds "3,9". *)
Example end_to_end_refunds :
  match parse_and_normalize 1234 file_1234 with
  | inr (sdf, pdf, year) =>
      [columns sdf !! "numero_sorteo";
       columns sdf !! "reintegro_primer_premio";
       columns sdf !! "reintegro_segundo_premio";
       columns sdf !! "reintegro_tercer_premio";
       columns pdf !! "numero_sorteo"] =
      [Some [VInt 1234]; Some [VInt 3]; Some [VInt 9]; Some [VNull];
       Some [VInt 1234]]
      ∧ year = 2024%N
  | inl _ => False
  end.
Proof. vm_compute. split; reflexivity. Qed.

Example end_to_end_uploads :
  let run := main "raw/" "processed/" world_one in
  run.2 = ok tt ∧
  (λ ev, match ev with
         | Upload b k _ => Some (b, k)
         | _ => None
         end) <$> trace run.1
  = [None; None; None;
     Some ("lottery-simple", "processed/sorteos_1234.parquet");
     Some ("lottery-simple", "processed/premios_1234.parquet");
     Some ("lottery-partitioned",
           "silver/sorteos/year=2024/sorteo=1234/sorteos.parquet");
     Some ("lottery-partitioned",
           "silver/premios/year=2024/sorteo=1234/premios.parquet")].
Proof. cbv zeta. split; vm_compute; reflexivity. Qed.

(* ================================================================== *)
(** ** Calls that return                                               *)
(* ================================================================== *)

Lemma bind_ok {A B} (r : result A) (k : A → result B) (b : B) :
  (r ≫= k) = ok b ↔ ∃ a, r = ok a ∧ k a = ok b.
Proof.
  split.
  - destruct r as [e|a]; simpl; [discriminate|]. intros Hk. by exists a.
  - intros (a & -> & Hk). exact Hk.
Qed.

Lemma ok_inj {A} (a b : A) : ok a = ok b → a = b.
Proof. by intros [= ->]. Qed.

(** Takes the binds of a hypothesis [... = ok _] apart. *)
Ltac inv_ok H :=
  repeat match type of H with
         | (_ ≫= _) = ok _ =>
             let a := fresh "a" in
             let Ha := fresh "Ha" in
             apply bind_ok in H as (a & Ha & H)
         | ok _ = ok _ => apply ok_inj in H
         | mret _ = ok _ => apply ok_inj in H
         end.

(* ================================================================== *)
(** ** Frames                                                          *)
(* ================================================================== *)

Section FrameFacts.

Lemma getitem_ok df c s : getitem df c = ok s ↔ columns df !! c = Some s.
Proof.
  unfold getitem. destruct (columns df !! c); split; intros [=]; by subst.
Qed.

Lemma columns_setitem c s df :
  columns (setitem c s df) = <[c := s]> (columns df).
Proof. reflexivity. Qed.

Lemma cell_setitem_eq c s df i : cell (setitem c s df) c i = s !! i.
Proof. unfold cell. by rewrite columns_setitem, lookup_insert_eq. Qed.

Lemma cell_Some df c i v :
  cell df c i = Some v ↔ ∃ s, columns df !! c = Some s ∧ s !! i = Some v.
Proof.
  unfold cell. destruct (columns df !! c) as [s|]; simpl.
  - split; [by exists s|]. by intros (s' & [= <-] & Hs).
  - split; [done|]. by intros (s' & [=] & _).
Qed.

(** The columns of a frame built from records. *)
Lemma columns_of_records records k :
  columns (DataFrame_of_records records) !! k =
    if decide (k ∈ column_names records) then Some (column_of records k)
    else None.
Proof.
  unfold DataFrame_of_records; simpl.
  destruct (decide (k ∈ column_names records)) as [Hk|Hk].
  - apply (lookup_set_to_map (λ k, (k, column_of records k))).
    + intros y y' _ _. simpl. done.
    + exists k. done.
  - apply eq_None_not_Some. intros [s Hs].
    apply (lookup_set_to_map (λ k, (k, column_of records k))) in Hs.
    + destruct Hs as (y & Hy & [= -> _]). done.
    + intros y y' _ _. simpl. done.
Qed.

Lemma column_names_single (r : gmap string value) : column_names [r] = dom r.
Proof. unfold column_names. simpl. apply (right_id_L ∅ (∪)). Qed.

(** One record: each key is a column of one cell. *)
Lemma columns_of_record (r : gmap string value) k :
  columns (DataFrame_of_records [r]) !! k = (λ v, [v]) <$> r !! k.
Proof.
  rewrite columns_of_records, column_names_single.
  destruct (decide (k ∈ dom r)) as [Hk|Hk].
  - apply elem_of_dom in Hk as [v Hv]. unfold column_of. simpl. by rewrite Hv.
  - apply not_elem_of_dom in Hk. by rewrite Hk.
Qed.

Lemma select_columns_lookup cs df m c :
  select_columns cs df = Some m →
  m !! c = if decide (c ∈ cs) then columns df !! c else None.
Proof.
  revert m. induction cs as [|c' cs IH]; intros m Hm; simpl in Hm.
  - injection Hm as <-. rewrite lookup_empty.
    case_decide as Hc; [by apply elem_of_nil in Hc|done].
  - apply bind_Some in Hm as (s & Ha & Hm).
    apply bind_Some in Hm as (m' & Ha0 & Hm). injection Hm as <-.
    destruct (decide (c = c')) as [->|Hne].
    + rewrite lookup_insert_eq, decide_True by (by apply elem_of_cons; left).
      done.
    + rewrite lookup_insert_ne by done. rewrite (IH _ Ha0).
      destruct (decide (c ∈ cs)).
      * by rewrite decide_True by (by apply elem_of_cons; right).
      * rewrite decide_False; [done|]. by intros [?|?]%elem_of_cons.
Qed.

Lemma cast_column_ok f c df df' :
  cast_column f c df = ok df' ↔
  ∃ s s', columns df !! c = Some s ∧ f s = ok s' ∧ df' = setitem c s' df.
Proof.
  unfold cast_column. split.
  - intros Hc. inv_ok Hc. apply getitem_ok in Ha. subst. eauto.
  - intros (s & s' & Hs & Hf & ->). apply getitem_ok in Hs. by rewrite Hs; simpl; rewrite Hf.
Qed.

End FrameFacts.

(* ================================================================== *)
(** ** The casts, cell by cell                                         *)
(* ================================================================== *)

Section CastFacts.
Context `{Runtime}.

Lemma is_nan_nan : is_nan nan = true.
Proof. reflexivity. Qed.

Lemma astype_Int64_cell_ok f v :
  astype_Int64_cell f = Some v ↔
  (is_nan f = true ∧ v = VNull) ∨
  (is_nan f = false ∧ ∃ z, safe_cast f = Some z ∧ v = VInt z).
Proof.
  unfold astype_Int64_cell. destruct (is_nan f).
  - split; [intros [= <-]; by left|]. by intros [[_ ->]|[[=] _]].
  - destruct (safe_cast f) as [z|].
    + split; [intros [= <-]; right; eauto|].
      by intros [[[=] _]|(_ & z' & [= <-] & ->)].
    + split; [discriminate|]. by intros [[[=] _]|(_ & z' & [=] & _)].
Qed.

Lemma astype_Int64_ok fs vs :
  astype_Int64 fs = Some vs ↔
  Forall2 (λ f v, astype_Int64_cell f = Some v) fs vs.
Proof.
  revert vs. induction fs as [|f fs IH]; intros vs; simpl.
  - split; [intros [= <-]; constructor|]. by intros ->%Forall2_nil_inv_l.
  - split.
    + intros Hb. apply bind_Some in Hb as (v & Hv & Hb).
      apply bind_Some in Hb as (vs' & Hvs & Hb). injection Hb as <-.
      constructor; [done|]. by apply IH.
    + intros (v & vs' & Hv & Hvs & ->)%Forall2_cons_inv_l.
      rewrite Hv. simpl. apply IH in Hvs. by rewrite Hvs.
Qed.

Lemma to_numeric_Int64_object_ok series s :
  to_numeric_Int64 ObjectDtype series = ok s ↔
  astype_Int64 (to_numeric <$> series) = Some s.
Proof.
  unfold to_numeric_Int64.
  destruct (astype_Int64 (to_numeric <$> series)) as [s'|].
  - split; [by intros ->%ok_inj|by intros [= ->]].
  - split; [by intros [=]|by intros [=]].
Qed.

Lemma to_int64_ok series default out :
  _to_int64 ObjectDtype series default = ok out ↔
  Forall2 (int64_of_cell default) series out.
Proof.
  unfold _to_int64. split.
  - intros Hb. inv_ok Hb. apply to_numeric_Int64_object_ok in Ha.
    apply astype_Int64_ok in Ha.
    apply Forall2_fmap_l in Ha.
    destruct default as [d|]; apply ok_inj in Hb; subst out.
    + unfold fillna. apply Forall2_fmap_r.
      eapply Forall2_impl; [exact Ha|]. intros v y Hy. by exists y.
    + eapply Forall2_impl; [exact Ha|]. intros v y Hy. by exists y.
  - intros HF.
    assert (∃ ys, Forall2 (λ f y, astype_Int64_cell f = Some y)
                    (to_numeric <$> series) ys ∧
                  out = match default with
                        | Some d => fillna (VInt d) ys
                        | None => ys
                        end) as (ys & Hys & ->).
    { induction HF as [|v x s o (y & Hy & ->) _ (ys & Hys & ->)].
      - exists []. split; [constructor|]. by destruct default.
      - exists (y :: ys). split; [by constructor|]. by destruct default. }
    apply astype_Int64_ok, to_numeric_Int64_object_ok in Hys.
    rewrite Hys. simpl. by destruct default.
Qed.

(** A cell that does not parse as a number: the default, or null. *)
Lemma int64_of_cell_nan default v x :
  is_nan (to_numeric v) = true →
  int64_of_cell default v x →
  x = match default with Some d => VInt d | None => VNull end.
Proof.
  intros Hnan (y & Hy & ->). apply astype_Int64_cell_ok in Hy.
  destruct Hy as [[_ ->]|[Hn _]]; [by destruct default|congruence].
Qed.

(** With a default the cell is an integer; without, an integer or null. *)
Lemma int64_of_cell_typed default v x :
  int64_of_cell default v x →
  match default with
  | Some _ => ∃ z, x = VInt z
  | None => x = VNull ∨ ∃ z, x = VInt z
  end.
Proof.
  intros (y & Hy & ->). apply astype_Int64_cell_ok in Hy.
  destruct Hy as [[_ ->]|(_ & z & _ & ->)]; destruct default; simpl; eauto.
Qed.

Lemma to_int64_lookup series default out i v :
  _to_int64 ObjectDtype series default = ok out → series !! i = Some v →
  ∃ x, out !! i = Some x ∧ int64_of_cell default v x.
Proof.
  intros Hout%to_int64_ok Hv.
  destruct (Forall2_lookup_l _ _ _ _ _ Hout Hv) as (x & Hx & Hvx). eauto.
Qed.

Lemma to_int64_lookup_r series default out i x :
  _to_int64 ObjectDtype series default = ok out → out !! i = Some x →
  ∃ v, series !! i = Some v ∧ int64_of_cell default v x.
Proof.
  intros Hout%to_int64_ok Hx.
  destruct (Forall2_lookup_r _ _ _ _ _ Hout Hx) as (v & Hv & Hvx). eauto.
Qed.

(** Only a number that pandas refuses to cast makes [_to_int64] raise. *)
Lemma to_int64_returns series default :
  Forall (λ v, is_nan (to_numeric v) = true ∨
               is_Some (safe_cast (to_numeric v))) series →
  ∃ out, _to_int64 ObjectDtype series default = ok out.
Proof.
  intros HF.
  assert (∃ out, Forall2 (int64_of_cell default) series out) as [out Hout].
  { induction HF as [|v s Hv _ [out Hout]]; [by exists []|].
    assert (∃ y, astype_Int64_cell (to_numeric v) = Some y) as [y Hy].
    { unfold astype_Int64_cell. destruct (is_nan (to_numeric v)); [eauto|].
      destruct Hv as [[=]|[z ->]]. eauto. }
    eexists (_ :: out). constructor; [|done]. by exists y. }
  exists out. by apply to_int64_ok.
Qed.

(** A column of nulls comes out a column of nulls, whatever its dtype. *)
Lemma to_int64_null_column dt n :
  _to_int64 dt (replicate n VNull) None = ok (replicate n VNull).
Proof.
  destruct dt; unfold _to_int64, to_numeric_Int64.
  - assert (astype_Int64 (to_numeric <$> replicate n VNull)
            = Some (replicate n VNull)) as ->; [|done].
    induction n as [|n IH]; [done|]. simpl.
    change (list_fmap value float to_numeric (replicate n VNull))
      with (to_numeric <$> replicate n VNull). by rewrite IH.
  - simpl. f_equal. induction n as [|n IH]; [done|]. simpl. by f_equal.
Qed.

(** The cast of a [string] column, cell by cell: it returns, and a cell is
    null or an integer. *)
Lemma masked_Int64_cell_typed v :
  masked_Int64_cell v = VNull ∨ ∃ z, masked_Int64_cell v = VInt z.
Proof. unfold masked_Int64_cell. destruct (is_nan (to_numeric v)); eauto. Qed.

Lemma masked_Int64_cell_nan v :
  is_nan (to_numeric v) = true → masked_Int64_cell v = VNull.
Proof. unfold masked_Int64_cell. by intros ->. Qed.

Lemma to_float64_lookup series default i :
  _to_float64 series default !! i =
    (λ v, VFloat (if is_nan (to_numeric v) then default else to_numeric v))
      <$> series !! i.
Proof.
  unfold _to_float64. rewrite !list_lookup_fmap.
  by destruct (series !! i).
Qed.

(** A placeholder never reaches the parse of numbers: once replaced it is a
    null, which is not a number. *)
Lemma to_numeric_replace_nan v :
  is_nan (to_numeric v) = true → is_nan (to_numeric (replace_cell v)) = true.
Proof.
  destruct v as [|s| | |]; simpl; try done.
  destruct (is_placeholder s); [reflexivity|done].
Qed.


Lemma to_datetime_cell_typed v :
  to_datetime_cell v = VNull ∨ ∃ t, to_datetime_cell v = VDate t.
Proof.
  destruct v as [|s| | |t]; simpl; eauto. destruct (strptime s); eauto.
Qed.

End CastFacts.

(* ================================================================== *)
(** ** The premios schema                                              *)
(* ================================================================== *)

Section PremiosFacts.
Context `{Runtime}.

Lemma columns_replace_placeholders df c :
  columns (replace_placeholders df) !! c =
    (λ s : list value, replace_cell <$> s) <$> columns df !! c.
Proof. unfold replace_placeholders. simpl. by rewrite lookup_fmap. Qed.

Lemma normalize_capital_ok df df1 :
  normalize_capital df = ok df1 ↔
  ∃ ciudad, columns df !! "ciudad" = Some ciudad ∧
            df1 = loc_setitem (mask_capital ciudad) "departamento"
                    (VStr "GUATEMALA") df.
Proof.
  unfold normalize_capital. split.
  - intros Hb. inv_ok Hb. apply getitem_ok in Ha. eauto.
  - intros (ciudad & Hc%getitem_ok & ->). by rewrite Hc.
Qed.

(** The mask, on one row. *)
Lemma mask_capital_lookup ciudad i :
  mask_capital ciudad !! i =
    (λ v, match v with
          | VStr c => String.eqb (str_upper c) "DE ESTA CAPITAL"
          | _ => false
          end) <$> ciudad !! i.
Proof.
  unfold mask_capital, fillna. rewrite !list_lookup_fmap.
  destruct (ciudad !! i) as [[|c|z|f|t]|]; simpl; try done.
  by destruct (is_nan f).
Qed.

Lemma cell_loc_setitem_eq mask c v df i :
  cell (loc_setitem mask c v df) c i =
    (λ m : bool, if m then v
                 else default VNull (default [] (columns df !! c) !! i))
      <$> mask !! i.
Proof.
  unfold loc_setitem. rewrite cell_setitem_eq. by rewrite list_lookup_imap.
Qed.

Lemma columns_loc_setitem_ne mask c c' v df :
  c ≠ c' → columns (loc_setitem mask c v df) !! c' = columns df !! c'.
Proof.
  intros Hne. unfold loc_setitem. by rewrite columns_setitem, lookup_insert_ne.
Qed.

Lemma select_ok {msg} cs df df' :
  select msg cs df = ok df' →
  ∀ c, columns df' !! c = if decide (c ∈ cs) then columns df !! c else None.
Proof.
  unfold select. intros Hb c.
  destruct (select_columns cs df) as [m|] eqn:Hm; [|done].
  apply ok_inj in Hb as <-. simpl. by apply select_columns_lookup.
Qed.

(** The columns of the premios table after the casts, in terms of the
    columns after the replacement of the placeholders. *)
Lemma cast_premios_ok df out :
  cast_premios df = ok out →
  ∃ c1 c2 c3 c4 c5 c6 c7 ns np,
    let cols := columns (replace_placeholders df) in
    cols !! "numero_sorteo" = Some c1 ∧
    cols !! "numero_premiado" = Some c2 ∧
    cols !! "monto" = Some c3 ∧
    cols !! "letras" = Some c4 ∧
    cols !! "vendedor" = Some c5 ∧
    cols !! "ciudad" = Some c6 ∧
    cols !! "departamento" = Some c7 ∧
    _to_int64 ObjectDtype c1 (Some 0%Z) = ok ns ∧
    _to_int64 ObjectDtype c2 None = ok np ∧
    columns out =
      <["departamento" := _to_string c7]>
        (<["ciudad" := _to_string c6]>
           (<["vendedor" := _to_string c5]>
              (<["letras" := _to_string c4]>
                 (<["monto" := _to_float64 c3 0%float]>
                    (<["numero_premiado" := np]>
                       (<["numero_sorteo" := ns]> cols)))))).
Proof.
  unfold cast_premios. intros Hb.
  apply bind_ok in Hb as (d1 & H1 & Hb). apply cast_column_ok in H1 as (c1 & ns & Hc1 & Hns & ->).
  apply bind_ok in Hb as (d2 & H2 & Hb). apply cast_column_ok in H2 as (c2 & np & Hc2 & Hnp & ->).
  apply bind_ok in Hb as (d3 & H3 & Hb). apply cast_column_ok in H3 as (c3 & s3 & Hc3 & [= <-] & ->).
  apply bind_ok in Hb as (d4 & H4 & Hb). apply cast_column_ok in H4 as (c4 & s4 & Hc4 & [= <-] & ->).
  apply bind_ok in Hb as (d5 & H5 & Hb). apply cast_column_ok in H5 as (c5 & s5 & Hc5 & [= <-] & ->).
  apply bind_ok in Hb as (d6 & H6 & Hb). apply cast_column_ok in H6 as (c6 & s6 & Hc6 & [= <-] & ->).
  apply cast_column_ok in Hb as (c7 & s7 & Hc7 & [= <-] & ->).
  rewrite !columns_setitem in *.
  rewrite !lookup_insert_ne in Hc7 by done.
  rewrite !lookup_insert_ne in Hc6 by done.
  rewrite !lookup_insert_ne in Hc5 by done.
  rewrite !lookup_insert_ne in Hc4 by done.
  rewrite !lookup_insert_ne in Hc3 by done.
  rewrite !lookup_insert_ne in Hc2 by done.
  exists c1, c2, c3, c4, c5, c6, c7, ns, np. simpl. done.
Qed.

(** Every selected column of the premios table, cell by cell, in terms of
    the table [df1] that [normalize_capital] hands over. *)
Lemma premios_cells df out :
  enforce_premios_schema df = ok out →
  ∃ df1, normalize_capital df = ok df1 ∧
    (∀ i v, cell df1 "numero_sorteo" i = Some v →
       ∃ x, cell out "numero_sorteo" i = Some x ∧
            int64_of_cell (Some 0%Z) (replace_cell v) x) ∧
    (∀ i v, cell df1 "numero_premiado" i = Some v →
       ∃ x, cell out "numero_premiado" i = Some x ∧
            int64_of_cell None (replace_cell v) x) ∧
    (∀ i, cell out "monto" i =
       (λ v, VFloat (if is_nan (to_numeric (replace_cell v)) then 0%float
                     else to_numeric (replace_cell v)))
         <$> cell df1 "monto" i) ∧
    (∀ c, c ∈ ["letras"; "vendedor"; "ciudad"; "departamento"] →
       ∀ i, cell out c i =
         (λ v, astype_string_cell (replace_cell v)) <$> cell df1 c i) ∧
    (∀ i x, cell out "numero_sorteo" i = Some x → ∃ z, x = VInt z) ∧
    (∀ i x, cell out "numero_premiado" i = Some x →
       x = VNull ∨ ∃ z, x = VInt z).
Proof.
  unfold enforce_premios_schema. intros Hb.
  apply bind_ok in Hb as (df1 & H1 & Hb).
  apply bind_ok in Hb as (df2 & H2 & Hb).
  exists df1. split; [done|].
  pose proof (select_ok _ _ _ H2) as Hsel.
  apply cast_premios_ok in Hb
    as (c1 & c2 & c3 & c4 & c5 & c6 & c7 & ns & np & Hb).
  cbv zeta in Hb.
  destruct Hb as (Hc1 & Hc2 & Hc3 & Hc4 & Hc5 & Hc6 & Hc7 & Hns & Hnp & Hout).
  rewrite columns_replace_placeholders, Hsel in Hc1, Hc2, Hc3, Hc4, Hc5, Hc6, Hc7.
  simpl in Hc1, Hc2, Hc3, Hc4, Hc5, Hc6, Hc7.
  apply fmap_Some in Hc1 as (r1 & Hr1 & ->).
  apply fmap_Some in Hc2 as (r2 & Hr2 & ->).
  apply fmap_Some in Hc3 as (r3 & Hr3 & ->).
  apply fmap_Some in Hc4 as (r4 & Hr4 & ->).
  apply fmap_Some in Hc5 as (r5 & Hr5 & ->).
  apply fmap_Some in Hc6 as (r6 & Hr6 & ->).
  apply fmap_Some in Hc7 as (r7 & Hr7 & ->).
  repeat split.
  - intros i v (s & Hs & Hv)%cell_Some. rewrite Hr1 in Hs. injection Hs as <-.
    destruct (to_int64_lookup _ _ _ i (replace_cell v) Hns) as (x & Hx & Hvx).
    { by rewrite list_lookup_fmap, Hv. }
    exists x. split; [|done]. unfold cell. rewrite Hout.
    rewrite !lookup_insert_ne by done. by rewrite lookup_insert_eq.
  - intros i v (s & Hs & Hv)%cell_Some. rewrite Hr2 in Hs. injection Hs as <-.
    destruct (to_int64_lookup _ _ _ i (replace_cell v) Hnp) as (x & Hx & Hvx).
    { by rewrite list_lookup_fmap, Hv. }
    exists x. split; [|done]. unfold cell. rewrite Hout.
    rewrite !lookup_insert_ne by done. by rewrite lookup_insert_eq.
  - intros i. unfold cell at 1. rewrite Hout.
    rewrite !lookup_insert_ne by done. rewrite lookup_insert_eq. simpl.
    rewrite to_float64_lookup, list_lookup_fmap. unfold cell. rewrite Hr3.
    simpl. by destruct (r3 !! i).
  - intros c Hc i. unfold cell. rewrite Hout.
    repeat (apply elem_of_cons in Hc as [->|Hc]); [| | | |by apply elem_of_nil in Hc].
    + rewrite !lookup_insert_ne by done. rewrite lookup_insert_eq. simpl.
      unfold _to_string. rewrite Hr4. simpl. rewrite !list_lookup_fmap.
      by destruct (r4 !! i).
    + rewrite !lookup_insert_ne by done. rewrite lookup_insert_eq. simpl.
      unfold _to_string. rewrite Hr5. simpl. rewrite !list_lookup_fmap.
      by destruct (r5 !! i).
    + rewrite !lookup_insert_ne by done. rewrite lookup_insert_eq. simpl.
      unfold _to_string. rewrite Hr6. simpl. rewrite !list_lookup_fmap.
      by destruct (r6 !! i).
    + rewrite lookup_insert_eq. simpl.
      unfold _to_string. rewrite Hr7. simpl. rewrite !list_lookup_fmap.
      by destruct (r7 !! i).
  - intros i x (s & Hs & Hx)%cell_Some. rewrite Hout in Hs.
    rewrite !lookup_insert_ne, lookup_insert_eq in Hs by done.
    injection Hs as <-.
    destruct (to_int64_lookup_r _ _ _ _ _ Hns Hx) as (v & _ & Hvx).
    exact (int64_of_cell_typed (Some 0%Z) v x Hvx).
  - intros i x (s & Hs & Hx)%cell_Some. rewrite Hout in Hs.
    rewrite !lookup_insert_ne, lookup_insert_eq in Hs by done.
    injection Hs as <-.
    destruct (to_int64_lookup_r _ _ _ _ _ Hnp Hx) as (v & _ & Hvx).
    exact (int64_of_cell_typed None v x Hvx).
Qed.

(** Before the override of the department the other columns are those of
    the split. *)
Lemma normalize_capital_other df df1 c i :
  normalize_capital df = ok df1 → c ≠ "departamento" →
  cell df1 c i = cell df c i.
Proof.
  intros (ciudad & _ & ->)%normalize_capital_ok Hne. unfold cell.
  by rewrite columns_loc_setitem_ne.
Qed.

End PremiosFacts.

(* ================================================================== *)
(** ** Properties of the premios stage                                 *)
(* ================================================================== *)

Lemma default_cell df c i :
  default VNull (default [] (columns df !! c) !! i) = default VNull (cell df c i).
Proof. unfold cell. by destruct (columns df !! c). Qed.

(** C5.  A prize whose city, upper-cased, is the alias of the capital has
    department "GUATEMALA" in the table that is written, whatever the split
    of the vendor field gave as department: the city is read as the split
    left it, before the placeholders are replaced and the columns cast, and
    the override goes through both.  A prize with another city, or with no
    city, keeps the department of the split (through the replacement and the
    cast to text), and raises nothing. *)
Theorem capital_alias_forces_guatemala `{Runtime} (df out : DataFrame) :
  enforce_premios_schema df = ok out →
  (∀ i c, cell df "ciudad" i = Some (VStr c) →
          str_upper c = "DE ESTA CAPITAL" →
          cell out "departamento" i = Some (VStr "GUATEMALA")) ∧
  (∀ i v, cell df "ciudad" i = Some v →
          (∀ c, v = VStr c → str_upper c ≠ "DE ESTA CAPITAL") →
          cell out "departamento" i =
            Some (astype_string_cell
                    (replace_cell (default VNull (cell df "departamento" i))))).
Proof.
  intros Hout.
  destruct (premios_cells _ _ Hout) as (df1 & Hcap & _ & _ & _ & Htext & _).
  apply normalize_capital_ok in Hcap as (ciudad & Hciudad & ->).
  assert (Hdep : ∀ i, cell out "departamento" i =
            (λ v, astype_string_cell (replace_cell v)) <$>
              ((λ m : bool, if m then VStr "GUATEMALA"
                            else default VNull (cell df "departamento" i)) <$>
                 mask_capital ciudad !! i)).
  { intros i. rewrite Htext by (repeat constructor).
    by rewrite cell_loc_setitem_eq, default_cell. }
  split.
  - intros i c (s & Hs & Hc)%cell_Some Hup. rewrite Hciudad in Hs.
    injection Hs as <-. rewrite Hdep, mask_capital_lookup, Hc. simpl.
    rewrite Hup. reflexivity.
  - intros i v (s & Hs & Hv)%cell_Some Hne. rewrite Hciudad in Hs.
    injection Hs as <-. rewrite Hdep, mask_capital_lookup, Hv. simpl.
    destruct v as [|c| | |]; try done.
    destruct (String.eqb_spec (str_upper c) "DE ESTA CAPITAL") as [Heq|_];
      [by destruct (Hne c eq_refl)|done].
Qed.

Lemma capital_alias_forces_guatemala_witness :
  ∃ out, enforce_premios_schema premios_split = ok out ∧
         cell out "departamento" 0 = Some (VStr "GUATEMALA").
Proof.
  eexists. split; [vm_compute; reflexivity|].
  eapply (proj1 (capital_alias_forces_guatemala premios_split _ _)).
  - vm_compute. reflexivity.
  - vm_compute. reflexivity.
  Unshelve. vm_compute. reflexivity.
Defined.

(* ================================================================== *)
(** ** The sorteos schema                                              *)
(* ================================================================== *)

Section SorteosFacts.
Context `{Runtime}.

(** A plan over distinct columns casts each of them from what the table
    held at the start, and leaves the other columns alone. *)
Lemma cast_plan_ok plan df out :
  NoDup plan.*1 →
  cast_plan plan df = ok out →
  (∀ c f, (c, f) ∈ plan →
     ∃ s s', columns df !! c = Some s ∧ f s = ok s' ∧
             columns out !! c = Some s') ∧
  (∀ c, c ∉ plan.*1 → columns out !! c = columns df !! c) ∧
  nrows out = nrows df.
Proof.
  revert df. induction plan as [|[c0 f0] plan IH]; intros df Hnd Hplan.
  - apply ok_inj in Hplan as <-. split; [|done].
    intros c f Hin. by apply elem_of_nil in Hin.
  - simpl in Hplan, Hnd. apply NoDup_cons in Hnd as [Hc0 Hnd].
    apply bind_ok in Hplan as (df' & Hcast & Hplan).
    apply cast_column_ok in Hcast as (s & s' & Hs & Hf & ->).
    destruct (IH _ Hnd Hplan) as (Hin & Hout & Hn).
    split; [|split].
    + intros c f [[= -> ->]|Hcf]%elem_of_cons.
      * exists s, s'. split; [done|]. split; [done|].
        rewrite (Hout _ Hc0). by rewrite columns_setitem, lookup_insert_eq.
      * destruct (Hin _ _ Hcf) as (t & t' & Ht & Hft & Ho).
        assert (c ≠ c0) as Hne.
        { intros ->. apply Hc0. apply list_elem_of_fmap. by exists (c0, f). }
        rewrite columns_setitem, lookup_insert_ne in Ht by done. eauto.
    + intros c Hc. rewrite Hout.
      * rewrite columns_setitem, lookup_insert_ne; [done|].
        intros ->. apply Hc. simpl. by left.
      * intros Hc'. apply Hc. simpl. by right.
    + by rewrite Hn.
Qed.

Lemma SORTEOS_PLAN_NoDup : NoDup SORTEOS_PLAN.*1.
Proof. simpl. apply (bool_decide_unpack _). vm_compute. reflexivity. Qed.

(** The reintegros are split into three columns, whatever the table. *)
Lemma pad_to_three_lookup n cols j :
  j < 3 → ∃ c, pad_to_three n cols !! j = Some c.
Proof.
  intros Hj. apply lookup_lt_is_Some. unfold pad_to_three.
  rewrite length_app, length_replicate. lia.
Qed.

Lemma split_reintegros_returns df : ∃ out, split_reintegros df = ok out.
Proof.
  unfold split_reintegros. destruct (columns df !! "reintegros") as [r|]; [|eauto].
  unfold split_column.
  destruct (pad_to_three_lookup (nrows df)
              (str_split_expand (astype_string_cell <$> r)) 0) as [c0 ->]; [lia|].
  destruct (pad_to_three_lookup (nrows df)
              (str_split_expand (astype_string_cell <$> r)) 1) as [c1 ->]; [lia|].
  destruct (pad_to_three_lookup (nrows df)
              (str_split_expand (astype_string_cell <$> r)) 2) as [c2 ->]; [lia|].
  simpl. eauto.
Qed.

Lemma expand_width_bound (parts : list (list value)) p :
  p ∈ parts → (length p ≤ expand_width parts)%nat.
Proof.
  induction parts as [|q parts IH]; [by intros ?%elem_of_nil|].
  intros [->|Hp]%elem_of_cons; simpl; [lia|]. specialize (IH Hp). lia.
Qed.

(** Slot [j] of the padded split: the [j]-th part of each cell, null when the
    cell has no such part. *)
Lemma reintegro_slot n (s : list value) j c :
  length s = n → j < 3 →
  pad_to_three n (str_split_expand s) !! j = Some c →
  c = (λ v, default VNull (split_cell v !! j)) <$> s.
Proof.
  intros Hlen Hj. unfold pad_to_three, str_split_expand.
  set (parts := split_cell <$> s).
  destruct (decide (j < expand_width parts)) as [Hlt|Hge].
  - rewrite lookup_app_l by (by rewrite length_fmap, length_seq).
    rewrite list_lookup_fmap, lookup_seq_lt by done. simpl.
    intros [= <-]. unfold parts. rewrite <- list_fmap_compose. done.
  - rewrite lookup_app_r by (rewrite length_fmap, length_seq; lia).
    intros [-> _]%lookup_replicate.
    apply list_eq. intros i. rewrite list_lookup_fmap.
    destruct (s !! i) as [v|] eqn:Hv; simpl.
    + rewrite lookup_replicate_2 by (rewrite <- Hlen; by eapply lookup_lt_Some).
      assert (length (split_cell v) ≤ expand_width parts)%nat as Hb.
      { apply expand_width_bound. unfold parts. apply list_elem_of_fmap.
        exists v. split; [done|]. by eapply list_elem_of_lookup_2. }
      rewrite lookup_ge_None_2 by lia. done.
    + apply lookup_replicate_None. rewrite <- Hlen.
      by apply lookup_ge_None.
Qed.

Lemma split_reintegros_columns df df1 :
  split_reintegros df = ok df1 →
  columns df1 !! "reintegros" = None ∧
  (∀ c, c ∈ REINTEGRO_COLUMNS → is_Some (columns df1 !! c)) ∧
  (∀ c, c ∉ "reintegros" :: REINTEGRO_COLUMNS →
        columns df1 !! c = columns df !! c) ∧
  nrows df1 = nrows df.
Proof.
  unfold split_reintegros.
  destruct (columns df !! "reintegros") as [r|] eqn:Hr.
  - intros Hb. inv_ok Hb. subst df1. unfold drop_column. simpl.
    split; [by rewrite lookup_delete_eq|]. split; [|split; [|done]].
    + intros c Hc.
      rewrite lookup_delete_ne by (intros <-; revert Hc; apply (bool_decide_unpack _); by vm_compute).
      repeat (apply elem_of_cons in Hc as [->|Hc]); [| | |by apply elem_of_nil in Hc];
        rewrite ?lookup_insert_ne by done; rewrite lookup_insert_eq; eauto.
    + intros c Hc.
      rewrite lookup_delete_ne by (intros <-; apply Hc; by left).
      rewrite !lookup_insert_ne; [done|..];
        intros <-; apply Hc; apply (bool_decide_unpack _); by vm_compute.
  - intros [= <-]. unfold setitem_scalar. simpl.
    split; [by rewrite !lookup_insert_ne|]. split; [|split; [|done]].
    + intros c Hc.
      repeat (apply elem_of_cons in Hc as [->|Hc]); [| | |by apply elem_of_nil in Hc];
        rewrite ?lookup_insert_ne by done; rewrite lookup_insert_eq; eauto.
    + intros c Hc.
      rewrite !lookup_insert_ne; [done|..];
        intros <-; apply Hc; apply (bool_decide_unpack _); by vm_compute.
Qed.

End SorteosFacts.

(* ================================================================== *)
(** ** Properties of the sorteos stage                                 *)
(* ================================================================== *)

Section ReintegrosFacts.
Context `{Runtime}.

Lemma REINTEGRO_COLUMNS_lookup j c :
  REINTEGRO_COLUMNS !! j = Some c →
  (j = 0 ∧ c = "reintegro_primer_premio") ∨
  (j = 1 ∧ c = "reintegro_segundo_premio") ∨
  (j = 2 ∧ c = "reintegro_tercer_premio").
Proof.
  destruct j as [|[|[|j]]]; simpl; intros [= <-]; auto.
Qed.

(** With a [reintegros] column: slot [j] holds the [j]-th part of each
    cell. *)
Lemma split_reintegros_slots df df1 r j c :
  columns df !! "reintegros" = Some r → length r = nrows df →
  split_reintegros df = ok df1 →
  REINTEGRO_COLUMNS !! j = Some c →
  columns df1 !! c =
    Some ((λ v, default VNull (split_cell (astype_string_cell v) !! j)) <$> r).
Proof.
  intros Hr Hlen. unfold split_reintegros. rewrite Hr. intros Hb Hj.
  apply bind_ok in Hb as (c0 & H0 & Hb).
  apply bind_ok in Hb as (c1 & H1 & Hb).
  apply bind_ok in Hb as (c2 & H2 & Hb). apply ok_inj in Hb as <-.
  unfold split_column in H0, H1, H2.
  destruct (pad_to_three _ _ !! 0) as [c0'|] eqn:E0; [|done]. apply ok_inj in H0 as ->.
  destruct (pad_to_three _ _ !! 1) as [c1'|] eqn:E1; [|done]. apply ok_inj in H1 as ->.
  destruct (pad_to_three _ _ !! 2) as [c2'|] eqn:E2; [|done]. apply ok_inj in H2 as ->.
  apply reintegro_slot in E0; [|by rewrite length_fmap|lia].
  apply reintegro_slot in E1; [|by rewrite length_fmap|lia].
  apply reintegro_slot in E2; [|by rewrite length_fmap|lia].
  rewrite <- list_fmap_compose in E0, E1, E2.
  unfold drop_column. simpl.
  destruct (REINTEGRO_COLUMNS_lookup _ _ Hj) as [[-> ->]|[[-> ->]|[-> ->]]].
  - rewrite lookup_delete_ne, !lookup_insert_ne, lookup_insert_eq by done.
    by rewrite E0.
  - rewrite lookup_delete_ne, !lookup_insert_ne, lookup_insert_eq by done.
    by rewrite E1.
  - rewrite lookup_delete_ne, lookup_insert_eq by done. by rewrite E2.
Qed.

(** Without a [reintegros] column: three null columns. *)
Lemma split_reintegros_absent df df1 c :
  columns df !! "reintegros" = None →
  split_reintegros df = ok df1 →
  c ∈ REINTEGRO_COLUMNS →
  columns df1 !! c = Some (replicate (nrows df) VNull).
Proof.
  intros Hr. unfold split_reintegros. rewrite Hr. intros [= <-] Hc.
  unfold setitem_scalar. simpl.
  repeat (apply elem_of_cons in Hc as [->|Hc]); [| | |by apply elem_of_nil in Hc];
    rewrite ?lookup_insert_ne by done; by rewrite lookup_insert_eq.
Qed.

Lemma cast_plan_returns plan df :
  NoDup plan.*1 →
  (∀ c f, (c, f) ∈ plan →
     ∃ s s', columns df !! c = Some s ∧ f s = ok s') →
  ∃ out, cast_plan plan df = ok out.
Proof.
  revert df. induction plan as [|[c0 f0] plan IH]; intros df Hnd Hall.
  - by exists df.
  - simpl in Hnd. apply NoDup_cons in Hnd as [Hc0 Hnd].
    destruct (Hall c0 f0) as (s & s' & Hs & Hf); [by left|].
    destruct (IH (setitem c0 s' df) Hnd) as [out Hout].
    { intros c f Hcf. destruct (Hall c f) as (t & t' & Ht & Hft); [by right|].
      exists t, t'. split; [|done].
      rewrite columns_setitem, lookup_insert_ne; [done|].
      intros ->. apply Hc0. apply list_elem_of_fmap. by exists (c, f). }
    exists out. simpl.
    assert (cast_column f0 c0 df = ok (setitem c0 s' df)) as ->; [|done].
    apply cast_column_ok. eauto.
Qed.

(** With a [reintegros] column: the three columns are the first three of the
    padded split. *)
Lemma split_reintegros_padded df df1 r j c :
  columns df !! "reintegros" = Some r →
  split_reintegros df = ok df1 →
  REINTEGRO_COLUMNS !! j = Some c →
  columns df1 !! c =
    pad_to_three (nrows df) (str_split_expand (astype_string_cell <$> r)) !! j.
Proof.
  intros Hr. unfold split_reintegros. rewrite Hr. intros Hb Hj.
  apply bind_ok in Hb as (c0 & H0 & Hb).
  apply bind_ok in Hb as (c1 & H1 & Hb).
  apply bind_ok in Hb as (c2 & H2 & Hb). apply ok_inj in Hb as <-.
  unfold split_column in H0, H1, H2.
  destruct (pad_to_three _ _ !! 0) as [c0'|] eqn:E0; [|done]. apply ok_inj in H0 as ->.
  destruct (pad_to_three _ _ !! 1) as [c1'|] eqn:E1; [|done]. apply ok_inj in H1 as ->.
  destruct (pad_to_three _ _ !! 2) as [c2'|] eqn:E2; [|done]. apply ok_inj in H2 as ->.
  unfold drop_column. simpl.
  destruct (REINTEGRO_COLUMNS_lookup _ _ Hj) as [[-> ->]|[[-> ->]|[-> ->]]].
  - by rewrite lookup_delete_ne, !lookup_insert_ne, lookup_insert_eq by done.
  - by rewrite lookup_delete_ne, !lookup_insert_ne, lookup_insert_eq by done.
  - by rewrite lookup_delete_ne, lookup_insert_eq by done.
Qed.

(** A refund column that is not of dtype [string] is a column of [None],
    which both casts make a column of nulls: the dtype [string] can be taken
    for the three of them. *)
Lemma reintegro_cast_agrees df df1 j c s :
  split_reintegros df = ok df1 →
  REINTEGRO_COLUMNS !! j = Some c →
  columns df1 !! c = Some s →
  _to_int64 (reintegro_dtype df j) s None = _to_int64 StringDtype s None.
Proof.
  intros Hsplit Hj Hs. unfold reintegro_dtype.
  destruct (columns df !! "reintegros") as [r|] eqn:Hr.
  - case_bool_decide as Hlt; [done|].
    rewrite (split_reintegros_padded _ _ _ _ _ Hr Hsplit Hj) in Hs.
    unfold pad_to_three in Hs. rewrite lookup_app_r in Hs by lia.
    apply lookup_replicate in Hs as [-> _]. by rewrite !to_int64_null_column.
  - rewrite (split_reintegros_absent _ _ c Hr Hsplit) in Hs
      by (by eapply list_elem_of_lookup_2).
    injection Hs as <-. by rewrite !to_int64_null_column.
Qed.

Lemma cast_plan_app p q df :
  cast_plan (p ++ q) df = (df' ← cast_plan p df; cast_plan q df').
Proof.
  revert df. induction p as [|[c f] p IH]; intros df; simpl; [done|].
  destruct (cast_column f c df); simpl; [done|]. apply IH.
Qed.

(** Two plans over the same distinct columns, whose casts agree on what the
    columns hold at the start, do the same. *)
Lemma cast_plan_ext p q df0 df :
  NoDup p.*1 →
  (∀ c, c ∈ p.*1 → columns df !! c = columns df0 !! c) →
  Forall2 (λ cf cg : string * (list value → result (list value)),
             cf.1 = cg.1 ∧
             ∀ s, columns df0 !! cf.1 = Some s → cf.2 s = cg.2 s) p q →
  cast_plan p df = cast_plan q df.
Proof.
  intros Hnd Hsame HF. revert df Hnd Hsame.
  induction HF as [|[c f] [c' g] p q [Hc Hfg] _ IH]; intros df Hnd Hsame;
    [done|].
  simpl in Hc, Hfg. subst c'. simpl in Hnd.
  apply NoDup_cons in Hnd as [Hc Hnd]. simpl.
  unfold cast_column at 1 2. unfold getitem.
  destruct (columns df !! c) as [s|] eqn:Hs; [|done]. simpl.
  rewrite (Hfg s) by (rewrite <- Hsame; [done|by left]).
  destruct (g s) as [e|s']; simpl; [done|].
  apply IH; [done|]. intros c1 Hc1.
  rewrite columns_setitem, lookup_insert_ne by (by intros ->).
  apply Hsame. by right.
Qed.

Lemma cast_reintegros_plan dtypes df :
  cast_reintegros dtypes df = cast_plan (REINTEGROS_PLAN dtypes) df.
Proof.
  unfold cast_reintegros, REINTEGROS_PLAN. simpl.
  repeat match goal with
         | |- context [cast_column ?f ?c ?d] =>
             destruct (cast_column f c d); simpl; [done|]
         end.
  done.
Qed.

Lemma cast_sorteos_plan df :
  (df ← cast_column (λ s, _to_int64 ObjectDtype s (Some 0%Z))
          "numero_sorteo" df;
   df ← cast_column (λ s, _to_int64 ObjectDtype s None) "primer_premio" df;
   df ← cast_column (λ s, _to_int64 ObjectDtype s None) "segundo_premio" df;
   df ← cast_column (λ s, _to_int64 ObjectDtype s None) "tercer_premio" df;
   df ← cast_column (λ s, ok (to_datetime s)) "fecha_sorteo" df;
   cast_column (λ s, ok (to_datetime s)) "fecha_caducidad" df)
  = cast_plan (drop 3 SORTEOS_PLAN) df.
Proof.
  simpl.
  repeat match goal with
         | |- context [cast_column ?f ?c ?d] =>
             destruct (cast_column f c d); simpl; [done|]
         end.
  done.
Qed.

Lemma enforce_sorteos_schema_plan df :
  enforce_sorteos_schema df =
    (df1 ← split_reintegros df; cast_plan SORTEOS_PLAN df1).
Proof.
  assert (∀ df1, split_reintegros df = ok df1 →
            (df2 ← cast_reintegros (reintegro_dtype df) df1;
             df3 ← cast_column (λ s, _to_int64 ObjectDtype s (Some 0%Z))
                     "numero_sorteo" df2;
             df4 ← cast_column (λ s, _to_int64 ObjectDtype s None)
                     "primer_premio" df3;
             df5 ← cast_column (λ s, _to_int64 ObjectDtype s None)
                     "segundo_premio" df4;
             df6 ← cast_column (λ s, _to_int64 ObjectDtype s None)
                     "tercer_premio" df5;
             df7 ← cast_column (λ s, ok (to_datetime s)) "fecha_sorteo" df6;
             cast_column (λ s, ok (to_datetime s)) "fecha_caducidad" df7)
            = cast_plan SORTEOS_PLAN df1) as Haux.
  { intros df1 Hsplit.
    change (cast_plan SORTEOS_PLAN df1)
      with (cast_plan (REINTEGROS_PLAN (λ _, StringDtype)
                       ++ drop 3 SORTEOS_PLAN) df1).
    rewrite cast_plan_app.
    rewrite <- (cast_plan_ext (REINTEGROS_PLAN (reintegro_dtype df))
                  (REINTEGROS_PLAN (λ _, StringDtype)) df1 df1).
    - rewrite <- cast_reintegros_plan.
      destruct (cast_reintegros (reintegro_dtype df) df1) as [e|df2]; [done|].
      apply cast_sorteos_plan.
    - apply (bool_decide_unpack _). vm_compute. reflexivity.
    - done.
    - unfold REINTEGROS_PLAN. simpl.
      repeat constructor; simpl; intros s Hs.
      + by apply (reintegro_cast_agrees df df1 0 "reintegro_primer_premio").
      + by apply (reintegro_cast_agrees df df1 1 "reintegro_segundo_premio").
      + by apply (reintegro_cast_agrees df df1 2 "reintegro_tercer_premio"). }
  unfold enforce_sorteos_schema.
  destruct (split_reintegros df) as [e|df1] eqn:Hsplit; [done|].
  exact (Haux df1 eq_refl).
Qed.

(** The sorteos table after the casts, column by column, in terms of the
    table [df1] that [split_reintegros] hands over. *)
Lemma sorteos_columns df out :
  enforce_sorteos_schema df = ok out →
  ∃ df1, split_reintegros df = ok df1 ∧
    (∀ c d, (c, d) ∈ SORTEOS_INT_COLUMNS →
       ∃ old new, columns df1 !! c = Some old ∧ columns out !! c = Some new ∧
                  Forall2 (int64_of_cell d) old new) ∧
    (∀ c, c ∈ SORTEOS_DATE_COLUMNS →
       ∃ old, columns df1 !! c = Some old ∧
              columns out !! c = Some (to_datetime old)) ∧
    (∀ c, c ∉ SORTEOS_PLAN.*1 → columns out !! c = columns df1 !! c).
Proof.
  rewrite enforce_sorteos_schema_plan. intros Hb.
  apply bind_ok in Hb as (df1 & Hsplit & Hplan). exists df1. split; [done|].
  destruct (cast_plan_ok _ _ _ SORTEOS_PLAN_NoDup Hplan) as (Hin & Hout & _).
  split; [|split; [|done]].
  - intros c d Hcd.
    destruct (Hin c (λ s, _to_int64 ObjectDtype s d))
      as (old & new & Hold & Hcast & Hnew).
    { unfold SORTEOS_PLAN. apply elem_of_app. right. apply elem_of_app. left.
      apply list_elem_of_fmap. by exists (c, d). }
    exists old, new. split; [done|]. split; [done|]. by apply to_int64_ok.
  - intros c Hc.
    destruct (Hin c (λ s, ok (to_datetime s))) as (old & new & Hold & Hcast & Hnew).
    { unfold SORTEOS_PLAN. apply elem_of_app. right. apply elem_of_app. right.
      apply list_elem_of_fmap. by exists c. }
    exists old. split; [done|]. by apply ok_inj in Hcast as <-.
Qed.

(** The refund columns after the casts: what the cast of a [string] column
    makes of each cell of the split. *)
Lemma sorteos_refund_columns df out :
  enforce_sorteos_schema df = ok out →
  ∃ df1, split_reintegros df = ok df1 ∧
    ∀ c, c ∈ REINTEGRO_COLUMNS →
      ∃ old, columns df1 !! c = Some old ∧
             columns out !! c = Some (masked_Int64_cell <$> old).
Proof.
  rewrite enforce_sorteos_schema_plan. intros Hb.
  apply bind_ok in Hb as (df1 & Hsplit & Hplan). exists df1. split; [done|].
  destruct (cast_plan_ok _ _ _ SORTEOS_PLAN_NoDup Hplan) as (Hin & _ & _).
  intros c Hc.
  destruct (Hin c (λ s, _to_int64 StringDtype s None))
    as (old & new & Hold & Hcast & Hnew).
  { unfold SORTEOS_PLAN. apply elem_of_app. left.
    unfold REINTEGROS_PLAN. simpl.
    repeat (apply elem_of_cons in Hc as [->|Hc]);
      [| | |by apply elem_of_nil in Hc]; repeat constructor. }
  exists old. split; [done|]. apply ok_inj in Hcast as <-. done.
Qed.

(** The cast of the three refund columns returns, whatever the split left
    in them. *)
Lemma cast_reintegros_returns df df1 :
  split_reintegros df = ok df1 →
  ∃ out, cast_reintegros (reintegro_dtype df) df1 = ok out ∧
    (∀ c, c ∈ REINTEGRO_COLUMNS →
       ∃ old, columns df1 !! c = Some old ∧
              columns out !! c = Some (masked_Int64_cell <$> old)) ∧
    (∀ c, c ∉ REINTEGRO_COLUMNS → columns out !! c = columns df1 !! c).
Proof.
  intros Hsplit. rewrite cast_reintegros_plan.
  assert (NoDup (REINTEGROS_PLAN (λ _, StringDtype)).*1) as Hnd.
  { apply (bool_decide_unpack _). vm_compute. reflexivity. }
  rewrite (cast_plan_ext (REINTEGROS_PLAN (reintegro_dtype df))
             (REINTEGROS_PLAN (λ _, StringDtype)) df1 df1);
    [|apply (bool_decide_unpack _); vm_compute; reflexivity|done|].
  2:{ unfold REINTEGROS_PLAN. simpl.
      repeat constructor; simpl; intros s Hs.
      - by apply (reintegro_cast_agrees df df1 0 "reintegro_primer_premio").
      - by apply (reintegro_cast_agrees df df1 1 "reintegro_segundo_premio").
      - by apply (reintegro_cast_agrees df df1 2 "reintegro_tercer_premio"). }
  destruct (split_reintegros_columns _ _ Hsplit) as (_ & Hthree & _ & _).
  assert (∀ c f, (c, f) ∈ REINTEGROS_PLAN (λ _, StringDtype) →
            c ∈ REINTEGRO_COLUMNS ∧
            f = (λ s, _to_int64 StringDtype s None)) as Hplan.
  { intros c f Hcf. unfold REINTEGROS_PLAN in Hcf. simpl in Hcf.
    repeat (apply elem_of_cons in Hcf as [[= -> ->]|Hcf]);
      [| | |by apply elem_of_nil in Hcf]; (split; [|done]);
      repeat constructor. }
  destruct (cast_plan_returns (REINTEGROS_PLAN (λ _, StringDtype)) df1 Hnd)
    as [out Hout].
  { intros c f [Hc ->]%Hplan. destruct (Hthree c Hc) as [s Hs].
    exists s, (masked_Int64_cell <$> s). by split. }
  exists out. split; [done|].
  destruct (cast_plan_ok _ _ _ Hnd Hout) as (Hin & Hother & _). split.
  - intros c Hc.
    destruct (Hin c (λ s, _to_int64 StringDtype s None))
      as (old & new & Hold & Hcast & Hnew).
    { unfold REINTEGROS_PLAN. simpl.
      repeat (apply elem_of_cons in Hc as [->|Hc]);
        [| | |by apply elem_of_nil in Hc]; repeat constructor. }
    exists old. split; [done|]. apply ok_inj in Hcast as <-. done.
  - intros c Hc. apply Hother. intros Hin'. apply Hc.
    apply list_elem_of_fmap in Hin' as ([c' f] & -> & Hcf). simpl.
    by apply Hplan in Hcf as [? _].
Qed.

End ReintegrosFacts.

(** C6.  The draw record of a file, whatever its header [header]: neither
    the split of [reintegros] nor the cast of the three refund columns
    raises, and what is left is the three refund columns and no
    [reintegros] column.  When the text has a [j]-th comma-separated value,
    slot [j] holds it after the split and, after the cast, the integer that
    pandas makes of it (null when it is no number); when the text has no
    such value the slot is null; when the field is absent (or null) the
    three slots are null. *)
Theorem reintegros_three_columns `{Runtime} (header : gmap string value) :
  let sorteos_df := DataFrame_of_records [header] in
  let refund (t : option string) : value :=
    match t with
    | Some t => if is_nan (parse_number t) then VNull
                else VInt (masked_cast (parse_number t))
    | None => VNull
    end in
  ∃ df1 out,
    split_reintegros sorteos_df = ok df1 ∧
    cast_reintegros (reintegro_dtype sorteos_df) df1 = ok out ∧
    columns df1 !! "reintegros" = None ∧
    columns out !! "reintegros" = None ∧
    (∀ s j c, header !! "reintegros" = Some (VStr s) →
       REINTEGRO_COLUMNS !! j = Some c →
       columns df1 !! c =
         Some [from_option VStr VNull (str_split "," s !! j)] ∧
       columns out !! c = Some [refund (str_split "," s !! j)]) ∧
    (header !! "reintegros" = None ∨ header !! "reintegros" = Some VNull →
       ∀ c, c ∈ REINTEGRO_COLUMNS →
         columns df1 !! c = Some [VNull] ∧ columns out !! c = Some [VNull]).
Proof.
  intros sorteos_df refund.
  destruct (split_reintegros_returns sorteos_df) as [df1 Hsplit].
  destruct (cast_reintegros_returns _ _ Hsplit) as (out & Hcast & Hcols & Hother).
  exists df1, out. split; [done|]. split; [done|].
  destruct (split_reintegros_columns _ _ Hsplit) as (Hgone & _ & _ & _).
  split; [done|]. split.
  { rewrite Hother; [done|]. apply (bool_decide_unpack _). by vm_compute. }
  assert (∀ c v, c ∈ REINTEGRO_COLUMNS → columns df1 !! c = Some [v] →
            columns out !! c = Some [masked_Int64_cell v]) as Hcell.
  { intros c v Hc Hv. destruct (Hcols c Hc) as (old & Hold & ->).
    rewrite Hv in Hold. by injection Hold as <-. }
  split.
  - intros s j c Hs Hj.
    assert (columns df1 !! c
            = Some [from_option VStr VNull (str_split "," s !! j)]) as Hslot.
    { rewrite (split_reintegros_slots sorteos_df df1 [VStr s] j c);
        [|by unfold sorteos_df; rewrite columns_of_record, Hs|done..].
      simpl. rewrite list_lookup_fmap. by destruct (str_split "," s !! j). }
    split; [done|].
    rewrite (Hcell c _ (list_elem_of_lookup_2 _ _ _ Hj) Hslot).
    unfold masked_Int64_cell, refund.
    destruct (str_split "," s !! j) as [t|]; simpl; [done|].
    by rewrite ?is_nan_nan.
  - intros Hnone c Hc.
    assert (columns df1 !! c = Some [VNull]) as Hslot.
    { destruct Hnone as [Hnone|Hnull].
      - rewrite (split_reintegros_absent sorteos_df df1 c);
          [done|by unfold sorteos_df; rewrite columns_of_record, Hnone|done..].
      - apply list_elem_of_lookup_1 in Hc as (j & Hj).
        rewrite (split_reintegros_slots sorteos_df df1 [VNull] j c);
          [|by unfold sorteos_df; rewrite columns_of_record, Hnull|done..].
        simpl. by destruct j. }
    split; [done|]. rewrite (Hcell c _ Hc Hslot).
    unfold masked_Int64_cell. simpl. by rewrite ?is_nan_nan.
Qed.

Lemma reintegros_three_columns_witness :
  ∃ df1 out,
    split_reintegros (DataFrame_of_records [header_odd]) = ok df1 ∧
    cast_reintegros (reintegro_dtype (DataFrame_of_records [header_odd])) df1
      = ok out ∧
    columns df1 !! "reintegro_segundo_premio" = Some [VStr "9"] ∧
    columns out !! "reintegro_primer_premio" = Some [VInt 3] ∧
    columns out !! "reintegro_segundo_premio" = Some [VInt 9] ∧
    columns out !! "reintegro_tercer_premio" = Some [VNull].
Proof.
  destruct (reintegros_three_columns header_odd)
    as (df1 & out & Hsplit & Hcast & _ & _ & Hslot & _).
  assert (header_odd !! "reintegros" = Some (VStr "3,9")) as Hr
    by (vm_compute; reflexivity).
  destruct (Hslot "3,9" 0%nat "reintegro_primer_premio" Hr eq_refl) as [_ H0].
  destruct (Hslot "3,9" 1%nat "reintegro_segundo_premio" Hr eq_refl)
    as [H1 H1'].
  destruct (Hslot "3,9" 2%nat "reintegro_tercer_premio" Hr eq_refl) as [_ H2].
  exists df1, out. split; [exact Hsplit|]. split; [exact Hcast|].
  split; [exact H1|].
  split; [rewrite H0; vm_compute; reflexivity|].
  split; [rewrite H1'; vm_compute; reflexivity|].
  rewrite H2. vm_compute. reflexivity.
Defined.

Section SorteosCells.
Context `{Runtime}.

(** An integer column of the sorteos table, cell by cell. *)
Lemma sorteos_int_cell df df1 out c d i v :
  split_reintegros df = ok df1 →
  enforce_sorteos_schema df = ok out →
  (c, d) ∈ SORTEOS_INT_COLUMNS →
  cell df1 c i = Some v →
  ∃ x, cell out c i = Some x ∧ int64_of_cell d v x.
Proof.
  intros Hsplit Hout Hcd (s & Hs & Hv)%cell_Some.
  destruct (sorteos_columns _ _ Hout) as (df1' & Hsplit' & Hint & _).
  rewrite Hsplit in Hsplit'. apply ok_inj in Hsplit' as <-.
  destruct (Hint c d Hcd) as (old & new & Hold & Hnew & HF).
  rewrite Hs in Hold. injection Hold as <-.
  destruct (Forall2_lookup_l _ _ _ _ _ HF Hv) as (x & Hx & Hvx).
  exists x. split; [|done]. apply cell_Some. eauto.
Qed.

Lemma sorteos_int_cell_r df out c d i x :
  enforce_sorteos_schema df = ok out →
  (c, d) ∈ SORTEOS_INT_COLUMNS →
  cell out c i = Some x →
  ∃ v, int64_of_cell d v x.
Proof.
  intros Hout Hcd (s & Hs & Hx)%cell_Some.
  destruct (sorteos_columns _ _ Hout) as (df1 & _ & Hint & _).
  destruct (Hint c d Hcd) as (old & new & Hold & Hnew & HF).
  rewrite Hs in Hnew. injection Hnew as <-.
  destruct (Forall2_lookup_r _ _ _ _ _ HF Hx) as (v & _ & Hvx). eauto.
Qed.

(** Outside [reintegros] and the refund columns, the split changes nothing. *)
Lemma split_reintegros_cell df df1 c i :
  split_reintegros df = ok df1 →
  c ∉ "reintegros" :: REINTEGRO_COLUMNS →
  cell df1 c i = cell df c i.
Proof.
  intros Hsplit Hc. unfold cell.
  destruct (split_reintegros_columns _ _ Hsplit) as (_ & _ & Hother & _).
  by rewrite Hother.
Qed.

(** A refund column of the sorteos table, cell by cell. *)
Lemma sorteos_refund_cell df df1 out c i v :
  split_reintegros df = ok df1 →
  enforce_sorteos_schema df = ok out →
  c ∈ REINTEGRO_COLUMNS →
  cell df1 c i = Some v →
  cell out c i = Some (masked_Int64_cell v).
Proof.
  intros Hsplit Hout Hc (s & Hs & Hv)%cell_Some.
  destruct (sorteos_refund_columns _ _ Hout) as (df1' & Hsplit' & Hcols).
  rewrite Hsplit in Hsplit'. apply ok_inj in Hsplit' as <-.
  destruct (Hcols c Hc) as (old & Hold & Hnew).
  rewrite Hs in Hold. injection Hold as <-.
  apply cell_Some. exists (masked_Int64_cell <$> s). split; [done|].
  by rewrite list_lookup_fmap, Hv.
Qed.

(** A cell that the cast of an [object] column let through was no number, or
    a number that pandas casts. *)
Lemma int64_of_cell_cast default v x :
  int64_of_cell default v x →
  is_nan (to_numeric v) = false →
  is_Some (safe_cast (to_numeric v)).
Proof.
  intros (y & Hy & _) Hnan. apply astype_Int64_cell_ok in Hy.
  destruct Hy as [[Hn _]|(_ & z & -> & _)]; [congruence|eauto].
Qed.

End SorteosCells.

(** C7, as the code has it.  On the tables that the schema stages return:
    an amount whose text is not a number is 0.0, and no amount is null; a
    draw number whose text is not a number is 0, in the prize table as in
    the draw table, and no draw number is null; a ticket number, a prize
    number of the draw or a refund slot whose text is not a number is null,
    and a refund slot whose text is a number holds the integer that pandas
    makes of it, fraction cut off.  But a draw number, a ticket number or a
    prize number of the draw whose text is a number that pandas does not
    cast to an integer (12.5, say) gets no default: the stage raises, and
    the file gives no record at all. *)
Theorem coercion_defaults `{Runtime} :
  let refused (v : value) :=
    is_nan (to_numeric v) = false ∧ safe_cast (to_numeric v) = None in
  (∀ premios_df premios_out sorteos_df refunds_df sorteos_out,
     enforce_premios_schema premios_df = ok premios_out →
     split_reintegros sorteos_df = ok refunds_df →
     enforce_sorteos_schema sorteos_df = ok sorteos_out →
     (∀ i v, cell premios_df "monto" i = Some v →
             is_nan (to_numeric v) = true →
             cell premios_out "monto" i = Some (VFloat 0%float)) ∧
     (∀ i x, cell premios_out "monto" i = Some x → isna x = false) ∧
     (∀ i v, cell premios_df "numero_sorteo" i = Some v →
             is_nan (to_numeric v) = true →
             cell premios_out "numero_sorteo" i = Some (VInt 0%Z)) ∧
     (∀ i x, cell premios_out "numero_sorteo" i = Some x → isna x = false) ∧
     (∀ i v, cell sorteos_df "numero_sorteo" i = Some v →
             is_nan (to_numeric v) = true →
             cell sorteos_out "numero_sorteo" i = Some (VInt 0%Z)) ∧
     (∀ i x, cell sorteos_out "numero_sorteo" i = Some x → isna x = false) ∧
     (∀ i v, cell premios_df "numero_premiado" i = Some v →
             is_nan (to_numeric v) = true →
             cell premios_out "numero_premiado" i = Some VNull) ∧
     (∀ c, c ∈ ["primer_premio"; "segundo_premio"; "tercer_premio"] →
           ∀ i v, cell sorteos_df c i = Some v →
                  is_nan (to_numeric v) = true →
                  cell sorteos_out c i = Some VNull) ∧
     (∀ c, c ∈ REINTEGRO_COLUMNS →
           ∀ i v, cell refunds_df c i = Some v →
                  cell sorteos_out c i =
                    Some (if is_nan (to_numeric v) then VNull
                          else VInt (masked_cast (to_numeric v))))) ∧
  (∀ premios_df c i v,
     c ∈ ["numero_sorteo"; "numero_premiado"] →
     cell premios_df c i = Some v → refused (replace_cell v) →
     ∃ e, enforce_premios_schema premios_df = raise e) ∧
  (∀ sorteos_df c i v,
     c ∈ ["numero_sorteo"; "primer_premio"; "segundo_premio";
          "tercer_premio"] →
     cell sorteos_df c i = Some v → refused v →
     ∃ e, enforce_sorteos_schema sorteos_df = raise e).
Proof.
  intros refused. split; [|split].
  - intros premios_df premios_out sorteos_df refunds_df sorteos_out
      Hp Hsplit Hs.
    destruct (premios_cells _ _ Hp)
      as (df1 & Hcap & Hns & Hnp & Hmonto & _ & Hns_typed & _).
    repeat split.
    + intros i v Hv Hnan. rewrite Hmonto.
      rewrite (normalize_capital_other _ _ _ _ Hcap) by done. rewrite Hv. simpl.
      by rewrite (to_numeric_replace_nan _ Hnan).
    + intros i x. rewrite Hmonto.
      destruct (cell df1 "monto" i) as [v|]; simpl; [|done]. intros [= <-]. simpl.
      destruct (is_nan (to_numeric (replace_cell v))) eqn:E; [reflexivity|done].
    + intros i v Hv Hnan.
      rewrite <- (normalize_capital_other _ _ _ _ Hcap) in Hv by done.
      destruct (Hns i v Hv) as (x & Hx & Hvx). rewrite Hx. f_equal.
      exact (int64_of_cell_nan _ _ _ (to_numeric_replace_nan _ Hnan) Hvx).
    + intros i x Hx. by destruct (Hns_typed i x Hx) as [z ->].
    + intros i v Hv Hnan.
      rewrite <- (split_reintegros_cell _ _ _ _ Hsplit) in Hv
        by (apply (bool_decide_unpack _); by vm_compute).
      destruct (sorteos_int_cell _ _ _ "numero_sorteo" (Some 0%Z) i v Hsplit Hs)
        as (x & Hx & Hvx); [repeat constructor|done|].
      rewrite Hx. f_equal. exact (int64_of_cell_nan _ _ _ Hnan Hvx).
    + intros i x Hx.
      destruct (sorteos_int_cell_r _ _ "numero_sorteo" (Some 0%Z) i x Hs)
        as (v & Hvx); [repeat constructor|done|].
      by destruct (int64_of_cell_typed _ _ _ Hvx) as [z ->].
    + intros i v Hv Hnan.
      rewrite <- (normalize_capital_other _ _ _ _ Hcap) in Hv by done.
      destruct (Hnp i v Hv) as (x & Hx & Hvx). rewrite Hx. f_equal.
      exact (int64_of_cell_nan _ _ _ (to_numeric_replace_nan _ Hnan) Hvx).
    + intros c Hc i v Hv Hnan.
      assert ((c, None) ∈ SORTEOS_INT_COLUMNS ∧
              c ∉ "reintegros" :: REINTEGRO_COLUMNS) as [Hin Hout].
      { repeat (apply elem_of_cons in Hc as [->|Hc]);
          [| | |by apply elem_of_nil in Hc];
          (split; [repeat constructor|apply (bool_decide_unpack _); by vm_compute]). }
      rewrite <- (split_reintegros_cell _ _ _ _ Hsplit) in Hv by done.
      destruct (sorteos_int_cell _ _ _ c None i v Hsplit Hs Hin Hv)
        as (x & Hx & Hvx).
      rewrite Hx. f_equal. exact (int64_of_cell_nan _ _ _ Hnan Hvx).
    + intros c Hc i v Hv.
      exact (sorteos_refund_cell _ _ _ c i v Hsplit Hs Hc Hv).
  - intros premios_df c i v Hc Hv [Hnan Hcast].
    destruct (enforce_premios_schema premios_df) as [e|out] eqn:Hp; [eauto|].
    exfalso.
    destruct (premios_cells _ _ Hp) as (df1 & Hcap & Hns & Hnp & _).
    assert (c ≠ "departamento") as Hne.
    { intros ->. revert Hc. apply (bool_decide_unpack _). by vm_compute. }
    rewrite <- (normalize_capital_other _ _ c i Hcap Hne) in Hv.
    assert (∃ d x, int64_of_cell d (replace_cell v) x) as (d & x & Hx).
    { apply elem_of_cons in Hc as [->|Hc];
        [|apply elem_of_cons in Hc as [->|Hc]; [|by apply elem_of_nil in Hc]].
      - destruct (Hns i v Hv) as (x & _ & Hx). eauto.
      - destruct (Hnp i v Hv) as (x & _ & Hx). eauto. }
    destruct (int64_of_cell_cast _ _ _ Hx Hnan) as [z Hz]. congruence.
  - intros sorteos_df c i v Hc Hv [Hnan Hcast].
    destruct (enforce_sorteos_schema sorteos_df) as [e|out] eqn:Hs; [eauto|].
    exfalso.
    destruct (split_reintegros_returns sorteos_df) as [df1 Hsplit].
    assert (∃ d, (c, d) ∈ SORTEOS_INT_COLUMNS ∧
                 c ∉ "reintegros" :: REINTEGRO_COLUMNS) as (d & Hin & Hout).
    { repeat (apply elem_of_cons in Hc as [->|Hc]);
        [| | | |by apply elem_of_nil in Hc];
        eexists; (split; [repeat constructor
                         |apply (bool_decide_unpack _); by vm_compute]). }
    rewrite <- (split_reintegros_cell _ _ _ _ Hsplit) in Hv by done.
    destruct (sorteos_int_cell _ _ _ c d i v Hsplit Hs Hin Hv) as (x & _ & Hx).
    destruct (int64_of_cell_cast _ _ _ Hx Hnan) as [z Hz]. congruence.
Qed.

Lemma coercion_defaults_witness :
  ∃ premios_out sorteos_out,
    enforce_premios_schema premios_split = ok premios_out ∧
    enforce_sorteos_schema (DataFrame_of_records [header_odd]) = ok sorteos_out ∧
    cell premios_out "monto" 1 = Some (VFloat 0%float) ∧
    cell premios_out "numero_premiado" 1 = Some VNull ∧
    cell sorteos_out "numero_sorteo" 0 = Some (VInt 0%Z) ∧
    cell sorteos_out "primer_premio" 0 = Some VNull.
Proof.
  destruct (enforce_premios_schema premios_split) as [e|po] eqn:Hp;
    [by vm_compute in Hp|].
  destruct (split_reintegros (DataFrame_of_records [header_odd]))
    as [e|rdf] eqn:Hr; [by vm_compute in Hr|].
  destruct (enforce_sorteos_schema (DataFrame_of_records [header_odd]))
    as [e|so] eqn:Hs; [by vm_compute in Hs|].
  exists po, so. split; [reflexivity|]. split; [reflexivity|].
  destruct coercion_defaults as (Htables & _ & _).
  destruct (Htables _ _ _ _ _ Hp Hr Hs)
    as (Hmonto & _ & _ & _ & Hnum & _ & Hticket & Hprize & _).
  split; [|split; [|split]].
  - apply (Hmonto 1 (VStr "abc")); vm_compute; reflexivity.
  - apply (Hticket 1 (VStr "5x")); vm_compute; reflexivity.
  - apply (Hnum 0 (VStr "12a4")); vm_compute; reflexivity.
  - apply (Hprize "primer_premio" ltac:(repeat constructor) 0 (VStr "N/A"));
      vm_compute; reflexivity.
Defined.

(** C7, the claim as the specification has it, fails: a draw number that
    reads 12.5 is a text that fails integer coercion, and neither table
    gets a draw number 0: both stages raise. *)
Lemma fractional_draw_number_raises :
  let header := <["numero_sorteo" := VStr "12.5"]> header_odd in
  let premios := setitem "numero_sorteo" [VStr "12.5"; VStr "12.5"]
                   premios_split in
  is_nan (parse_number "12.5") = false ∧
  safe_cast (parse_number "12.5") = None ∧
  enforce_sorteos_schema (DataFrame_of_records [header])
    = raise (TypeError "cannot safely cast non-equivalent object to int64") ∧
  enforce_premios_schema premios
    = raise (TypeError "cannot safely cast non-equivalent object to int64").
Proof. cbv zeta. repeat split; vm_compute; reflexivity. Qed.


(* ================================================================== *)
(** ** The draw number of the prizes                                   *)
(* ================================================================== *)

Section ForeignKey.
Context `{Runtime}.

Lemma int64_of_cell_det default v x x' :
  int64_of_cell default v x → int64_of_cell default v x' → x = x'.
Proof.
  intros (y & Hy & ->) (y' & Hy' & ->). rewrite Hy in Hy'.
  by injection Hy' as <-.
Qed.

Lemma Forall2_replicate_det default v k (new : list value) x :
  int64_of_cell default v x →
  Forall2 (int64_of_cell default) (replicate k v) new →
  new = replicate k x.
Proof.
  intros Hx. revert new. induction k as [|k IH]; intros new; simpl.
  - by intros ->%Forall2_nil_inv_l.
  - intros (x' & new' & Hx' & Hnew & ->)%Forall2_cons_inv_l.
    rewrite (int64_of_cell_det _ _ _ _ Hx' Hx). f_equal. by apply IH.
Qed.

(** Lines 123-124 write the draw number of the header into every prize. *)
Lemma attach_numero_sorteo_ok header premios premios' v :
  header !! "numero_sorteo" = Some v →
  attach_numero_sorteo header premios = ok premios' →
  premios' = (λ premio, <["numero_sorteo" := v]> premio) <$> premios.
Proof.
  intros Hv. revert premios'.
  induction premios as [|p ps IH]; intros premios'; simpl.
  - by intros [= <-].
  - rewrite Hv. intros Hb. inv_ok Hb. subst premios'. f_equal. by apply IH.
Qed.

Lemma columns_of_attached (premios : list (gmap string value)) v :
  columns (DataFrame_of_records
             ((λ premio, <["numero_sorteo" := v]> premio) <$> premios))
    !! "numero_sorteo" =
  match premios with
  | [] => None
  | _ => Some (replicate (length premios) v)
  end.
Proof.
  rewrite columns_of_records. destruct premios as [|p ps].
  - rewrite decide_False; [done|]. unfold column_names. simpl.
    apply not_elem_of_empty.
  - rewrite decide_True.
    + f_equal. unfold column_of. rewrite <- list_fmap_compose.
      generalize (p :: ps). intros l. induction l as [|q l IH]; [done|].
      simpl. rewrite lookup_insert_eq. simpl. by f_equal.
    + unfold column_names. simpl. apply elem_of_union_l, elem_of_dom.
      rewrite lookup_insert_eq. eauto.
Qed.

(** The draw-number column of the prize table that is written. *)
Lemma premios_numero_sorteo_column df out :
  enforce_premios_schema df = ok out →
  ∃ old new, columns df !! "numero_sorteo" = Some old ∧
             columns out !! "numero_sorteo" = Some new ∧
             Forall2 (int64_of_cell (Some 0%Z)) (replace_cell <$> old) new.
Proof.
  unfold enforce_premios_schema. intros Hb.
  apply bind_ok in Hb as (df1 & H1 & Hb).
  apply bind_ok in Hb as (df2 & H2 & Hb).
  pose proof (select_ok _ _ _ H2 "numero_sorteo") as Hsel. simpl in Hsel.
  apply normalize_capital_ok in H1 as (ciudad & _ & ->).
  rewrite columns_loc_setitem_ne in Hsel by done.
  apply cast_premios_ok in Hb
    as (c1 & c2 & c3 & c4 & c5 & c6 & c7 & ns & np & Hb).
  cbv zeta in Hb. destruct Hb as (Hc1 & _ & _ & _ & _ & _ & _ & Hns & _ & Hout).
  rewrite columns_replace_placeholders, Hsel in Hc1.
  apply fmap_Some in Hc1 as (old & Hold & ->).
  exists old, ns. split; [done|]. split.
  - rewrite Hout. rewrite !lookup_insert_ne by done. by rewrite lookup_insert_eq.
  - by apply to_int64_ok.
Qed.

End ForeignKey.

(** C9.  A file whose header gives a draw number that is not one of the
    placeholder texts, parsed by a parser whose split of the vendor field
    keeps the draw-number column: when the file is normalized, the draw
    table has one draw number, an integer, and the draw number of every
    prize (one per parsed prize line) is that same integer. *)
Theorem draw_number_foreign_key `{Runtime} `{Parser}
    (numero_sorteo : N) (file_content : string)
    (header_lines body_lines : list string) (header : gmap string value)
    (v : value) (sorteos_df premios_df : DataFrame) (year : N) :
  (∀ df df', split_vendido_por_column df = ok df' →
             columns df' !! "numero_sorteo" = columns df !! "numero_sorteo") →
  split_header_body (splitlines file_content) = ok (header_lines, body_lines) →
  process_header header_lines = ok header →
  header !! "numero_sorteo" = Some v →
  replace_cell v = v →
  parse_and_normalize numero_sorteo file_content
    = ok (sorteos_df, premios_df, year) →
  ∃ z premios,
    process_body body_lines = ok premios ∧
    columns sorteos_df !! "numero_sorteo" = Some [VInt z] ∧
    columns premios_df !! "numero_sorteo"
      = Some (replicate (length premios) (VInt z)).
Proof.
  intros Hkeep Hsplit Hheader Hv Hwf. unfold parse_and_normalize.
  rewrite Hsplit. simpl. rewrite Hheader. simpl. intros Hb.
  apply bind_ok in Hb as (premios & Hbody & Hb).
  apply bind_ok in Hb as (premios' & Hattach & Hb).
  apply (attach_numero_sorteo_ok _ _ _ _ Hv) in Hattach as ->.
  unfold normalize_records in Hb.
  apply bind_ok in Hb as (pdf0 & Hvend & Hb).
  apply bind_ok in Hb as (pdf & Hpremios & Hb).
  apply bind_ok in Hb as (sdf & Hsorteos & Hb).
  apply bind_ok in Hb as (y & Hyear & Hb).
  apply ok_inj in Hb. injection Hb as <- <- <-.
  (* the draw table *)
  destruct (sorteos_columns _ _ Hsorteos) as (df1 & Hre & Hint & _).
  destruct (Hint "numero_sorteo" (Some 0%Z)) as (old & new & Hold & Hnew & HF);
    [repeat constructor|].
  destruct (split_reintegros_columns _ _ Hre) as (_ & _ & Hother & _).
  rewrite Hother in Hold by (apply (bool_decide_unpack _); by vm_compute).
  rewrite columns_of_record, Hv in Hold. injection Hold as <-.
  apply Forall2_cons_inv_l in HF as (x & new' & Hx & ->%Forall2_nil_inv_l & ->).
  destruct (int64_of_cell_typed _ _ _ Hx) as [z ->].
  exists z, premios. split; [done|]. split; [done|].
  (* the prize table *)
  destruct (premios_numero_sorteo_column _ _ Hpremios)
    as (old & new & Hold & Hnew' & HF).
  rewrite (Hkeep _ _ Hvend), columns_of_attached in Hold.
  destruct premios as [|p ps]; [done|].
  assert (old = replicate (length (p :: ps)) v) as -> by congruence.
  rewrite fmap_replicate, Hwf in HF.
  by rewrite Hnew', (Forall2_replicate_det _ _ _ _ _ Hx HF).
Qed.

Lemma fixture_split_keeps_numero_sorteo df df' :
  fixture_split_vendido_por_column df = ok df' →
  columns df' !! "numero_sorteo" = columns df !! "numero_sorteo".
Proof.
  unfold fixture_split_vendido_por_column. intros Hb. inv_ok Hb. subst df'.
  rewrite !columns_setitem. by rewrite !lookup_insert_ne.
Qed.

Lemma draw_number_foreign_key_witness :
  ∃ sorteos_df premios_df year z k,
    parse_and_normalize 1234 file_1234 = ok (sorteos_df, premios_df, year) ∧
    columns sorteos_df !! "numero_sorteo" = Some [VInt z] ∧
    columns premios_df !! "numero_sorteo" = Some (replicate k (VInt z)).
Proof.
  destruct (parse_and_normalize 1234 file_1234) as [e|[[sdf pdf] y]] eqn:Hn;
    [by vm_compute in Hn|].
  edestruct (draw_number_foreign_key 1234 file_1234)
    as (z & premios & _ & Hs & Hp).
  - exact fixture_split_keeps_numero_sorteo.
  - vm_compute. reflexivity.
  - vm_compute. reflexivity.
  - vm_compute. reflexivity.
  - reflexivity.
  - exact Hn.
  - exists sdf, pdf, y, z, (length premios). split; [reflexivity|]. by split.
Defined.

(* ================================================================== *)
(** ** The partition year                                              *)
(* ================================================================== *)

Section YearFacts.
Context `{Runtime}.

(** The draw-date column of the draw table of a file: the one date of the
    header, parsed. *)
Lemma sorteos_fecha_column (header : gmap string value) sdf :
  enforce_sorteos_schema (DataFrame_of_records [header]) = ok sdf →
  ∃ v, header !! "fecha_sorteo" = Some v ∧
       columns sdf !! "fecha_sorteo" = Some [to_datetime_cell v].
Proof.
  intros Hs. destruct (sorteos_columns _ _ Hs) as (df1 & Hre & _ & Hdate & _).
  destruct (Hdate "fecha_sorteo") as (old & Hold & Hnew); [repeat constructor|].
  destruct (split_reintegros_columns _ _ Hre) as (_ & _ & Hother & _).
  rewrite Hother in Hold by (apply (bool_decide_unpack _); by vm_compute).
  rewrite columns_of_record in Hold.
  apply fmap_Some in Hold as (v & Hv & ->). exists v. by split.
Qed.

Lemma derive_year_all_null n df col :
  columns df !! "fecha_sorteo" = Some col →
  Forall (λ v, isna v = true) col →
  derive_year n df =
    raise (ValueError ("Invalid fecha_sorteo for sorteo=" +:+ str_of_N n
                       +:+ ". Cannot derive year partition.")).
Proof.
  intros Hcol Hall. unfold derive_year.
  apply getitem_ok in Hcol. rewrite Hcol. simpl.
  assert (forallb isna col = true) as ->; [|done].
  apply forallb_forall. intros v Hv. rewrite Forall_forall in Hall.
  apply Hall. by apply list_elem_of_In.
Qed.

End YearFacts.

(** C3.  (1) When the draw date of every row of the draw table is null, the
    derivation of the year raises the [ValueError] of line 208.  (2) A raw
    file that is processed (its key gives a draw number that is not yet in
    Silver, and the object exists) and whose header gives no draw date that
    parses: processing it raises, and nothing is uploaded: the world after
    it is the world before plus the download.  (3) Conversely, when the
    header gives a draw date that parses, the year derived from the draw
    table is the year of that date, the date of the first (and only) row,
    and no error is raised. *)
Theorem unparseable_draw_date_fails `{Runtime} `{Parser} `{Config} `{Storage} :
  (∀ n df col,
     columns df !! "fecha_sorteo" = Some col →
     Forall (λ v, isna v = true) col →
     derive_year n df =
       raise (ValueError ("Invalid fecha_sorteo for sorteo=" +:+ str_of_N n
                          +:+ ". Cannot derive year partition."))) ∧
  (∀ bucket_name simple_prefix silver_prefix processed raw_file w n
     file_content header_lines body_lines header,
     re_search_sorteo raw_file = Some n → n ∉ processed →
     objects w !! (bucket_name, raw_file) = Some file_content →
     split_header_body (splitlines file_content) = ok (header_lines, body_lines) →
     process_header header_lines = ok header →
     date_fails header →
     ∃ e, process_file bucket_name simple_prefix silver_prefix processed
            raw_file w
          = (log (Download bucket_name raw_file) w, raise e)) ∧
  (∀ n header sdf s t,
     header !! "fecha_sorteo" = Some (VStr s) → strptime s = Some t →
     enforce_sorteos_schema (DataFrame_of_records [header]) = ok sdf →
     derive_year n sdf = ok (year t)).
Proof.
  split; [|split].
  - intros n df col. apply derive_year_all_null.
  - intros bucket sp slp processed raw_file w n content hl bl header
      Hre Hnew Hobj Hsplit Hheader Hfails.
    assert (∃ e, parse_and_normalize n content = raise e) as [e He].
    { unfold parse_and_normalize. rewrite Hsplit. simpl. rewrite Hheader. simpl.
      destruct (process_body bl) as [e|premios]; [by exists e|]. simpl.
      destruct (attach_numero_sorteo header premios) as [e|premios'];
        [by exists e|]. simpl.
      unfold normalize_records.
      destruct (split_vendido_por_column _) as [e|pdf0]; [by exists e|]. simpl.
      destruct (enforce_premios_schema pdf0) as [e|pdf]; [by exists e|]. simpl.
      destruct (enforce_sorteos_schema _) as [e|sdf] eqn:Hs; [by exists e|]. simpl.
      destruct (sorteos_fecha_column _ _ Hs) as (v & Hv & Hcol).
      rewrite (derive_year_all_null n sdf _ Hcol).
      - simpl. eauto.
      - constructor; [|constructor]. by rewrite (Hfails v Hv). }
    exists e. unfold process_file. rewrite Hre.
    rewrite bool_decide_eq_false_2 by done.
    unfold mbind, M_bind, download_file_from_s3. rewrite Hobj.
    unfold lift, ok. simpl. by rewrite He.
  - intros n header sdf s t Hs Ht Hsdf.
    destruct (sorteos_fecha_column _ _ Hsdf) as (v & Hv & Hcol).
    rewrite Hs in Hv. injection Hv as <-. simpl in Hcol. rewrite Ht in Hcol.
    unfold derive_year. apply getitem_ok in Hcol. rewrite Hcol. reflexivity.
Qed.

Lemma unparseable_draw_date_fails_witness :
  (∃ e, process_file "lottery-partitioned" "processed/" "silver/" ∅
          "raw/year=2024/sorteo=1200/1200.txt" world_two
        = (log (Download "lottery-partitioned"
                  "raw/year=2024/sorteo=1200/1200.txt") world_two, raise e)) ∧
  (∃ sdf, enforce_sorteos_schema (DataFrame_of_records [header_odd]) = ok sdf ∧
          derive_year 1234 sdf = ok 2024%N).
Proof.
  destruct unparseable_draw_date_fails as (_ & Hfail & Hyear). split.
  - eapply (Hfail _ _ _ _ _ _ 1200%N).
    + vm_compute. reflexivity.
    + apply not_elem_of_empty.
    + vm_compute. reflexivity.
    + vm_compute. reflexivity.
    + vm_compute. reflexivity.
    + intros v Hv. vm_compute in Hv. injection Hv as <-. vm_compute. reflexivity.
  - destruct (enforce_sorteos_schema (DataFrame_of_records [header_odd]))
      as [e|sdf] eqn:Hs; [by vm_compute in Hs|].
    exists sdf. split; [reflexivity|].
    apply (Hyear 1234%N header_odd sdf "01/06/2024"
             (mkTimestamp 2024 6 1)); [vm_compute; reflexivity..|exact Hs].
Defined.

(* ================================================================== *)
(** ** One raw file                                                    *)
(* ================================================================== *)

Section FileFacts.
Context `{Runtime} `{Parser} `{Config} `{Storage}.

(** Uploads in a row write a prefix of the list: all of it exactly when no
    write is refused. *)
Lemma upload_all_prefix os w w' r :
  upload_all os w = (w', r) →
  ∃ written rest,
    os = (written ++ rest)%list ∧
    trace w' = (trace w ++ (upload_event <$> written))%list ∧
    objects w' = foldl put_object (objects w) written ∧
    (r = ok tt ↔ rest = []).
Proof.
  revert w. induction os as [|[[b k] body] os IH]; intros w; simpl.
  - intros [= <- <-]. exists [], []. simpl. by rewrite app_nil_r.
  - unfold upload_all. simpl. unfold mbind, M_bind.
    unfold upload_file_to_s3 at 1. simpl.
    destruct (upload_fault w b k) eqn:Hfault.
    + intros [= <- <-]. exists [], ((b, k, body) :: os). simpl.
      rewrite app_nil_r. repeat split; done.
    + intros Hrest. apply IH in Hrest as (written & rest & -> & Htr & Hobj & Hr).
      exists ((b, k, body) :: written), rest. simpl in *.
      rewrite Htr, <- app_assoc. done.
Qed.

Lemma write_outputs_uploads sp slp n sdf pdf y sb pb w :
  to_parquet sdf = ok sb → to_parquet pdf = ok pb →
  write_outputs sp slp n sdf pdf y w = upload_all (outputs sp slp n y sb pb) w.
Proof.
  intros Hs Hp. unfold write_outputs, upload_all, outputs. simpl.
  unfold mbind at 1 2, M_bind at 1 2, lift. rewrite Hs, Hp. unfold ok. simpl.
  unfold mbind, M_bind.
  repeat match goal with
         | |- context [upload_file_to_s3 ?a ?b ?c ?w] =>
             destruct (upload_file_to_s3 a b c w) as [? [?|[]]]; [done|]
         end.
  done.
Qed.

(** The ways through the loop body, for one raw key. *)
Lemma process_file_skip_unmatched b sp slp P f w :
  re_search_sorteo f = None → process_file b sp slp P f w = (w, ok tt).
Proof. intros Hre. unfold process_file. by rewrite Hre. Qed.

Lemma process_file_skip_processed b sp slp P f w n :
  re_search_sorteo f = Some n → n ∈ P →
  process_file b sp slp P f w = (w, ok tt).
Proof.
  intros Hre Hin. unfold process_file. rewrite Hre.
  by rewrite bool_decide_eq_true_2.
Qed.

Lemma process_file_missing b sp slp P f w n :
  re_search_sorteo f = Some n → n ∉ P → objects w !! (b, f) = None →
  process_file b sp slp P f w = (w, raise (ClientError b f)).
Proof.
  intros Hre Hnew Hobj. unfold process_file. rewrite Hre.
  rewrite bool_decide_eq_false_2 by done.
  unfold mbind, M_bind, download_file_from_s3. by rewrite Hobj.
Qed.

Lemma process_file_downloaded b sp slp P f w n content :
  re_search_sorteo f = Some n → n ∉ P → objects w !! (b, f) = Some content →
  process_file b sp slp P f w =
    match parse_and_normalize n content with
    | inl e => (log (Download b f) w, raise e)
    | inr (sdf, pdf, y) => write_outputs sp slp n sdf pdf y (log (Download b f) w)
    end.
Proof.
  intros Hre Hnew Hobj. unfold process_file. rewrite Hre.
  rewrite bool_decide_eq_false_2 by done.
  unfold mbind, M_bind, download_file_from_s3. rewrite Hobj.
  unfold lift, ok. simpl.
  by destruct (parse_and_normalize n content) as [e|[[sdf pdf] y]].
Qed.

Lemma write_outputs_no_parquet sp slp n sdf pdf y w e :
  to_parquet sdf = raise e ∨
  (∃ sb, to_parquet sdf = ok sb ∧ to_parquet pdf = raise e) →
  write_outputs sp slp n sdf pdf y w = (w, raise e).
Proof.
  unfold write_outputs, mbind, M_bind, lift.
  intros [->|(sb & -> & ->)]; done.
Qed.

(** Every way through the loop body, with what it leaves in the world. *)
Lemma process_file_cases
    (bucket_name simple_prefix silver_prefix : string) (processed : gset N)
    (raw_file : string) (w w' : world) (r : result unit) :
  process_file bucket_name simple_prefix silver_prefix processed raw_file w
    = (w', r) →
  (objects w' = objects w ∧
   (trace w' = trace w ∨
    trace w' = (trace w ++ [Download bucket_name raw_file])%list))
  ∨
  (∃ n content sdf pdf y sb pb written rest,
     re_search_sorteo raw_file = Some n ∧ (n ∉ processed) ∧
     objects w !! (bucket_name, raw_file) = Some content ∧
     parse_and_normalize n content = ok (sdf, pdf, y) ∧
     to_parquet sdf = ok sb ∧ to_parquet pdf = ok pb ∧
     outputs simple_prefix silver_prefix n y sb pb = (written ++ rest)%list ∧
     trace w' = (trace w ++ (Download bucket_name raw_file
                             :: (upload_event <$> written)))%list ∧
     objects w' = foldl put_object (objects w) written ∧
     (r = ok tt ↔ rest = [])).
Proof.
  intros Hrun.
  destruct (re_search_sorteo raw_file) as [n|] eqn:Hre.
  2: { rewrite process_file_skip_unmatched in Hrun by done.
       injection Hrun as <- <-. left. auto. }
  destruct (decide (n ∈ processed)) as [Hin|Hnew].
  { rewrite (process_file_skip_processed _ _ _ _ _ _ n) in Hrun by done.
    injection Hrun as <- <-. left. auto. }
  destruct (objects w !! (bucket_name, raw_file)) as [content|] eqn:Hobj.
  2: { rewrite (process_file_missing _ _ _ _ _ _ n) in Hrun by done.
       injection Hrun as <- <-. left. auto. }
  rewrite (process_file_downloaded _ _ _ _ _ _ n content) in Hrun by done.
  destruct (parse_and_normalize n content) as [e|[[sdf pdf] y]] eqn:Hnorm.
  { injection Hrun as <- <-. left. simpl. auto. }
  destruct (to_parquet sdf) as [e|sb] eqn:Hsb.
  { rewrite (write_outputs_no_parquet _ _ _ _ _ _ _ e) in Hrun by (by left).
    injection Hrun as <- <-. left. simpl. auto. }
  destruct (to_parquet pdf) as [e|pb] eqn:Hpb.
  { rewrite (write_outputs_no_parquet _ _ _ _ _ _ _ e) in Hrun
      by (right; by exists sb).
    injection Hrun as <- <-. left. simpl. auto. }
  rewrite (write_outputs_uploads _ _ _ _ _ _ sb pb) in Hrun by done.
  apply upload_all_prefix in Hrun as (written & rest & Hout & Htr & Hobjs & Hr).
  right. exists n, content, sdf, pdf, y, sb, pb, written, rest.
  simpl in Htr, Hobjs. rewrite <- app_assoc in Htr. simpl in Htr.
  repeat split; try done; by apply Hr.
Qed.

End FileFacts.

(** C2, as the code has it.  Whatever happens to a raw key, either nothing
    is uploaded (the key is skipped, the object is missing, or parsing,
    normalization or serialization raised), or the file was parsed and
    normalized in full, both tables were serialized, and the objects written
    are the first ones of the four outputs in their fixed order: flat
    sorteos, flat premios, canonical sorteos, canonical premios; all four
    exactly when the body returns.  So the canonical premios object of the
    draw is never written before its canonical sorteos object; the converse
    does not hold. *)
Theorem uploads_follow_normalization `{Runtime} `{Parser} `{Config} `{Storage}
    (bucket_name simple_prefix silver_prefix : string) (processed : gset N)
    (raw_file : string) (w w' : world) (r : result unit) :
  process_file bucket_name simple_prefix silver_prefix processed raw_file w
    = (w', r) →
  (objects w' = objects w ∧
   (trace w' = trace w ∨
    trace w' = (trace w ++ [Download bucket_name raw_file])%list))
  ∨
  (∃ n content sdf pdf y sb pb written rest,
     re_search_sorteo raw_file = Some n ∧ (n ∉ processed) ∧
     objects w !! (bucket_name, raw_file) = Some content ∧
     parse_and_normalize n content = ok (sdf, pdf, y) ∧
     to_parquet sdf = ok sb ∧ to_parquet pdf = ok pb ∧
     outputs simple_prefix silver_prefix n y sb pb = (written ++ rest)%list ∧
     trace w' = (trace w ++ (Download bucket_name raw_file
                             :: (upload_event <$> written)))%list ∧
     objects w' = foldl put_object (objects w) written ∧
     (r = ok tt ↔ rest = [])).
Proof. apply process_file_cases. Qed.

Lemma uploads_follow_normalization_witness :
  ∃ w' r,
    process_file "lottery-partitioned" "processed/" "silver/" ∅
      "raw/year=2024/sorteo=1234/1234.txt" world_one = (w', r) ∧
    ((objects w' = objects world_one ∧
      (trace w' = trace world_one ∨
       trace w' = (trace world_one
                   ++ [Download "lottery-partitioned"
                         "raw/year=2024/sorteo=1234/1234.txt"])%list))
     ∨ ∃ n content sdf pdf y sb pb written rest,
         re_search_sorteo "raw/year=2024/sorteo=1234/1234.txt" = Some n ∧
         (n ∉ (∅ : gset N)) ∧
         objects world_one
           !! ("lottery-partitioned", "raw/year=2024/sorteo=1234/1234.txt")
           = Some content ∧
         parse_and_normalize n content = ok (sdf, pdf, y) ∧
         to_parquet sdf = ok sb ∧ to_parquet pdf = ok pb ∧
         outputs "processed/" "silver/" n y sb pb = (written ++ rest)%list ∧
         trace w' = (trace world_one
                     ++ (Download "lottery-partitioned"
                           "raw/year=2024/sorteo=1234/1234.txt"
                         :: (upload_event <$> written)))%list ∧
         objects w' = foldl put_object (objects world_one) written ∧
         (r = ok tt ↔ rest = [])).
Proof.
  destruct (process_file "lottery-partitioned" "processed/" "silver/" ∅
              "raw/year=2024/sorteo=1234/1234.txt" world_one) as [w' r] eqn:Hrun.
  exists w', r. split; [reflexivity|].
  exact (uploads_follow_normalization _ _ _ _ _ _ _ _ Hrun).
Defined.

(** The claim C2 as the specification states it fails on the code.  In the
    run over [world_one], a reader of the canonical output sees, after the
    upload of line 240 and before the one of line 241, the sorteos object of
    draw 1234 without its premios object.  And when the store refuses the
    premios object, the run ends there: the draw stays half written, and the
    next run skips it, because the sorteos object is in Silver. *)
Lemma half_written_draw_observable :
  let sorteos_key := ("lottery-partitioned",
                      "silver/sorteos/year=2024/sorteo=1234/sorteos.parquet") in
  let premios_key := ("lottery-partitioned",
                      "silver/premios/year=2024/sorteo=1234/premios.parquet") in
  let half_written (objs : gmap (string * string) string) : bool :=
    bool_decide (is_Some (objs !! sorteos_key))
    && bool_decide (objs !! premios_key = None) in
  existsb half_written
    (snapshots (objects world_one)
       (trace (main "raw/" "processed/" world_one).1)) = true ∧
  (let run1 := @main _ _ _ refusing_storage "raw/" "processed/" world_one in
   let run2 := @main _ _ _ refusing_storage "raw/" "processed/"
                 (mkWorld (objects run1.1) []) in
   run1.2 = raise (ClientError "lottery-partitioned"
                     "silver/premios/year=2024/sorteo=1234/premios.parquet") ∧
   half_written (objects run1.1) = true ∧
   run2.2 = ok tt ∧
   trace run2.1 = [ListProcessed "lottery-partitioned" "silver/sorteos/";
                   ListFiles "lottery-partitioned" "raw/"] ∧
   half_written (objects run2.1) = true).
Proof. cbv zeta. repeat split; vm_compute; reflexivity. Qed.

(* ================================================================== *)
(** ** The loop                                                        *)
(* ================================================================== *)

Section LoopFacts.

Lemma for_each_app {A} (body : A → M unit) (before after : list A) w w1 :
  for_each body before w = (w1, ok tt) →
  for_each body (before ++ after) w = for_each body after w1.
Proof.
  revert w. induction before as [|x before IH]; intros w; simpl.
  - by intros [= <-].
  - unfold mbind, M_bind. destruct (body x w) as [w' [e|[]]]; [done|].
    apply IH.
Qed.

Lemma for_each_raise {A} (body : A → M unit) (x : A) (after : list A) w w2 e :
  body x w = (w2, raise e) → for_each body (x :: after) w = (w2, raise e).
Proof. intros Hx. simpl. unfold mbind, M_bind. by rewrite Hx. Qed.

Lemma transform_unfold `{Runtime} `{Parser} `{Config} `{Storage}
    (bucket_name raw_prefix simple_prefix silver_prefix : string) (w : world) :
  transform bucket_name raw_prefix simple_prefix silver_prefix w =
    for_each
      (process_file bucket_name simple_prefix silver_prefix
         (processed_sorteos (objects w) bucket_name (silver_prefix +:+ "sorteos/")))
      (list_keys (objects w) bucket_name raw_prefix)
      (log (ListFiles bucket_name raw_prefix)
         (log (ListProcessed bucket_name (silver_prefix +:+ "sorteos/")) w)).
Proof. reflexivity. Qed.

End LoopFacts.

(** C1, as the code has it.  The loop has no handler: when the body raises
    on a raw file, [transform] ends with that exception in the world the
    failing file left; the files listed after it are not processed.  The
    files listed before it were processed as usual. *)
Theorem failure_ends_the_run `{Runtime} `{Parser} `{Config} `{Storage}
    (bucket_name raw_prefix simple_prefix silver_prefix : string)
    (w w1 w2 : world) (before after : list string) (raw_file : string)
    (e : exn) :
  let processed :=
    processed_sorteos (objects w) bucket_name (silver_prefix +:+ "sorteos/") in
  let body := process_file bucket_name simple_prefix silver_prefix processed in
  list_keys (objects w) bucket_name raw_prefix
    = (before ++ raw_file :: after)%list →
  for_each body before
    (log (ListFiles bucket_name raw_prefix)
       (log (ListProcessed bucket_name (silver_prefix +:+ "sorteos/")) w))
    = (w1, ok tt) →
  body raw_file w1 = (w2, raise e) →
  transform bucket_name raw_prefix simple_prefix silver_prefix w
    = (w2, raise e).
Proof.
  intros processed body Hlist Hbefore Hfail.
  rewrite transform_unfold, Hlist. fold processed. fold body.
  rewrite (for_each_app _ _ _ _ _ Hbefore). by apply for_each_raise.
Qed.

Lemma failure_ends_the_run_witness :
  ∃ w2 e,
    transform "lottery-partitioned" "raw/" "processed/" "silver/" world_two
      = (w2, raise e) ∧
    trace w2 = [ListProcessed "lottery-partitioned" "silver/sorteos/";
                ListFiles "lottery-partitioned" "raw/";
                Download "lottery-partitioned"
                  "raw/year=2024/sorteo=1200/1200.txt"].
Proof.
  eexists. eexists. split.
  - eapply (failure_ends_the_run "lottery-partitioned" "raw/" "processed/"
              "silver/" world_two _ _ []
              ["raw/year=2024/sorteo=1234/1234.txt"]
              "raw/year=2024/sorteo=1200/1200.txt").
    + vm_compute. reflexivity.
    + reflexivity.
    + vm_compute. reflexivity.
  - reflexivity.
Defined.

(** The claim C1 as the specification states it fails on the code.  In
    [world_two] the first raw file listed has a draw date that does not
    parse and the second one is the well-formed file of draw 1234.  The run
    ends with the [ValueError] of the first file: the second file is never
    downloaded and nothing is written for it, whereas the same file is
    written to Silver when the run does not meet the first one. *)
Lemma later_file_is_not_processed :
  let run := main "raw/" "processed/" world_two in
  let alone := main "raw/" "processed/" world_one in
  let sorteos_key := ("lottery-partitioned",
                      "silver/sorteos/year=2024/sorteo=1234/sorteos.parquet") in
  list_keys (objects world_two) "lottery-partitioned" "raw/"
    = ["raw/year=2024/sorteo=1200/1200.txt";
       "raw/year=2024/sorteo=1234/1234.txt"] ∧
  run.2 = raise (ValueError
            "Invalid fecha_sorteo for sorteo=1200. Cannot derive year partition.") ∧
  trace run.1 = [ListProcessed "lottery-partitioned" "silver/sorteos/";
                 ListFiles "lottery-partitioned" "raw/";
                 Download "lottery-partitioned"
                   "raw/year=2024/sorteo=1200/1200.txt"] ∧
  objects run.1 !! sorteos_key = None ∧
  alone.2 = ok tt ∧
  bool_decide (is_Some (objects alone.1 !! sorteos_key)) = true.
Proof. cbv zeta. repeat split; vm_compute; reflexivity. Qed.

(* ================================================================== *)
(** ** The draw number of a Silver key                                 *)
(* ================================================================== *)

Section KeyFacts.

(** The search passes over a printed number. *)
Lemma re_search_sorteo_digits d s :
  re_search_sorteo (NilEmpty.string_of_uint d +:+ s) = re_search_sorteo s.
Proof. induction d; simpl; try done. Qed.

Lemma span_digits_printed d s :
  span_digits (NilEmpty.string_of_uint d +:+ String "/" s)
    = (NilEmpty.string_of_uint d, String "/" s).
Proof. induction d; simpl; try done; by rewrite IHd. Qed.

Lemma int_of_digits_printed n : int_of_digits (str_of_N n) = Some n.
Proof.
  unfold int_of_digits, str_of_N. rewrite NilEmpty.usu. simpl.
  by rewrite Unsigned.of_to.
Qed.

Lemma str_of_N_nonempty n : ∃ c s, str_of_N n = String c s.
Proof.
  unfold str_of_N. destruct n as [|p]; [by eexists _, _|].
  simpl. pose proof (DecimalPos.Unsigned.to_uint_nonnil p) as Hp.
  destruct (Pos.to_uint p); [done|..]; by eexists _, _.
Qed.

(** The segment [sorteo=<n>/] at the front of a text gives [n]. *)
Lemma match_sorteo_here_printed n s :
  match_sorteo_here ("sorteo=" +:+ str_of_N n +:+ String "/" s) = Some n.
Proof.
  unfold match_sorteo_here.
  change (strip_prefix "sorteo=" ("sorteo=" +:+ str_of_N n +:+ String "/" s))
    with (Some (str_of_N n +:+ String "/" s)).
  unfold str_of_N at 1. rewrite span_digits_printed. fold (str_of_N n).
  destruct (str_of_N_nonempty n) as (c & t & Hn). rewrite Hn, <- Hn.
  apply int_of_digits_printed.
Qed.

(** The canonical sorteos key of year [y] and draw [n], under the default
    prefix, lies under [silver/sorteos/] and gives back [n]. *)
Lemma silver_key_listed `{Config} y n :
  let key := partitioned_key SILVER_PREFIX_DEFAULT "sorteos" y n in
  startswith (SILVER_PREFIX_DEFAULT +:+ "sorteos/") key = true ∧
  re_search_sorteo key = Some n.
Proof.
  cbv zeta. split; [reflexivity|].
  unfold partitioned_key, SILVER_PREFIX_DEFAULT.
  change (re_search_sorteo
            (str_of_N y +:+ "/" +:+ "sorteo=" +:+ str_of_N n
               +:+ String "/" ("sorteos" +:+ ".parquet")) = Some n).
  unfold str_of_N at 1. rewrite re_search_sorteo_digits.
  change (match match_sorteo_here
                  ("sorteo=" +:+ str_of_N n +:+ String "/" ("sorteos" +:+ ".parquet"))
          with
          | Some m => Some m
          | None => re_search_sorteo
                      ("orteo=" +:+ str_of_N n +:+ String "/" ("sorteos" +:+ ".parquet"))
          end = Some n).
  by rewrite match_sorteo_here_printed.
Qed.

End KeyFacts.

(* ================================================================== *)
(** ** A second run                                                    *)
(* ================================================================== *)

Section Idempotence.
Context `{Runtime} `{Parser} `{Config} `{Storage}.

Lemma elem_of_processed_sorteos objs bucket prefix n :
  n ∈ processed_sorteos objs bucket prefix ↔
  ∃ key body, objs !! (bucket, key) = Some body ∧
              startswith prefix key = true ∧ re_search_sorteo key = Some n.
Proof.
  unfold processed_sorteos. rewrite elem_of_list_to_set, list_elem_of_omap.
  split.
  - intros ([[b k] body] & Hin & Hn). apply elem_of_map_to_list in Hin.
    destruct (String.eqb_spec b bucket) as [->|]; [|done].
    destruct (startswith prefix k) eqn:Hp; [|done]. simpl in Hn. eauto.
  - intros (k & body & Hobj & Hp & Hn). exists (bucket, k, body).
    split; [by apply elem_of_map_to_list|].
    by rewrite String.eqb_refl, Hp.
Qed.

Lemma grows_refl objs : grows objs objs.
Proof. by intros key. Qed.

Lemma grows_trans o1 o2 o3 : grows o1 o2 → grows o2 o3 → grows o1 o3.
Proof. intros H12 H23 key Hk. by apply H23, H12. Qed.

Lemma grows_put objs o : grows objs (put_object objs o).
Proof.
  intros key Hk. unfold put_object.
  destruct (decide ((o.1.1, o.1.2) = key)) as [<-|Hne].
  - rewrite lookup_insert_eq. eauto.
  - by rewrite lookup_insert_ne.
Qed.

Lemma grows_foldl_put os objs : grows objs (foldl put_object objs os).
Proof.
  revert objs. induction os as [|o os IH]; intros objs; simpl.
  - apply grows_refl.
  - eapply grows_trans; [apply grows_put|apply IH].
Qed.

Lemma processed_sorteos_grows objs objs' bucket prefix n :
  grows objs objs' →
  n ∈ processed_sorteos objs bucket prefix →
  n ∈ processed_sorteos objs' bucket prefix.
Proof.
  intros Hg (k & body & Hobj & Hp & Hn)%elem_of_processed_sorteos.
  destruct (Hg (bucket, k)) as [body' Hbody']; [by eexists|].
  apply elem_of_processed_sorteos. eauto.
Qed.

(** The body returned: the key was skipped, or its four objects are
    written. *)
Lemma process_file_returns b sp slp P f w w' :
  process_file b sp slp P f w = (w', ok tt) →
  (w' = w ∧ (re_search_sorteo f = None ∨
             ∃ n, re_search_sorteo f = Some n ∧ n ∈ P))
  ∨
  (∃ n content sdf pdf y sb pb,
     re_search_sorteo f = Some n ∧ (n ∉ P) ∧
     objects w !! (b, f) = Some content ∧
     parse_and_normalize n content = ok (sdf, pdf, y) ∧
     to_parquet sdf = ok sb ∧ to_parquet pdf = ok pb ∧
     trace w' = (trace w ++ (Download b f
                   :: (upload_event <$> outputs sp slp n y sb pb)))%list ∧
     objects w' = foldl put_object (objects w) (outputs sp slp n y sb pb)).
Proof.
  intros Hrun.
  destruct (re_search_sorteo f) as [n|] eqn:Hre.
  2: { rewrite process_file_skip_unmatched in Hrun by done.
       injection Hrun as <-. left. auto. }
  destruct (decide (n ∈ P)) as [Hin|Hnew].
  { rewrite (process_file_skip_processed _ _ _ _ _ _ n) in Hrun by done.
    injection Hrun as <-. left. eauto. }
  destruct (objects w !! (b, f)) as [content|] eqn:Hobj.
  2: { by rewrite (process_file_missing _ _ _ _ _ _ n) in Hrun by done. }
  rewrite (process_file_downloaded _ _ _ _ _ _ n content) in Hrun by done.
  destruct (parse_and_normalize n content) as [e|[[sdf pdf] y]] eqn:Hnorm;
    [done|].
  destruct (to_parquet sdf) as [e|sb] eqn:Hsb.
  { by rewrite (write_outputs_no_parquet _ _ _ _ _ _ _ e) in Hrun by (by left). }
  destruct (to_parquet pdf) as [e|pb] eqn:Hpb.
  { by rewrite (write_outputs_no_parquet _ _ _ _ _ _ _ e) in Hrun
      by (right; by exists sb). }
  rewrite (write_outputs_uploads _ _ _ _ _ _ sb pb) in Hrun by done.
  apply upload_all_prefix in Hrun as (written & rest & Hout & Htr & Hobjs & Hr).
  assert (rest = []) as -> by (by apply Hr). rewrite app_nil_r in Hout.
  subst written. right. exists n, content, sdf, pdf, y, sb, pb.
  simpl in Htr, Hobjs. rewrite <- app_assoc in Htr.
  repeat split; done.
Qed.

(** After the body returned on a key of draw [n], run from [main], the draw
    is in Silver or was there before. *)
Lemma process_file_ok_invariant sp P f w w' :
  process_file partitioned_bucket sp SILVER_PREFIX_DEFAULT P f w = (w', ok tt) →
  grows (objects w) (objects w') ∧
  (∀ n, re_search_sorteo f = Some n →
        n ∈ P ∨
        n ∈ processed_sorteos (objects w') partitioned_bucket
              (SILVER_PREFIX_DEFAULT +:+ "sorteos/")).
Proof.
  intros [[-> Hskip]|Hdone]%process_file_returns.
  - split; [apply grows_refl|]. intros n Hn. left.
    destruct Hskip as [Hnone|(n' & Hn' & Hin)]; congruence.
  - destruct Hdone as (n & content & sdf & pdf & y & sb & pb & Hre & _ & _ &
                       _ & _ & _ & _ & ->).
    split; [apply grows_foldl_put|]. intros n' Hn'. right.
    assert (n' = n) as -> by congruence.
    destruct (silver_key_listed y n) as [Hp Hk].
    apply elem_of_processed_sorteos.
    assert (is_Some (foldl put_object (objects w)
                       (outputs sp SILVER_PREFIX_DEFAULT n y sb pb)
                     !! (partitioned_bucket,
                         partitioned_key SILVER_PREFIX_DEFAULT "sorteos" y n)))
      as [body Hbody].
    { unfold outputs. simpl. apply grows_put. unfold put_object at 1. simpl.
      rewrite lookup_insert_eq. eauto. }
    eauto.
Qed.

Lemma loop_invariant sp P files w w' :
  for_each (process_file partitioned_bucket sp SILVER_PREFIX_DEFAULT P) files w
    = (w', ok tt) →
  grows (objects w) (objects w') ∧
  (∀ f n, f ∈ files → re_search_sorteo f = Some n →
          n ∈ P ∨
          n ∈ processed_sorteos (objects w') partitioned_bucket
                (SILVER_PREFIX_DEFAULT +:+ "sorteos/")).
Proof.
  revert w. induction files as [|f files IH]; intros w; simpl.
  - intros [= <-]. split; [apply grows_refl|].
    intros f n Hf. by apply elem_of_nil in Hf.
  - unfold mbind, M_bind.
    destruct (process_file _ _ _ _ f w) as [w1 [e|[]]] eqn:Hf; [done|].
    intros Hrest. destruct (process_file_ok_invariant _ _ _ _ _ Hf) as [Hg1 Hn1].
    destruct (IH _ Hrest) as [Hg2 Hn2].
    split; [by eapply grows_trans|].
    intros f' n [->|Hin]%elem_of_cons Hre; [|by eapply Hn2].
    destruct (Hn1 n Hre) as [?|Hp]; [by left|right].
    by eapply processed_sorteos_grows.
Qed.

Lemma loop_all_skipped b sp slp P files w :
  (∀ f n, f ∈ files → re_search_sorteo f = Some n → n ∈ P) →
  for_each (process_file b sp slp P) files w = (w, ok tt).
Proof.
  induction files as [|f files IH]; intros Hall; [done|]. simpl.
  unfold mbind, M_bind.
  assert (process_file b sp slp P f w = (w, ok tt)) as ->.
  { destruct (re_search_sorteo f) as [n|] eqn:Hre.
    - apply (process_file_skip_processed _ _ _ _ _ _ n); [done|].
      apply (Hall f); [by left|done].
    - by apply process_file_skip_unmatched. }
  apply IH. intros f' n Hf'. apply Hall. by right.
Qed.

(** The body only downloads and uploads. *)
Lemma process_file_trace b sp slp P f w w' r :
  process_file b sp slp P f w = (w', r) →
  ∃ evs, trace w' = (trace w ++ evs)%list ∧ forallb is_transfer evs = true.
Proof.
  intros [[_ [->| ->]]|Hcase]%process_file_cases.
  - exists []. by rewrite app_nil_r.
  - by eexists [_].
  - destruct Hcase as (n & content & sdf & pdf & y & sb & pb & written & rest &
                       _ & _ & _ & _ & _ & _ & _ & -> & _).
    eexists. split; [done|]. simpl. clear.
    by induction written as [|[[? ?] ?] ? IH].
Qed.

Lemma for_each_trace b sp slp P files w w' r :
  for_each (process_file b sp slp P) files w = (w', r) →
  ∃ evs, trace w' = (trace w ++ evs)%list ∧ forallb is_transfer evs = true.
Proof.
  revert w. induction files as [|f files IH]; intros w; simpl.
  - intros [= <- <-]. exists []. by rewrite app_nil_r.
  - unfold mbind, M_bind.
    destruct (process_file _ _ _ _ f w) as [w1 r1] eqn:Hf.
    apply process_file_trace in Hf as (evs1 & Htr1 & Hall1).
    destruct r1 as [e|[]].
    + intros [= <- <-]. eauto.
    + intros (evs2 & Htr2 & Hall2)%IH. exists (evs1 ++ evs2)%list.
      rewrite Htr2, Htr1, <- app_assoc. split; [done|].
      rewrite forallb_app. by rewrite Hall1, Hall2.
Qed.

End Idempotence.

(** C4.  (1) A raw key whose draw number is in the set of processed draws is
    skipped before any download: the body returns at once and the world is
    unchanged.  (2) A run lists the processed draws once, before the first
    file, and uses that one set for every file: whatever the run does, its
    calls are that listing, the listing of the raw files, and then only
    downloads and uploads.  (3) When a run of [main] has returned and the
    raw file set is the same, a second run downloads nothing and writes
    nothing: every raw key with a draw number is skipped, the draw being in
    Silver, so no partition is written twice. *)
Theorem second_run_skips_processed_draws
    `{Runtime} `{Parser} `{Config} `{Storage} :
  (∀ bucket_name simple_prefix silver_prefix processed raw_file w n,
     re_search_sorteo raw_file = Some n → n ∈ processed →
     process_file bucket_name simple_prefix silver_prefix processed raw_file w
       = (w, ok tt)) ∧
  (∀ bucket_name raw_prefix simple_prefix silver_prefix w w' r,
     transform bucket_name raw_prefix simple_prefix silver_prefix w = (w', r) →
     transform bucket_name raw_prefix simple_prefix silver_prefix w =
       for_each
         (process_file bucket_name simple_prefix silver_prefix
            (processed_sorteos (objects w) bucket_name
               (silver_prefix +:+ "sorteos/")))
         (list_keys (objects w) bucket_name raw_prefix)
         (log (ListFiles bucket_name raw_prefix)
            (log (ListProcessed bucket_name (silver_prefix +:+ "sorteos/")) w)) ∧
     ∃ evs,
       trace w' = (trace w
                   ++ (ListProcessed bucket_name (silver_prefix +:+ "sorteos/")
                       :: ListFiles bucket_name raw_prefix :: evs))%list ∧
       forallb is_transfer evs = true) ∧
  (∀ raw_prefix processed_prefix w w1,
     main raw_prefix processed_prefix w = (w1, ok tt) →
     list_keys (objects w1) partitioned_bucket raw_prefix
       = list_keys (objects w) partitioned_bucket raw_prefix →
     main raw_prefix processed_prefix w1 =
       (log (ListFiles partitioned_bucket raw_prefix)
          (log (ListProcessed partitioned_bucket
                  (SILVER_PREFIX_DEFAULT +:+ "sorteos/")) w1),
        ok tt)).
Proof.
  split; [|split].
  - intros b sp slp P f w n. apply process_file_skip_processed.
  - intros b rp sp slp w w' r Hrun. split; [apply transform_unfold|].
    rewrite transform_unfold in Hrun.
    apply for_each_trace in Hrun as (evs & Htr & Hall).
    exists evs. split; [|done]. rewrite Htr. simpl.
    by rewrite <- !app_assoc.
  - intros rp pp w w1 Hrun Hsame. unfold main in *.
    rewrite transform_unfold in Hrun. rewrite transform_unfold, Hsame.
    apply loop_invariant in Hrun as [Hgrows Hlisted]. simpl in Hgrows.
    apply loop_all_skipped. intros f n Hf Hre.
    destruct (Hlisted f n Hf Hre) as [Hold|Hnew]; [|done].
    by eapply processed_sorteos_grows.
Qed.

Lemma second_run_skips_processed_draws_witness :
  ∃ w1,
    main "raw/" "processed/" world_one = (w1, ok tt) ∧
    main "raw/" "processed/" w1 =
      (log (ListFiles "lottery-partitioned" "raw/")
         (log (ListProcessed "lottery-partitioned" "silver/sorteos/") w1),
       ok tt).
Proof.
  destruct (main "raw/" "processed/" world_one) as [w1 r] eqn:Hrun.
  assert (r = ok tt) as ->.
  { apply (f_equal snd) in Hrun. simpl in Hrun. rewrite <- Hrun.
    vm_compute. reflexivity. }
  exists w1. split; [reflexivity|].
  apply (proj2 (proj2 second_run_skips_processed_draws) "raw/" "processed/"
           world_one w1 Hrun).
  apply (f_equal fst) in Hrun. simpl in Hrun. rewrite <- Hrun.
  vm_compute. reflexivity.
Defined.

(* ================================================================== *)
(** ** The draw number of the key and the one of the header            *)
(* ================================================================== *)

Section KeyAndHeader.
Context `{Runtime} `{Parser} `{Config} `{Storage}.




End KeyAndHeader.



(* ================================================================== *)
(** ** The placeholders                                                *)
(* ================================================================== *)

Section Placeholders.
Context `{Runtime}.

Lemma SORTEOS_PLAN_columns : SORTEOS_PLAN.*1 = SORTEOS_SCHEMA_COLUMNS.
Proof. reflexivity. Qed.


(** Outside its schema the draw table is written as it was parsed. *)
Lemma sorteos_other_columns df out c :
  enforce_sorteos_schema df = ok out →
  c ∉ "reintegros" :: SORTEOS_SCHEMA_COLUMNS →
  columns out !! c = columns df !! c.
Proof.
  intros Hout Hc.
  destruct (sorteos_columns _ _ Hout) as (df1 & Hre & _ & _ & Hother).
  destruct (split_reintegros_columns _ _ Hre) as (_ & _ & Hsplit & _).
  rewrite Hother, Hsplit; [done|..].
  - intros Hin. apply Hc. apply elem_of_cons in Hin as [->|Hin]; [by left|].
    right.
    repeat (apply elem_of_cons in Hin as [->|Hin]);
      [| | |by apply elem_of_nil in Hin];
      apply (bool_decide_unpack _); by vm_compute.
  - rewrite SORTEOS_PLAN_columns. intros Hin. apply Hc. by right.
Qed.

End Placeholders.


(* ================================================================== *)
(** * Further properties of the code                                   *)
(* ================================================================== *)

(* ================================================================== *)
(** ** More on the casts                                               *)
(* ================================================================== *)

Section MoreCasts.
Context `{Runtime}.

Lemma astype_Int64_length fs vs :
  astype_Int64 fs = Some vs → length vs = length fs.
Proof.
  intros HF%astype_Int64_ok. symmetry. by eapply Forall2_length.
Qed.

Lemma astype_Int64_refuses fs :
  Exists (λ f, is_nan f = false ∧ safe_cast f = None) fs →
  astype_Int64 fs = None.
Proof.
  induction fs as [|f fs IH]; intros Hex; [by apply Exists_nil in Hex|].
  simpl. unfold astype_Int64_cell at 1.
  destruct (is_nan f) eqn:Hnan; simpl.
  - apply Exists_cons in Hex as [[Hf _]|Hex]; [congruence|].
    by rewrite (IH Hex).
  - destruct (safe_cast f) as [z|] eqn:Hz; simpl; [|done].
    apply Exists_cons in Hex as [[_ Hf]|Hex]; [congruence|].
    by rewrite (IH Hex).
Qed.

(** On a [string] column the cast returns. *)
Lemma to_int64_string series default :
  _to_int64 StringDtype series default =
    ok (match default with
        | Some d => fillna (VInt d) (masked_Int64_cell <$> series)
        | None => masked_Int64_cell <$> series
        end).
Proof. unfold _to_int64. simpl. by destruct default. Qed.

End MoreCasts.

(** X1.  [_to_int64] on an [object] column raises exactly when some cell
    parses to a number that pandas refuses to cast, and then with the
    exception that [.astype("Int64")] raises for that column, with or
    without a default; on a [string] column it never raises.  When it
    returns, the column has the same length and its cells are integers, or
    integers and nulls when there is no default. *)
Theorem to_int64_raises_exactly `{Runtime}
    (series : list value) (default : option Z) :
  let refused (v : value) :=
    is_nan (to_numeric v) = false ∧ safe_cast (to_numeric v) = None in
  let typed (out : list value) :=
    length out = length series ∧
    ∀ i x, out !! i = Some x →
      match default with
      | Some _ => ∃ z, x = VInt z
      | None => x = VNull ∨ ∃ z, x = VInt z
      end in
  (Exists refused series →
   _to_int64 ObjectDtype series default = raise (astype_error series)) ∧
  (¬ Exists refused series →
   ∃ out, _to_int64 ObjectDtype series default = ok out ∧ typed out) ∧
  (∃ out, _to_int64 StringDtype series default = ok out ∧ typed out).
Proof.
  intros refused typed. split; [|split].
  - intros Hex. unfold _to_int64, to_numeric_Int64.
    rewrite astype_Int64_refuses; [done|].
    apply Exists_fmap. exact Hex.
  - intros Hnone.
    destruct (to_int64_returns series default) as [out Hout].
    { apply Forall_forall. intros v Hv.
      destruct (is_nan (to_numeric v)) eqn:Hnan; [by left|right].
      destruct (safe_cast (to_numeric v)) as [z|] eqn:Hz; [eauto|].
      destruct Hnone. apply Exists_exists. exists v. by split. }
    exists out. split; [done|]. apply to_int64_ok in Hout. split.
    + symmetry. by eapply Forall2_length.
    + intros i x Hx.
      destruct (Forall2_lookup_r _ _ _ _ _ Hout Hx) as (v & _ & Hvx).
      by apply int64_of_cell_typed in Hvx.
  - eexists. split; [apply to_int64_string|]. split.
    + destruct default; unfold fillna; by rewrite ?length_fmap.
    + intros i x. destruct default as [d|]; unfold fillna;
        rewrite ?list_lookup_fmap;
        destruct (series !! i) as [v|]; simpl; try done; intros [= <-];
        destruct (masked_Int64_cell_typed v) as [->|[z ->]]; simpl; eauto.
Qed.

Lemma to_int64_raises_exactly_witness :
  _to_int64 ObjectDtype [VStr "7"; VStr "12.5"; VStr "x"] (Some 0%Z) =
    raise (TypeError "cannot safely cast non-equivalent object to int64") ∧
  ∃ out, _to_int64 ObjectDtype [VStr "7"; VStr "x"] None = ok out ∧
         length out = 2%nat.
Proof.
  split.
  - pose proof (proj1 (to_int64_raises_exactly
                         [VStr "7"; VStr "12.5"; VStr "x"] (Some 0%Z))) as Hr.
    cbv zeta in Hr. apply Hr.
    apply Exists_cons_tl, Exists_cons_hd. split; vm_compute; reflexivity.
  - destruct (proj1 (proj2 (to_int64_raises_exactly [VStr "7"; VStr "x"] None)))
      as (out & Hout & Hlen & _).
    + intros Hex.
      repeat (apply Exists_cons in Hex as [[Hn Hf]|Hex];
              [vm_compute in Hn; vm_compute in Hf; congruence|]).
      by apply Exists_nil in Hex.
    + by exists out.
Defined.

(** X2.  [_to_float64] with a default that is a number: the column keeps its
    length, a cell that parses keeps its number, and every cell is a float
    that is not NaN, so the column holds no null. *)
Theorem to_float64_total `{Runtime} (series : list value) (default : float) :
  is_nan default = false →
  length (_to_float64 series default) = length series ∧
  (∀ i v, series !! i = Some v → is_nan (to_numeric v) = false →
          _to_float64 series default !! i = Some (VFloat (to_numeric v))) ∧
  (∀ i x, _to_float64 series default !! i = Some x →
          isna x = false ∧ ∃ f, x = VFloat f).
Proof.
  intros Hd. split; [|split].
  - unfold _to_float64. by rewrite !length_fmap.
  - intros i v Hv Hnan. rewrite to_float64_lookup, Hv. simpl. by rewrite Hnan.
  - intros i x. rewrite to_float64_lookup.
    destruct (series !! i) as [v|]; [|done]. simpl. intros [= <-]. simpl.
    destruct (is_nan (to_numeric v)) eqn:Hnan; eauto.
Qed.

Lemma to_float64_total_witness :
  _to_float64 [VStr "500.00"; VStr "abc"; VNull] 0%float !! 1%nat
    = Some (VFloat 0%float) ∧
  length (_to_float64 [VStr "500.00"; VStr "abc"; VNull] 0%float) = 3%nat.
Proof.
  destruct (to_float64_total [VStr "500.00"; VStr "abc"; VNull] 0%float eq_refl)
    as (Hlen & _ & _).
  split; [vm_compute; reflexivity|exact Hlen].
Defined.

(* ================================================================== *)
(** ** The shape of the tables                                         *)
(* ================================================================== *)

Section Shape.
Context `{Runtime}.

Lemma rectangular_setitem c s df :
  rectangular df → length s = nrows df → rectangular (setitem c s df).
Proof.
  intros Hrect Hlen c' s'. rewrite columns_setitem. simpl.
  destruct (decide (c = c')) as [->|Hne].
  - rewrite lookup_insert_eq. by intros [= <-].
  - rewrite lookup_insert_ne by done. apply Hrect.
Qed.

Lemma rectangular_of_records records :
  rectangular (DataFrame_of_records records).
Proof.
  intros c s. rewrite columns_of_records. case_decide; [|done].
  intros [= <-]. unfold column_of. by rewrite length_fmap.
Qed.

(** A plan of casts that keep the length of a column keeps the rows, the
    set of columns and the rectangular shape. *)
Lemma cast_plan_shape plan df out :
  (∀ c f s s', (c, f) ∈ plan → f s = ok s' → length s' = length s) →
  cast_plan plan df = ok out →
  nrows out = nrows df ∧
  (∀ c, is_Some (columns out !! c) ↔ is_Some (columns df !! c)) ∧
  (rectangular df → rectangular out).
Proof.
  revert df. induction plan as [|[c0 f0] plan IH]; intros df Hlen Hplan.
  - apply ok_inj in Hplan as <-. done.
  - simpl in Hplan. apply bind_ok in Hplan as (df' & Hcast & Hplan).
    apply cast_column_ok in Hcast as (s & s' & Hs & Hf & ->).
    destruct (IH (setitem c0 s' df)) as (Hn & Hdom & Hrect); [|done|].
    { intros c f t t' Hin. apply (Hlen c). by right. }
    split; [done|]. split.
    + intros c. rewrite Hdom, columns_setitem.
      destruct (decide (c0 = c)) as [->|Hne].
      * rewrite lookup_insert_eq, Hs. split; eauto.
      * by rewrite lookup_insert_ne.
    + intros Hdf. apply Hrect. apply rectangular_setitem; [done|].
      rewrite (Hlen c0 f0 s s'); [by apply Hdf with c0|by left|done].
Qed.

Lemma to_int64_length dt series default out :
  _to_int64 dt series default = ok out → length out = length series.
Proof.
  destruct dt.
  - intros HF%to_int64_ok. symmetry. by eapply Forall2_length.
  - rewrite to_int64_string. intros <-%ok_inj.
    destruct default; unfold fillna; by rewrite ?length_fmap.
Qed.

Lemma PREMIOS_PLAN_lengths c f s s' :
  (c, f) ∈ PREMIOS_PLAN → f s = ok s' → length s' = length s.
Proof.
  intros Hin Hf.
  repeat (apply elem_of_cons in Hin as [[= -> ->]|Hin]);
    [| | | | | | |by apply elem_of_nil in Hin];
    first [by apply to_int64_length in Hf
          |apply ok_inj in Hf as <-; unfold _to_float64, _to_string;
           by rewrite ?length_fmap].
Qed.

Lemma SORTEOS_PLAN_lengths c f s s' :
  (c, f) ∈ SORTEOS_PLAN → f s = ok s' → length s' = length s.
Proof.
  unfold SORTEOS_PLAN. intros [Hin|[Hin|Hin]%elem_of_app]%elem_of_app Hf.
  - unfold REINTEGROS_PLAN in Hin. simpl in Hin.
    repeat (apply elem_of_cons in Hin as [[= -> ->]|Hin]);
      [| | |by apply elem_of_nil in Hin]; by apply to_int64_length in Hf.
  - apply list_elem_of_fmap in Hin as ([c' d] & [= -> ->] & _).
    by apply to_int64_length in Hf.
  - apply list_elem_of_fmap in Hin as (c' & [= -> ->] & _).
    apply ok_inj in Hf as <-. unfold to_datetime. by rewrite length_fmap.
Qed.

Lemma cast_premios_plan df :
  cast_premios df = cast_plan PREMIOS_PLAN (replace_placeholders df).
Proof.
  unfold cast_premios. simpl.
  repeat match goal with
         | |- context [cast_column ?f ?c ?d] =>
             destruct (cast_column f c d); simpl; [done|]
         end.
  done.
Qed.

Lemma rectangular_replace_placeholders df :
  rectangular df → rectangular (replace_placeholders df).
Proof.
  intros Hrect c s. rewrite columns_replace_placeholders.
  intros (old & Hold & ->)%fmap_Some. rewrite length_fmap. simpl.
  by apply Hrect with c.
Qed.

Lemma select_shape {msg} cs df df' :
  select msg cs df = ok df' →
  nrows df' = nrows df ∧
  (∀ c, c ∈ cs → is_Some (columns df' !! c)) ∧
  (rectangular df → rectangular df').
Proof.
  intros Hsel. pose proof (select_ok _ _ _ Hsel) as Hcols.
  unfold select in Hsel.
  destruct (select_columns cs df) as [m|] eqn:Hm; [|done].
  apply ok_inj in Hsel as <-. simpl in *. split; [done|]. split.
  - clear Hcols. revert m Hm. induction cs as [|c0 cs IH]; intros m Hm c Hc.
    + by apply elem_of_nil in Hc.
    + simpl in Hm. apply bind_Some in Hm as (s & Hs & Hm).
      apply bind_Some in Hm as (m' & Hm' & Hm). injection Hm as <-.
      destruct (decide (c = c0)) as [->|Hne].
      * rewrite lookup_insert_eq. eauto.
      * rewrite lookup_insert_ne by done. apply (IH m'); [done|].
        by apply elem_of_cons in Hc as [?|?].
  - intros Hrect c s. rewrite Hcols. case_decide; [|done]. apply Hrect.
Qed.

Lemma mask_capital_length ciudad : length (mask_capital ciudad) = length ciudad.
Proof. unfold mask_capital, fillna. by rewrite !length_fmap. Qed.

Lemma rectangular_normalize_capital df df1 :
  rectangular df → normalize_capital df = ok df1 →
  rectangular df1 ∧ nrows df1 = nrows df.
Proof.
  intros Hrect (ciudad & Hc & ->)%normalize_capital_ok. split; [|done].
  unfold loc_setitem. apply rectangular_setitem; [done|].
  rewrite length_imap, mask_capital_length. by apply Hrect with "ciudad".
Qed.

Lemma rectangular_split_reintegros df df1 :
  rectangular df → split_reintegros df = ok df1 → rectangular df1.
Proof.
  intros Hrect Hsplit c s Hs.
  destruct (split_reintegros_columns _ _ Hsplit) as (Hgone & _ & Hother & Hn).
  rewrite Hn.
  destruct (decide (c ∈ "reintegros" :: REINTEGRO_COLUMNS)) as [Hin|Hout].
  - apply elem_of_cons in Hin as [->|Hin]; [congruence|].
    apply list_elem_of_lookup_1 in Hin as (j & Hj).
    destruct (columns df !! "reintegros") as [r|] eqn:Hr.
    + rewrite (split_reintegros_slots df df1 r j c) in Hs;
        [|done|by apply Hrect with "reintegros"|done..].
      injection Hs as <-. rewrite length_fmap. by apply Hrect with "reintegros".
    + rewrite (split_reintegros_absent df df1 c) in Hs;
        [|done|done|by eapply list_elem_of_lookup_2].
      injection Hs as <-. by rewrite length_replicate.
  - rewrite Hother in Hs by done. by apply Hrect with c.
Qed.

Lemma premios_schema_dom df out :
  enforce_premios_schema df = ok out →
  nrows out = nrows df ∧
  ∀ c, is_Some (columns out !! c) ↔ c ∈ PREMIOS_COLUMNS.
Proof.
  unfold enforce_premios_schema. intros Hb.
  apply bind_ok in Hb as (df1 & Hcap & Hb).
  apply bind_ok in Hb as (df2 & Hsel & Hb).
  rewrite cast_premios_plan in Hb.
  destruct (cast_plan_shape _ _ _ PREMIOS_PLAN_lengths Hb) as (Hn & Hdom & _).
  destruct (select_shape _ _ _ Hsel) as (Hn2 & Hall & _).
  apply normalize_capital_ok in Hcap as (ciudad & _ & ->).
  split; [rewrite Hn; simpl; by rewrite Hn2|].
  intros c. rewrite Hdom, columns_replace_placeholders, fmap_is_Some. split.
  - rewrite (select_ok _ _ _ Hsel). case_decide; [done|]. by intros [? ?].
  - apply Hall.
Qed.

Lemma premios_schema_rectangular df out :
  rectangular df → enforce_premios_schema df = ok out → rectangular out.
Proof.
  intros Hrect. unfold enforce_premios_schema. intros Hb.
  apply bind_ok in Hb as (df1 & Hcap & Hb).
  apply bind_ok in Hb as (df2 & Hsel & Hb).
  rewrite cast_premios_plan in Hb.
  destruct (cast_plan_shape _ _ _ PREMIOS_PLAN_lengths Hb) as (_ & _ & Hkeep).
  apply Hkeep, rectangular_replace_placeholders.
  destruct (select_shape _ _ _ Hsel) as (_ & _ & Hsel'). apply Hsel'.
  by destruct (rectangular_normalize_capital _ _ Hrect Hcap).
Qed.

Lemma sorteos_schema_dom df out :
  enforce_sorteos_schema df = ok out →
  nrows out = nrows df ∧
  ∀ c, is_Some (columns out !! c) ↔
       c ∈ REINTEGRO_COLUMNS ∨
       (c ≠ "reintegros" ∧ is_Some (columns df !! c)).
Proof.
  rewrite enforce_sorteos_schema_plan. intros Hb.
  apply bind_ok in Hb as (df1 & Hsplit & Hb).
  destruct (cast_plan_shape _ _ _ SORTEOS_PLAN_lengths Hb) as (Hn & Hdom & _).
  destruct (split_reintegros_columns _ _ Hsplit)
    as (Hgone & Hthree & Hother & Hn1).
  split; [by rewrite Hn, Hn1|]. intros c. rewrite Hdom.
  destruct (decide (c ∈ REINTEGRO_COLUMNS)) as [Hin|Hout].
  { split; [by left|]. intros _. by apply Hthree. }
  destruct (decide (c = "reintegros")) as [->|Hne].
  { rewrite Hgone. split; [by intros [? ?]|]. by intros [?|[? _]]. }
  rewrite Hother by (by intros [?|?]%elem_of_cons).
  split; [by right|]. by intros [?|[_ ?]].
Qed.

Lemma sorteos_schema_rectangular df out :
  rectangular df → enforce_sorteos_schema df = ok out → rectangular out.
Proof.
  intros Hrect. rewrite enforce_sorteos_schema_plan. intros Hb.
  apply bind_ok in Hb as (df1 & Hsplit & Hb).
  destruct (cast_plan_shape _ _ _ SORTEOS_PLAN_lengths Hb) as (_ & _ & Hkeep).
  apply Hkeep. by eapply rectangular_split_reintegros.
Qed.

End Shape.

(** X3.  The prize table that comes out of the schema stage has exactly the
    seven Silver columns (every other column of the split, [vendido_por]
    included, is gone) and as many rows as the table that went in. *)
Theorem premios_schema_columns `{Runtime} (df out : DataFrame) :
  enforce_premios_schema df = ok out →
  nrows out = nrows df ∧
  ∀ c, is_Some (columns out !! c) ↔ c ∈ PREMIOS_COLUMNS.
Proof. apply premios_schema_dom. Qed.

Lemma premios_schema_columns_witness :
  ∃ out, enforce_premios_schema premios_split = ok out ∧
         nrows out = 2%nat ∧
         columns out !! "vendido_por" = None.
Proof.
  destruct (enforce_premios_schema premios_split) as [e|out] eqn:Hout;
    [by vm_compute in Hout|].
  exists out. split; [reflexivity|].
  destruct (premios_schema_columns _ _ Hout) as [Hn Hcols]. split; [exact Hn|].
  apply eq_None_not_Some. intros Hc%Hcols. revert Hc.
  apply (bool_decide_unpack _). by vm_compute.
Defined.

(** X4.  The tables stay rectangular: a frame built from records has one
    cell per row in every column, and the two schema stages keep that, the
    override of the department and the three refund columns included. *)
Theorem schema_stages_keep_rectangular `{Runtime} :
  (∀ records, rectangular (DataFrame_of_records records)) ∧
  (∀ df out, rectangular df → enforce_premios_schema df = ok out →
             rectangular out) ∧
  (∀ df out, rectangular df → enforce_sorteos_schema df = ok out →
             rectangular out).
Proof.
  split; [apply rectangular_of_records|split].
  - apply premios_schema_rectangular.
  - apply sorteos_schema_rectangular.
Qed.

Lemma schema_stages_keep_rectangular_witness :
  ∃ out, enforce_sorteos_schema (DataFrame_of_records [header_odd]) = ok out ∧
         rectangular out.
Proof.
  destruct (enforce_sorteos_schema (DataFrame_of_records [header_odd]))
    as [e|out] eqn:Hout; [by vm_compute in Hout|].
  exists out. split; [reflexivity|].
  destruct schema_stages_keep_rectangular as (Hrec & _ & Hs).
  exact (Hs _ _ (Hrec [header_odd]) Hout).
Defined.

(** X5.  The draw table that comes out of the schema stage has the columns
    that went in, minus [reintegros], plus the three refund columns: a
    fourth refund number and any further one are dropped; the rows are
    kept. *)
Theorem sorteos_schema_columns `{Runtime} (df out : DataFrame) :
  enforce_sorteos_schema df = ok out →
  nrows out = nrows df ∧
  ∀ c, is_Some (columns out !! c) ↔
       c ∈ REINTEGRO_COLUMNS ∨
       (c ≠ "reintegros" ∧ is_Some (columns df !! c)).
Proof. apply sorteos_schema_dom. Qed.

Lemma sorteos_schema_columns_witness :
  ∃ out, enforce_sorteos_schema (DataFrame_of_records [header_odd]) = ok out ∧
         nrows out = 1%nat ∧ columns out !! "reintegros" = None.
Proof.
  destruct (enforce_sorteos_schema (DataFrame_of_records [header_odd]))
    as [e|out] eqn:Hout; [by vm_compute in Hout|].
  exists out. split; [reflexivity|].
  destruct (sorteos_schema_columns _ _ Hout) as [Hn Hcols]. split; [exact Hn|].
  apply eq_None_not_Some. intros Hc. apply Hcols in Hc as [Hc|[Hne _]].
  - revert Hc. apply (bool_decide_unpack _). vm_compute. reflexivity.
  - apply Hne. reflexivity.
Defined.

(* ================================================================== *)
(** ** How the schema stages fail                                      *)
(* ================================================================== *)

Section Errors.
Context `{Runtime}.

(** [_to_int64] raises on an [object] column only, and what
    [.astype("Int64")] raises for that column. *)
Lemma to_int64_error dt series default e :
  _to_int64 dt series default = raise e →
  dt = ObjectDtype ∧ e = astype_error series.
Proof.
  destruct dt; [|by rewrite to_int64_string].
  unfold _to_int64, to_numeric_Int64, raise.
  destruct (astype_Int64 (to_numeric <$> series)) as [s|]; simpl.
  - by destruct default.
  - by intros [= <-].
Qed.

(** A plan over distinct columns fails on the first column that is missing
    or whose cast raises on what the column held at the start. *)
Lemma cast_plan_error plan df e :
  NoDup plan.*1 →
  cast_plan plan df = raise e →
  ∃ c f, (c, f) ∈ plan ∧
    ((e = KeyError c ∧ columns df !! c = None) ∨
     ∃ s, columns df !! c = Some s ∧ f s = raise e).
Proof.
  revert df. induction plan as [|[c0 f0] plan IH]; intros df Hnd; [done|].
  simpl in Hnd. apply NoDup_cons in Hnd as [Hc0 Hnd].
  simpl. destruct (cast_column f0 c0 df) as [e'|df'] eqn:Hc; simpl.
  - intros [= <-]. exists c0, f0. split; [by left|].
    unfold cast_column, getitem in Hc.
    destruct (columns df !! c0) as [s|] eqn:Hs; simpl in Hc.
    + right. exists s. split; [done|].
      destruct (f0 s) as [e''|s'] eqn:Hf; simpl in Hc; [|done].
      unfold raise. congruence.
    + left. split; [|done]. unfold raise in Hc. congruence.
  - intros (c & f & Hin & Hcase)%IH; [|done]. exists c, f. split; [by right|].
    apply cast_column_ok in Hc as (s & s' & _ & _ & ->).
    assert (c ≠ c0) as Hne.
    { intros ->. apply Hc0. apply list_elem_of_fmap. by exists (c0, f). }
    rewrite columns_setitem, lookup_insert_ne in Hcase by done. done.
Qed.

Lemma select_columns_None cs df :
  select_columns cs df = None → ∃ c, c ∈ cs ∧ columns df !! c = None.
Proof.
  induction cs as [|c0 cs IH]; [done|]. simpl.
  destruct (columns df !! c0) as [s|] eqn:Hs; simpl.
  - destruct (select_columns cs df) as [m|]; simpl; [done|].
    intros _. destruct IH as (c & Hc & Hnone); [done|].
    exists c. split; [by right|done].
  - intros _. exists c0. split; [by left|done].
Qed.

Lemma elem_of_missing_columns cs df c :
  c ∈ missing_columns cs df ↔ c ∈ cs ∧ columns df !! c = None.
Proof.
  unfold missing_columns. rewrite !list_elem_of_In, filter_In.
  by rewrite bool_decide_eq_true.
Qed.

(** A selection fails with the message for its missing columns, of which
    there is one at least. *)
Lemma select_error {msg} cs df e :
  select msg cs df = raise e →
  missing_columns cs df ≠ [] ∧
  e = KeyError (msg cs (missing_columns cs df)).
Proof.
  unfold select, raise.
  destruct (select_columns cs df) as [m|] eqn:Hm; [done|].
  intros [= <-]. split; [|done].
  apply select_columns_None in Hm as (c & Hc & Hnone). intros Hnil.
  assert (c ∈ missing_columns cs df) as Hin
    by (by apply elem_of_missing_columns).
  rewrite Hnil in Hin. by apply elem_of_nil in Hin.
Qed.

Lemma PREMIOS_PLAN_columns : PREMIOS_PLAN.*1 ≡ₚ PREMIOS_COLUMNS.
Proof.
  apply (bool_decide_unpack _). by vm_compute.
Qed.

Lemma PREMIOS_PLAN_NoDup : NoDup PREMIOS_PLAN.*1.
Proof. apply (bool_decide_unpack _). vm_compute. reflexivity. Qed.

Lemma PREMIOS_PLAN_error c f s e :
  (c, f) ∈ PREMIOS_PLAN → f s = raise e →
  c ∈ ["numero_sorteo"; "numero_premiado"] ∧ e = astype_error s.
Proof.
  intros Hin Hf.
  repeat (apply elem_of_cons in Hin as [[= -> ->]|Hin]);
    [| | | | | | |by apply elem_of_nil in Hin]; try done;
    apply to_int64_error in Hf as [_ ->]; (split; [|done]);
    repeat constructor.
Qed.

Lemma SORTEOS_PLAN_error c f s e :
  (c, f) ∈ SORTEOS_PLAN → f s = raise e →
  c ∈ SORTEOS_INT_COLUMNS.*1 ∧ e = astype_error s.
Proof.
  unfold SORTEOS_PLAN. intros [Hin|[Hin|Hin]%elem_of_app]%elem_of_app Hf.
  - unfold REINTEGROS_PLAN in Hin. simpl in Hin.
    repeat (apply elem_of_cons in Hin as [[= -> ->]|Hin]);
      [| | |by apply elem_of_nil in Hin];
      by apply to_int64_error in Hf as [[=] _].
  - apply list_elem_of_fmap in Hin as ([c' d] & [= -> ->] & Hcd).
    apply to_int64_error in Hf as [_ ->]. split; [|done].
    apply list_elem_of_fmap. by exists (c', d).
  - by apply list_elem_of_fmap in Hin as (c' & [= -> ->] & _).
Qed.

End Errors.

(** X6.  How the two schema stages fail.  The prize stage raises the
    [KeyError] of [ciudad] when the table has no such column, the
    [KeyError] of the selection when some of the seven columns are missing
    (one error, whose message pandas makes of all the missing ones), or
    what the integer cast raises for the draw numbers or the ticket numbers
    once the placeholders are replaced.  The draw stage raises the
    [KeyError] of one of the six fields that it reads from the header and
    that the table lacks, or what the integer cast raises for one of the
    four integer fields; the split of [reintegros] and the cast of the
    three refund columns raise nothing.  So a draw table that passes the
    stage had those six fields. *)
Theorem schema_stage_errors `{Runtime} :
  let required := ["numero_sorteo"; "primer_premio"; "segundo_premio";
                   "tercer_premio"; "fecha_sorteo"; "fecha_caducidad"] in
  (∀ df e, enforce_premios_schema df = raise e →
     (e = KeyError "ciudad" ∧ columns df !! "ciudad" = None) ∨
     (∃ missing,
        missing ≠ [] ∧
        (∀ c, c ∈ missing → c ∈ PREMIOS_COLUMNS ∧ columns df !! c = None) ∧
        e = KeyError (not_in_index PREMIOS_COLUMNS missing)) ∨
     (∃ c series,
        c ∈ ["numero_sorteo"; "numero_premiado"] ∧
        columns df !! c = Some series ∧
        e = astype_error (replace_cell <$> series))) ∧
  (∀ df e, enforce_sorteos_schema df = raise e →
     (∃ c, c ∈ required ∧ e = KeyError c ∧ columns df !! c = None) ∨
     (∃ c series,
        c ∈ ["numero_sorteo"; "primer_premio"; "segundo_premio";
             "tercer_premio"] ∧
        columns df !! c = Some series ∧ e = astype_error series)) ∧
  (∀ df out, enforce_sorteos_schema df = ok out →
     ∀ c, c ∈ required → is_Some (columns df !! c)).
Proof.
  intros required. split; [|split].
  - intros df e. unfold enforce_premios_schema.
    destruct (normalize_capital df) as [e1|df1] eqn:Hcap; simpl.
    { intros [= <-]. left.
      unfold normalize_capital, getitem in Hcap.
      destruct (columns df !! "ciudad") eqn:Hc; simpl in Hcap; [done|].
      split; [unfold raise in Hcap; congruence|done]. }
    apply normalize_capital_ok in Hcap as (ciudad & Hciudad & ->).
    destruct (select not_in_index PREMIOS_COLUMNS _) as [e2|df2] eqn:Hsel;
      simpl.
    { intros [= <-]. right. left.
      apply select_error in Hsel as [Hne ->].
      eexists. split; [exact Hne|]. split; [|done].
      intros c [Hc Hnone]%elem_of_missing_columns. split; [done|].
      destruct (decide (c = "departamento")) as [->|Hdep].
      - unfold loc_setitem in Hnone. rewrite columns_setitem in Hnone.
        by rewrite lookup_insert_eq in Hnone.
      - by rewrite columns_loc_setitem_ne in Hnone. }
    rewrite cast_premios_plan. intros Hplan.
    apply cast_plan_error in Hplan
      as (c & f & Hin & [[-> Hnone]|(s & Hs & Hf)]);
      [| |apply PREMIOS_PLAN_NoDup].
    + exfalso. rewrite columns_replace_placeholders in Hnone.
      apply fmap_None in Hnone. rewrite (select_ok _ _ _ Hsel) in Hnone.
      destruct (select_shape _ _ _ Hsel) as (_ & Hall & _).
      destruct (Hall c) as [s Hs].
      * rewrite <- PREMIOS_PLAN_columns. apply list_elem_of_fmap.
        by exists (c, f).
      * rewrite (select_ok _ _ _ Hsel) in Hs. congruence.
    + right. right. destruct (PREMIOS_PLAN_error _ _ _ _ Hin Hf) as [Hc ->].
      rewrite columns_replace_placeholders in Hs.
      apply fmap_Some in Hs as (series & Hseries & ->).
      rewrite (select_ok _ _ _ Hsel) in Hseries.
      case_decide; [|done].
      rewrite columns_loc_setitem_ne in Hseries.
      * exists c, series. by split.
      * intros <-. revert Hc. apply (bool_decide_unpack _). by vm_compute.
  - intros df e. rewrite enforce_sorteos_schema_plan.
    destruct (split_reintegros_returns df) as [df1 Hsplit]. rewrite Hsplit.
    intros Hb. assert (cast_plan SORTEOS_PLAN df1 = raise e) as Hplan by exact Hb.
    clear Hb.
    destruct (split_reintegros_columns _ _ Hsplit) as (_ & Hthree & Hother & _).
    apply cast_plan_error in Hplan
      as (c & f & Hin & [[-> Hnone]|(s & Hs & Hf)]);
      [| |apply SORTEOS_PLAN_NoDup].
    + left. exists c.
      assert (c ∈ SORTEOS_PLAN.*1) as Hc.
      { apply list_elem_of_fmap. by exists (c, f). }
      clear Hin. revert Hc. change (SORTEOS_PLAN.*1) with
        (REINTEGRO_COLUMNS ++ required)%list.
      intros [Hc|Hc]%elem_of_app.
      * destruct (Hthree c Hc) as [s Hs]. congruence.
      * split; [done|]. split; [done|]. rewrite <- Hother; [done|].
        intros Hbad. revert Hc Hbad. clear.
        intros Hc Hbad.
        repeat (apply elem_of_cons in Hc as [->|Hc]);
          try (by apply elem_of_nil in Hc);
          revert Hbad; apply (bool_decide_unpack _); by vm_compute.
    + right. destruct (SORTEOS_PLAN_error _ _ _ _ Hin Hf) as [Hc ->].
      exists c, s. split; [exact Hc|]. split; [|done].
      rewrite <- Hother; [done|]. intros Hbad. revert Hc Hbad. clear.
      change (SORTEOS_INT_COLUMNS.*1)
        with ["numero_sorteo"; "primer_premio"; "segundo_premio";
              "tercer_premio"].
      intros Hc Hbad.
      repeat (apply elem_of_cons in Hc as [->|Hc]);
        try (by apply elem_of_nil in Hc);
        revert Hbad; apply (bool_decide_unpack _); by vm_compute.
  - intros df out Hout c Hc.
    destruct (sorteos_columns _ _ Hout) as (df1 & Hsplit & Hint & Hdate & _).
    destruct (split_reintegros_columns _ _ Hsplit) as (_ & _ & Hother & _).
    rewrite <- Hother.
    + repeat (apply elem_of_cons in Hc as [->|Hc]);
        try (by apply elem_of_nil in Hc).
      * destruct (Hint "numero_sorteo" (Some 0%Z)) as (? & ? & -> & _);
          [repeat constructor|eauto].
      * destruct (Hint "primer_premio" None) as (? & ? & -> & _);
          [repeat constructor|eauto].
      * destruct (Hint "segundo_premio" None) as (? & ? & -> & _);
          [repeat constructor|eauto].
      * destruct (Hint "tercer_premio" None) as (? & ? & -> & _);
          [repeat constructor|eauto].
      * destruct (Hdate "fecha_sorteo") as (? & -> & _);
          [repeat constructor|eauto].
      * destruct (Hdate "fecha_caducidad") as (? & -> & _);
          [repeat constructor|eauto].
    + intros Hbad.
      repeat (apply elem_of_cons in Hc as [->|Hc]);
        try (by apply elem_of_nil in Hc);
        revert Hbad; apply (bool_decide_unpack _); by vm_compute.
Qed.

Lemma schema_stage_errors_witness :
  (∃ e, enforce_sorteos_schema
          (DataFrame_of_records [delete "fecha_sorteo" header_odd]) = raise e ∧
        ((∃ c, c ∈ ["numero_sorteo"; "primer_premio"; "segundo_premio";
                    "tercer_premio"; "fecha_sorteo"; "fecha_caducidad"] ∧
               e = KeyError c ∧
               columns (DataFrame_of_records
                          [delete "fecha_sorteo" header_odd]) !! c = None) ∨
         (∃ c series,
            c ∈ ["numero_sorteo"; "primer_premio"; "segundo_premio";
                 "tercer_premio"] ∧
            columns (DataFrame_of_records
                       [delete "fecha_sorteo" header_odd]) !! c = Some series ∧
            e = astype_error series))) ∧
  is_Some (columns (DataFrame_of_records [header_odd]) !! "fecha_caducidad").
Proof.
  destruct schema_stage_errors as (_ & Hfail & Hneeds). split.
  - destruct (enforce_sorteos_schema
                (DataFrame_of_records [delete "fecha_sorteo" header_odd]))
      as [e|out] eqn:Hout; [|by vm_compute in Hout].
    exists e. split; [reflexivity|]. exact (Hfail _ _ Hout).
  - destruct (enforce_sorteos_schema (DataFrame_of_records [header_odd]))
      as [e|out] eqn:Hout; [by vm_compute in Hout|].
    apply (Hneeds _ _ Hout). repeat constructor.
Defined.

(* ================================================================== *)
(** ** Files that cannot be normalized                                 *)
(* ================================================================== *)

Section FileErrors.
Context `{Runtime} `{Parser} `{Config} `{Storage}.

Lemma parse_and_normalize_parsed n content hl bl header premios :
  split_header_body (splitlines content) = ok (hl, bl) →
  process_header hl = ok header →
  process_body bl = ok premios →
  parse_and_normalize n content =
    (premios' ← attach_numero_sorteo header premios;
     normalize_records n [header] premios').
Proof.
  intros Hsplit Hheader Hbody. unfold parse_and_normalize.
  rewrite Hsplit. simpl. rewrite Hheader. simpl. by rewrite Hbody.
Qed.

Lemma process_file_raises b sp slp P f w n content e :
  re_search_sorteo f = Some n → n ∉ P →
  objects w !! (b, f) = Some content →
  parse_and_normalize n content = raise e →
  process_file b sp slp P f w = (log (Download b f) w, raise e).
Proof.
  intros Hre Hnew Hobj Hnorm.
  rewrite (process_file_downloaded b sp slp P f w n content) by done.
  by rewrite Hnorm.
Qed.

Lemma premios_schema_needs_numero_sorteo df :
  columns df !! "numero_sorteo" = None →
  ∃ e, enforce_premios_schema df = raise e.
Proof.
  intros Hnone. destruct (enforce_premios_schema df) as [e|out] eqn:Hout;
    [by exists e|].
  exfalso. unfold enforce_premios_schema in Hout.
  apply bind_ok in Hout as (df1 & Hnc & Hout).
  apply bind_ok in Hout as (df2 & Hsel & _).
  apply normalize_capital_ok in Hnc as (ciudad & _ & ->).
  destruct (select_shape _ _ _ Hsel) as (_ & Hall & _).
  destruct (Hall "numero_sorteo") as [s Hs]; [repeat constructor|].
  rewrite (select_ok _ _ _ Hsel) in Hs. case_decide; [|done].
  rewrite columns_loc_setitem_ne in Hs by done. congruence.
Qed.

End FileErrors.

(** X7.  The year of a draw: when the draw table of a file has passed the
    schema stage, the header had a draw date, and the year derived is the
    year of that date when it parses; otherwise the derivation raises the
    [ValueError] of line 208.  The conversion of line 210 never fails on the
    table of a file, which has one row. *)
Theorem year_of_the_draw_date `{Runtime} (numero_sorteo : N)
    (header : gmap string value) (sorteos_df : DataFrame) :
  enforce_sorteos_schema (DataFrame_of_records [header]) = ok sorteos_df →
  ∃ v, header !! "fecha_sorteo" = Some v ∧
       derive_year numero_sorteo sorteos_df =
         match to_datetime_cell v with
         | VDate t => ok (year t)
         | _ => raise (ValueError ("Invalid fecha_sorteo for sorteo="
                                   +:+ str_of_N numero_sorteo
                                   +:+ ". Cannot derive year partition."))
         end ∧
       derive_year numero_sorteo sorteos_df
         ≠ raise (ValueError "cannot convert float NaN to integer").
Proof.
  intros (v & Hv & Hcol)%sorteos_fecha_column. exists v. split; [done|].
  assert (derive_year numero_sorteo sorteos_df =
            match to_datetime_cell v with
            | VDate t => ok (year t)
            | _ => raise (ValueError ("Invalid fecha_sorteo for sorteo="
                                      +:+ str_of_N numero_sorteo
                                      +:+ ". Cannot derive year partition."))
            end) as Hyear.
  { unfold derive_year. apply getitem_ok in Hcol. rewrite Hcol. simpl.
    by destruct (to_datetime_cell_typed v) as [->|[t ->]]. }
  split; [done|]. rewrite Hyear.
  destruct (to_datetime_cell_typed v) as [->|[t ->]]; [|done].
  unfold raise. intros [= Hmsg].
Qed.

Lemma year_of_the_draw_date_witness :
  ∃ sorteos_df,
    enforce_sorteos_schema (DataFrame_of_records [header_odd]) = ok sorteos_df ∧
    derive_year 1234 sorteos_df = ok 2024%N.
Proof.
  destruct (enforce_sorteos_schema (DataFrame_of_records [header_odd]))
    as [e|sorteos_df] eqn:Hout; [by vm_compute in Hout|].
  exists sorteos_df. split; [reflexivity|].
  destruct (year_of_the_draw_date 1234 header_odd sorteos_df Hout)
    as (v & Hv & Hyear & _).
  vm_compute in Hv. injection Hv as <-. exact Hyear.
Defined.

(** X8.  A file with a header and no prize line cannot be written: the
    prize table has no column, so the prize stage raises (a parser whose
    split of the vendor field adds no draw-number column is assumed).  The
    run ends there, after the download and before any upload. *)
Theorem file_without_prizes_fails `{Runtime} `{Parser} `{Config} `{Storage}
    (bucket_name simple_prefix silver_prefix : string) (processed : gset N)
    (raw_file : string) (w : world) (n : N) (file_content : string)
    (header_lines body_lines : list string) (header : gmap string value) :
  (∀ df df', split_vendido_por_column df = ok df' →
             columns df' !! "numero_sorteo" = columns df !! "numero_sorteo") →
  re_search_sorteo raw_file = Some n → n ∉ processed →
  objects w !! (bucket_name, raw_file) = Some file_content →
  split_header_body (splitlines file_content) = ok (header_lines, body_lines) →
  process_header header_lines = ok header →
  process_body body_lines = ok [] →
  ∃ e, process_file bucket_name simple_prefix silver_prefix processed
         raw_file w
       = (log (Download bucket_name raw_file) w, raise e).
Proof.
  intros Hkeeps Hre Hnew Hobj Hsplit Hheader Hbody.
  assert (∃ e, parse_and_normalize n file_content = raise e) as [e He].
  { rewrite (parse_and_normalize_parsed n _ _ _ _ _ Hsplit Hheader Hbody).
    simpl. unfold normalize_records.
    destruct (split_vendido_por_column (DataFrame_of_records []))
      as [e|df'] eqn:Hdf; simpl; [by exists e|].
    destruct (premios_schema_needs_numero_sorteo df') as [e He].
    - rewrite (Hkeeps _ _ Hdf), columns_of_records. case_decide; [|done].
      exfalso. unfold column_names in *. simpl in *. set_solver.
    - exists e. by rewrite He. }
  exists e. by eapply process_file_raises.
Qed.

Lemma file_without_prizes_fails_witness :
  ∃ e, process_file "lottery-partitioned" "processed/" "silver/" ∅
         "raw/year=2024/sorteo=1234/1234.txt"
         (world_of [("lottery-partitioned",
                     "raw/year=2024/sorteo=1234/1234.txt", file_no_prize)])
       = (log (Download "lottery-partitioned"
                 "raw/year=2024/sorteo=1234/1234.txt")
            (world_of [("lottery-partitioned",
                        "raw/year=2024/sorteo=1234/1234.txt", file_no_prize)]),
          raise e).
Proof.
  pose (lines := splitlines file_no_prize).
  pose (header := match process_header (take 8 lines) with
                  | inr h => h
                  | inl _ => ∅
                  end).
  apply (file_without_prizes_fails _ _ _ _ _ _ 1234 file_no_prize
           (take 8 lines) (drop 8 lines) header).
  - exact fixture_split_keeps_numero_sorteo.
  - reflexivity.
  - apply not_elem_of_empty.
  - reflexivity.
  - vm_compute. reflexivity.
  - vm_compute. reflexivity.
  - vm_compute. reflexivity.
Defined.

(** X9.  Lines 123-124 read the draw number of the header once per prize:
    with a header that has no [numero_sorteo] and at least one prize line,
    the file raises [KeyError] there, before any table is built, and the run
    ends after the download. *)
Theorem missing_draw_number_raises `{Runtime} `{Parser} `{Config} `{Storage}
    (bucket_name simple_prefix silver_prefix : string) (processed : gset N)
    (raw_file : string) (w : world) (n : N) (file_content : string)
    (header_lines body_lines : list string) (header : gmap string value)
    (premio : gmap string value) (premios : list (gmap string value)) :
  re_search_sorteo raw_file = Some n → n ∉ processed →
  objects w !! (bucket_name, raw_file) = Some file_content →
  split_header_body (splitlines file_content) = ok (header_lines, body_lines) →
  process_header header_lines = ok header →
  process_body body_lines = ok (premio :: premios) →
  header !! "numero_sorteo" = None →
  process_file bucket_name simple_prefix silver_prefix processed raw_file w
    = (log (Download bucket_name raw_file) w, raise (KeyError "numero_sorteo")).
Proof.
  intros Hre Hnew Hobj Hsplit Hheader Hbody Hnone.
  eapply process_file_raises; [done..|].
  rewrite (parse_and_normalize_parsed n _ _ _ _ _ Hsplit Hheader Hbody).
  simpl. by rewrite Hnone.
Qed.

Lemma missing_draw_number_raises_witness :
  process_file "lottery-partitioned" "processed/" "silver/" ∅
    "raw/year=2024/sorteo=1234/1234.txt"
    (world_of [("lottery-partitioned",
                "raw/year=2024/sorteo=1234/1234.txt", file_no_number)])
  = (log (Download "lottery-partitioned"
            "raw/year=2024/sorteo=1234/1234.txt")
       (world_of [("lottery-partitioned",
                   "raw/year=2024/sorteo=1234/1234.txt", file_no_number)]),
     raise (KeyError "numero_sorteo")).
Proof.
  pose (lines := splitlines file_no_number).
  pose (header := match process_header (take 7 lines) with
                  | inr h => h
                  | inl _ => ∅
                  end).
  pose (premios := match process_body (drop 7 lines) with
                   | inr ps => ps
                   | inl _ => []
                   end).
  apply (missing_draw_number_raises _ _ _ _ _ _ 1234 file_no_number
           (take 7 lines) (drop 7 lines) header
           (default ∅ (head premios)) (tail premios)).
  - reflexivity.
  - apply not_elem_of_empty.
  - reflexivity.
  - vm_compute. reflexivity.
  - vm_compute. reflexivity.
  - vm_compute. reflexivity.
  - vm_compute. reflexivity.
Defined.

(* ================================================================== *)
(** ** The calls of a run                                              *)
(* ================================================================== *)

Section RunFacts.
Context `{Runtime} `{Parser} `{Config} `{Storage}.

Lemma replay_app objs evs evs' :
  replay objs (evs ++ evs') = replay (replay objs evs) evs'.
Proof. apply foldl_app. Qed.

Lemma replay_uploads objs os :
  replay objs (upload_event <$> os) = foldl put_object objs os.
Proof.
  revert objs. induction os as [|o os IH]; intros objs; [done|].
  simpl. unfold replay in *. simpl. by rewrite <- IH.
Qed.

Lemma grows_replay objs evs : grows objs (replay objs evs).
Proof.
  revert objs. induction evs as [|ev evs IH]; intros objs; [apply grows_refl|].
  unfold replay. simpl. eapply grows_trans; [|apply IH].
  destruct ev as [| |b k|b k body]; simpl; try apply grows_refl.
  intros key Hkey. destruct (decide ((b, k) = key)) as [<-|Hne].
  - rewrite lookup_insert_eq. eauto.
  - by rewrite lookup_insert_ne.
Qed.

Lemma process_file_events b sp slp P f w w' r :
  process_file b sp slp P f w = (w', r) →
  ∃ evs, trace w' = (trace w ++ evs)%list ∧
         objects w' = replay (objects w) evs ∧
         Forall (call_of_file b sp slp P f) evs.
Proof.
  intros [[Hobj [Htr|Htr]]|Hcase]%process_file_cases.
  - exists []. by rewrite app_nil_r.
  - exists [Download b f]. repeat split; [done..|]. by repeat constructor.
  - destruct Hcase as (n & content & sdf & pdf & y & sb & pb & written & rest &
                       Hre & Hnew & _ & _ & _ & _ & Hout & Htr & Hobj & _).
    exists (Download b f :: (upload_event <$> written)).
    split; [done|]. split.
    + rewrite Hobj. unfold replay. simpl. by rewrite <- replay_uploads.
    + constructor; [done|]. apply Forall_fmap, Forall_forall.
      intros [[ob ok'] obody] Ho. simpl.
      exists n, y, sb, pb. split; [done|]. split; [done|].
      rewrite Hout. apply elem_of_app. by left.
Qed.

Lemma for_each_events b sp slp P files w w' r :
  for_each (process_file b sp slp P) files w = (w', r) →
  ∃ evs, trace w' = (trace w ++ evs)%list ∧
         objects w' = replay (objects w) evs ∧
         Forall (λ ev, ∃ f, f ∈ files ∧ call_of_file b sp slp P f ev) evs.
Proof.
  revert w. induction files as [|f files IH]; intros w; simpl.
  - intros [= <- <-]. exists []. by rewrite app_nil_r.
  - unfold mbind, M_bind.
    destruct (process_file _ _ _ _ f w) as [w1 r1] eqn:Hf.
    apply process_file_events in Hf as (evs1 & Htr1 & Hobj1 & Hall1).
    assert (Forall (λ ev, ∃ f', f' ∈ f :: files ∧
                          call_of_file b sp slp P f' ev) evs1) as Hall1'.
    { eapply Forall_impl; [exact Hall1|]. intros ev Hev. exists f.
      split; [by left|done]. }
    destruct r1 as [e|[]].
    + intros [= <- <-]. eauto.
    + intros (evs2 & Htr2 & Hobj2 & Hall2)%IH. exists (evs1 ++ evs2)%list.
      rewrite Htr2, Htr1, <- app_assoc. split; [done|]. split.
      * by rewrite replay_app, <- Hobj1.
      * apply Forall_app. split; [done|].
        eapply Forall_impl; [exact Hall2|]. intros ev (f' & Hf' & Hev).
        exists f'. split; [by right|done].
Qed.



Lemma startswith_app p s : startswith p (p +:+ s) = true.
Proof.
  unfold startswith. induction p as [|c p IH]; simpl; [done|].
  rewrite Ascii.eqb_refl. exact IH.
Qed.

End RunFacts.

(** X10.  The calls of a run, whatever its outcome: the two listings, then
    nothing but downloads of listed raw keys from the bucket of the run and
    uploads of one of the four outputs of such a key, whose draw was not in
    Silver when the run started.  The store after the run is the store
    before it with those uploads applied in order; no object is removed. *)
Theorem calls_of_a_run `{Runtime} `{Parser} `{Config} `{Storage}
    (bucket_name raw_prefix simple_prefix silver_prefix : string)
    (w w' : world) (r : result unit) :
  transform bucket_name raw_prefix simple_prefix silver_prefix w = (w', r) →
  ∃ evs,
    trace w' = (trace w
                ++ ListProcessed bucket_name (silver_prefix +:+ "sorteos/")
                   :: ListFiles bucket_name raw_prefix :: evs)%list ∧
    objects w' = replay (objects w) evs ∧
    grows (objects w) (objects w') ∧
    Forall (λ ev, ∃ raw_file,
              raw_file ∈ list_keys (objects w) bucket_name raw_prefix ∧
              call_of_file bucket_name simple_prefix silver_prefix
                (processed_sorteos (objects w) bucket_name
                   (silver_prefix +:+ "sorteos/"))
                raw_file ev) evs.
Proof.
  rewrite transform_unfold.
  intros (evs & Htr & Hobj & Hall)%for_each_events. exists evs.
  simpl in Htr, Hobj. split; [by rewrite Htr, <- !app_assoc|].
  split; [done|]. split; [|done]. rewrite Hobj. apply grows_replay.
Qed.

Lemma calls_of_a_run_witness :
  ∃ w' r evs,
    transform "lottery-partitioned" "raw/" "processed/" "silver/" world_two
      = (w', r) ∧
    trace w' = (trace world_two
                ++ ListProcessed "lottery-partitioned" "silver/sorteos/"
                   :: ListFiles "lottery-partitioned" "raw/" :: evs)%list ∧
    objects w' = replay (objects world_two) evs.
Proof.
  destruct (transform "lottery-partitioned" "raw/" "processed/" "silver/"
              world_two) as [w' r] eqn:Hrun.
  destruct (calls_of_a_run _ _ _ _ _ _ _ Hrun) as (evs & Htr & Hobj & _).
  exists w', r, evs. split; [reflexivity|]. split; [exact Htr|exact Hobj].
Defined.





(** X13.  The canonical keys and the listing of Silver: for both datasets,
    the draw number read back from the canonical key is the number the key
    was written with, whatever the year; and of the two canonical objects of
    a draw only the [sorteos] one lies under the prefix that the listing of
    the processed draws looks at. *)
Theorem canonical_key_round_trip (dataset : string) (year n : N) :
  dataset ∈ ["sorteos"; "premios"] →
  let key := partitioned_key SILVER_PREFIX_DEFAULT dataset year n in
  re_search_sorteo key = Some n ∧
  (startswith (SILVER_PREFIX_DEFAULT +:+ "sorteos/") key = true
   ↔ dataset = "sorteos").
Proof.
  intros Hds. cbv zeta.
  assert (∀ tail, re_search_sorteo
            (str_of_N year +:+ "/" +:+ "sorteo=" +:+ str_of_N n
               +:+ String "/" tail) = Some n) as Hsearch.
  { intros tail. unfold str_of_N at 1. rewrite re_search_sorteo_digits.
    change (match match_sorteo_here
                    ("sorteo=" +:+ str_of_N n +:+ String "/" tail)
            with
            | Some m => Some m
            | None => re_search_sorteo
                        ("orteo=" +:+ str_of_N n +:+ String "/" tail)
            end = Some n).
    by rewrite match_sorteo_here_printed. }
  apply elem_of_cons in Hds as [->|Hds];
    [|apply elem_of_cons in Hds as [->|Hds]; [|by apply elem_of_nil in Hds]].
  - split; [|done]. unfold partitioned_key, SILVER_PREFIX_DEFAULT.
    exact (Hsearch ("sorteos" +:+ ".parquet")).
  - split; [|done]. unfold partitioned_key, SILVER_PREFIX_DEFAULT.
    exact (Hsearch ("premios" +:+ ".parquet")).
Qed.

Lemma canonical_key_round_trip_witness :
  re_search_sorteo (partitioned_key "silver/" "premios" 2024 1234)
    = Some 1234%N.
Proof.
  apply (canonical_key_round_trip "premios" 2024 1234).
  apply elem_of_cons. right. apply elem_of_cons. by left.
Defined.

(** X14.  The job, from its command line: when the arguments resolve, the
    run reads the raw keys in the partitioned bucket and writes to two
    places only: the simple bucket under the processed prefix, and the
    partitioned bucket under [silver/].  The buckets are those of the
    arguments when these are not empty, else those of the secrets. *)
Theorem job_touches_two_buckets `{Runtime} `{Parser} `{Storage} `{Glue}
    (cfg : Config) (argv : list string) (args : gmap string string)
    (raw_prefix processed_prefix : string) (w w' : world) (r : result unit) :
  getResolvedOptions argv JOB_OPTIONS = ok args →
  args !! "RAW_PREFIX" = Some raw_prefix →
  args !! "PROCESSED_PREFIX" = Some processed_prefix →
  main_argv cfg argv w = (w', r) →
  let partitioned :=
    override args "PARTITIONED_BUCKET" (@partitioned_bucket cfg) in
  let simple := override args "SIMPLE_BUCKET" (@simple_bucket cfg) in
  ∃ evs,
    trace w' = (trace w
                ++ ListProcessed partitioned "silver/sorteos/"
                   :: ListFiles partitioned raw_prefix :: evs)%list ∧
    Forall (λ ev,
              match ev with
              | Download b k =>
                  b = partitioned ∧
                  k ∈ list_keys (objects w) partitioned raw_prefix
              | Upload b k _ =>
                  (b = simple ∧ startswith processed_prefix k = true) ∨
                  (b = partitioned ∧ startswith "silver/" k = true)
              | _ => False
              end) evs.
Proof.
  intros Hargs Hraw Hproc Hrun partitioned simple.
  unfold main_argv, lift in Hrun. unfold mbind, M_bind in Hrun.
  rewrite Hargs in Hrun. unfold dict_getitem, ok in Hrun. cbv beta iota in Hrun.
  rewrite Hraw in Hrun. cbv beta iota in Hrun.
  rewrite Hproc in Hrun. cbv beta iota in Hrun. unfold main in Hrun.
  apply (@calls_of_a_run _ _ (effective_config cfg args) _) in Hrun
    as (evs & Htr & _ & _ & Hall).
  exists evs. split; [exact Htr|].
  eapply Forall_impl; [exact Hall|]. intros ev (f & Hf & Hev).
  destruct ev as [| |b k|b k body]; simpl in Hev; [done|done| |].
  - destruct Hev as [-> ->]. by split.
  - destruct Hev as (n & y & sb & pb & _ & _ & Hout).
    unfold outputs in Hout.
    repeat (apply elem_of_cons in Hout as [[= -> -> ->]|Hout]);
      [left|left|right|right|by apply elem_of_nil in Hout];
      (split; [done|]); apply startswith_app.
Qed.

Lemma job_touches_two_buckets_witness :
  ∃ w' r evs,
    main_argv fixture_config argv_job world_one = (w', r) ∧
    trace w' = (trace world_one
                ++ ListProcessed "lottery-partitioned" "silver/sorteos/"
                   :: ListFiles "lottery-partitioned" "raw/" :: evs)%list.
Proof.
  destruct (main_argv fixture_config argv_job world_one) as [w' r] eqn:Hrun.
  pose (args := argv_pairs (List.tl argv_job)).
  assert (getResolvedOptions argv_job JOB_OPTIONS = ok args) as Hargs
    by (vm_compute; reflexivity).
  assert (args !! "RAW_PREFIX" = Some "raw/") as Hraw
    by (vm_compute; reflexivity).
  assert (args !! "PROCESSED_PREFIX" = Some "processed/") as Hproc
    by (vm_compute; reflexivity).
  assert (override args "PARTITIONED_BUCKET" "lottery-partitioned"
          = "lottery-partitioned") as Hpart by (vm_compute; reflexivity).
  destruct (job_touches_two_buckets fixture_config argv_job args
              "raw/" "processed/" world_one w' r Hargs Hraw Hproc Hrun)
    as (evs & Htr & _).
  exists w', r, evs. split; [reflexivity|].
  change (@partitioned_bucket fixture_config) with "lottery-partitioned" in Htr.
  rewrite Hpart in Htr. exact Htr.
Defined.

(** X15.  [_to_string] keeps nulls null and makes text of every other cell:
    a cell of the result is null exactly when the cell it comes from is
    null (never the text of a null), every cell that is not null is text,
    a text cell is left as it is, and casting twice changes nothing. *)
Theorem to_string_keeps_nulls `{Runtime} (series : list value) :
  length (_to_string series) = length series ∧
  (∀ i v, series !! i = Some v →
     ∃ x, _to_string series !! i = Some x ∧
          isna x = isna v ∧
          (isna v = true → x = VNull) ∧
          (isna v = false → ∃ s, x = VStr s) ∧
          (∀ s, v = VStr s → x = VStr s)) ∧
  _to_string (_to_string series) = _to_string series.
Proof.
  unfold _to_string. split; [by rewrite length_fmap|]. split.
  - intros i v Hv. exists (astype_string_cell v).
    rewrite list_lookup_fmap, Hv. split; [done|].
    unfold astype_string_cell.
    destruct v as [|s|z|f|t]; simpl; repeat split; eauto; try done;
      destruct (is_nan f); simpl; eauto; try done.
    all: intros s [= ].
  - rewrite <- list_fmap_compose. apply list_fmap_ext. intros i v _.
    unfold compose, astype_string_cell.
    destruct v as [|s|z|f|t]; simpl; try done. by destruct (is_nan f).
Qed.

Lemma to_string_keeps_nulls_witness :
  ∃ x, _to_string [VNull; VStr "AB"] !! 0%nat = Some x ∧ isna x = true.
Proof.
  destruct (to_string_keeps_nulls [VNull; VStr "AB"]) as (_ & Hcell & _).
  destruct (Hcell 0%nat VNull eq_refl) as (x & Hx & Hna & _).
  exists x. split; [exact Hx|exact Hna].
Defined.

(** X16.  What a file that normalizes gives to write: a draw table of one
    row, rectangular, with one cell in each of the nine columns of its
    schema and no [reintegros] column; and a prize table with the seven
    Silver columns and no other. *)
Theorem tables_of_a_file `{Runtime} `{Parser}
    (numero_sorteo : N) (file_content : string)
    (sorteos_df premios_df : DataFrame) (year : N) :
  parse_and_normalize numero_sorteo file_content
    = ok (sorteos_df, premios_df, year) →
  nrows sorteos_df = 1%nat ∧
  rectangular sorteos_df ∧
  columns sorteos_df !! "reintegros" = None ∧
  (∀ c, c ∈ SORTEOS_SCHEMA_COLUMNS →
        ∃ x, columns sorteos_df !! c = Some [x]) ∧
  (∀ c, is_Some (columns premios_df !! c) ↔ c ∈ PREMIOS_COLUMNS).
Proof.
  unfold parse_and_normalize, normalize_records. intros Hb.
  apply bind_ok in Hb as ([hl bl] & _ & Hb).
  apply bind_ok in Hb as (header & _ & Hb).
  apply bind_ok in Hb as (premios & _ & Hb).
  apply bind_ok in Hb as (premios' & _ & Hb).
  apply bind_ok in Hb as (pdf0 & _ & Hb).
  apply bind_ok in Hb as (pdf1 & Hpremios & Hb).
  apply bind_ok in Hb as (sdf1 & Hsorteos & Hb).
  apply bind_ok in Hb as (y1 & _ & Hb).
  apply ok_inj in Hb. injection Hb as <- <- <-.
  destruct (sorteos_schema_dom _ _ Hsorteos) as [Hn Hdom].
  assert (rectangular sdf1) as Hrect.
  { eapply sorteos_schema_rectangular; [|exact Hsorteos].
    apply rectangular_of_records. }
  split; [done|]. split; [done|]. split; [|split].
  - apply eq_None_not_Some. intros [Hc|[Hne _]]%Hdom; [|by apply Hne].
    revert Hc. apply (bool_decide_unpack _). by vm_compute.
  - intros c Hc. rewrite <- SORTEOS_PLAN_columns in Hc.
    apply list_elem_of_fmap in Hc as ([c' f] & -> & Hin). simpl.
    rewrite enforce_sorteos_schema_plan in Hsorteos.
    apply bind_ok in Hsorteos as (df1 & _ & Hplan).
    destruct (cast_plan_ok _ _ _ SORTEOS_PLAN_NoDup Hplan) as (Hcast & _).
    destruct (Hcast c' f Hin) as (s & s' & _ & _ & Hs').
    pose proof (Hrect _ _ Hs') as Hlen. rewrite Hn in Hlen. simpl in Hlen.
    destruct s' as [|x [|? ?]]; try done. by exists x.
  - by destruct (premios_schema_dom _ _ Hpremios).
Qed.

Lemma tables_of_a_file_witness :
  ∃ sorteos_df premios_df year,
    parse_and_normalize 1234 file_1234 = ok (sorteos_df, premios_df, year) ∧
    nrows sorteos_df = 1%nat ∧
    columns premios_df !! "vendido_por" = None.
Proof.
  destruct (parse_and_normalize 1234 file_1234)
    as [e|[[sorteos_df premios_df] year]] eqn:Hrun; [by vm_compute in Hrun|].
  destruct (tables_of_a_file _ _ _ _ _ Hrun) as (Hn & _ & _ & _ & Hcols).
  exists sorteos_df, premios_df, year. split; [reflexivity|].
  split; [exact Hn|]. apply eq_None_not_Some. intros Hc. apply Hcols in Hc.
  revert Hc. apply (bool_decide_unpack _). vm_compute. reflexivity.
Defined.


(* ================================================================== *)
(** ** The placeholders, in both tables                                *)
(* ================================================================== *)

Section Canonical.
Context `{Runtime}.





Section Pandas.
(** What pandas makes of a placeholder: no number and no date. *)
Hypothesis Hnumber : ∀ s, is_placeholder s = true → is_nan (parse_number s) = true.
Hypothesis Hdate : ∀ s, is_placeholder s = true → strptime s = None.





End Pandas.



End Canonical.


